(** * dbsake.core.mysql.frm.mysqltypes

    A shallow embedding of [dbsake/core/mysql/frm/mysqltypes.py]: the
    formatting of MySQL column types ([format_type_*]) and the decoding of
    column defaults from the record buffer of a .frm file ([unpack_type_*]),
    followed by the properties established about them.

    Python values are embedded as follows.
    - [int] is [Z]; [//] and [%] are [Z.div] and [Z.modulo] (both floor),
      [&], [^], [~], [<<], [>>] are [Z.land], [Z.lxor], [Z.lnot],
      [Z.shiftl], [Z.shiftr].
    - [bytes] is [list byte]; [str] is [string].
    - an enum member ([MySQLType], [Utype], the geometry subtype) is the
      record of its [name]; two members are equal when their names are.
    - a raised exception is the [Raise] case of [result].
    - the two cursors are explicit: the [ByteReader] is threaded through the
      [Reader] monad, and [unpack_default] returns the updated [Context]. *)

From Stdlib Require Import ZArith List String Ascii Bool Lia DecimalString.
From Stdlib.Strings Require Import Byte.
From Stdlib Require Decimal DecimalFacts DecimalPos DecimalZ.
Import ListNotations.

Local Open Scope string_scope.
Local Open Scope Z_scope.

(** ** Python built-ins used by the module *)

Module Py.

(** The exceptions the module can raise or let through. [ShortRead] is the
    failure of the byte reader when the buffer is exhausted. *)
Inductive exn : Set :=
| LookupError
| KeyError
| IndexError
| NotImplementedError
| TypeError
| ValueError
| ZeroDivisionError
| StructError
| UnicodeDecodeError
| ShortRead.

Inductive result (A : Type) : Type :=
| Ok (a : A)
| Raise (e : exn).

Arguments Ok {A} a.
Arguments Raise {A} e.

Definition rbind {A B} (m : result A) (k : A -> result B) : result B :=
  match m with
  | Ok a => k a
  | Raise e => Raise e
  end.

(** [str(i)] for an [int]. *)
Definition str (z : Z) : string := NilZero.string_of_int (Z.to_int z).

Fixpoint replicate (n : nat) (c : ascii) : string :=
  match n with
  | O => EmptyString
  | S k => String c (replicate k c)
  end.

(** [s.zfill(width)]: zeros go after a leading sign. *)
Definition zfill (width : Z) (s : string) : string :=
  let n := Z.of_nat (String.length s) in
  if width <=? n then s
  else
    let zeros := replicate (Z.to_nat (width - n)) "0"%char in
    match s with
    | String c rest =>
        if (Ascii.eqb c "-" || Ascii.eqb c "+")%bool
        then String c (zeros ++ rest)
        else zeros ++ s
    | EmptyString => zeros
    end.

(** ["%0wd" % z] and ["{:0w}".format(z)]: the sign-aware zero padding of the
    decimal rendering, which is [str(z).zfill(w)]. *)
Definition fmt_0d (w : Z) (z : Z) : string := zfill w (str z).

(** ["{:w}".format(z)] for an [int]: right aligned, padded with spaces. *)
Definition fmt_wd (w : Z) (z : Z) : string :=
  let s := str z in
  replicate (Z.to_nat (w - Z.of_nat (String.length s))) " "%char ++ s.

Definition lower_ascii (c : ascii) : ascii :=
  let n := nat_of_ascii c in
  if ((65 <=? n) && (n <=? 90))%nat then ascii_of_nat (n + 32) else c.

(** [s.lower()] on ASCII text. *)
Fixpoint lower (s : string) : string :=
  match s with
  | EmptyString => EmptyString
  | String c r => String (lower_ascii c) (lower r)
  end.

(** [s.lstrip('0')]. *)
Fixpoint lstrip0 (s : string) : string :=
  match s with
  | String c r => if Ascii.eqb c "0" then lstrip0 r else s
  | EmptyString => EmptyString
  end.

(** [s.rstrip(' ')]. *)
Fixpoint rstrip_space (s : string) : string :=
  match s with
  | EmptyString => EmptyString
  | String c r =>
      match rstrip_space r with
      | EmptyString => if Ascii.eqb c " " then EmptyString else String c EmptyString
      | r' => String c r'
      end
  end.

(** [sep.join(l)]. *)
Fixpoint join (sep : string) (l : list string) : string :=
  match l with
  | [] => EmptyString
  | [x] => x
  | x :: r => x ++ sep ++ join sep r
  end.

(** [s.partition('.')[0::2]]: the text before and after the first dot. *)
Fixpoint partition_dot (s : string) : string * string :=
  match s with
  | EmptyString => (EmptyString, EmptyString)
  | String c r =>
      if Ascii.eqb c "." then (EmptyString, r)
      else let '(a, b) := partition_dot r in (String c a, b)
  end.

(** Index of a slice bound, as Python clamps it. *)
Definition clamp_index (len i : Z) : Z :=
  if i <? 0 then Z.max 0 (len + i) else Z.min i len.

(** [l[lo:hi]]; [None] is an omitted bound. *)
Definition slice {A} (l : list A) (lo hi : option Z) : list A :=
  let n := Z.of_nat (List.length l) in
  let a := match lo with None => 0 | Some i => clamp_index n i end in
  let b := match hi with None => n | Some i => clamp_index n i end in
  firstn (Z.to_nat (b - a)) (skipn (Z.to_nat a) l).

Definition str_slice (s : string) (lo hi : option Z) : string :=
  string_of_list_ascii (slice (list_ascii_of_string s) lo hi).

(** [l[i]]: a negative index counts from the end; out of range raises
    [IndexError]. *)
Definition index {A} (l : list A) (i : Z) : result A :=
  let n := Z.of_nat (List.length l) in
  let j := if i <? 0 then n + i else i in
  if (j <? 0) || (n <=? j) then Raise IndexError
  else match nth_error l (Z.to_nat j) with
       | Some x => Ok x
       | None => Raise IndexError
       end.

Definition byte_val (b : byte) : Z := Z.of_N (Byte.to_N b).

(** The byte of an integer in 0..255 ([struct.pack('B', v)]). *)
Definition byte_of (v : Z) : byte :=
  match Byte.of_N (Z.to_N v) with
  | Some b => b
  | None => x00
  end.

Definition be_uint (l : list byte) : Z :=
  fold_left (fun acc b => acc * 256 + byte_val b) l 0.

Definition le_uint (l : list byte) : Z := be_uint (rev l).

(** Two's complement reading of a [w]-bit unsigned value. *)
Definition signed (w : Z) (v : Z) : Z :=
  if v <? 2 ^ (w - 1) then v else v - 2 ^ w.

(** [struct.unpack('>' + 'i'*k, data)] with [k = len(data) // 4]:
    [struct.error] unless the length is a multiple of four. *)
Fixpoint unpack_be_i32s (data : list byte) : result (list Z) :=
  match data with
  | [] => Ok []
  | a :: b :: c :: d :: rest =>
      rbind (unpack_be_i32s rest)
            (fun gs => Ok (signed 32 (be_uint [a; b; c; d]) :: gs))
  | _ => Raise StructError
  end.

(** [data.replace(b"\x00", b"\\0")]. *)
Fixpoint replace_nul (data : list byte) : list byte :=
  match data with
  | [] => []
  | b :: r =>
      if Byte.eqb b x00 then "\"%byte :: "0"%byte :: replace_nul r
      else b :: replace_nul r
  end.

(** U+FFFD in UTF-8, the replacement character of a permissive decode. *)
Definition replacement_character : string :=
  String (ascii_of_byte xef) (String (ascii_of_byte xbf)
         (String (ascii_of_byte xbd) EmptyString)).

(** [data.decode('ascii', 'replace')]. *)
Fixpoint decode_ascii_replace (data : list byte) : string :=
  match data with
  | [] => EmptyString
  | b :: r =>
      if byte_val b <? 128
      then String (ascii_of_byte b) (decode_ascii_replace r)
      else replacement_character ++ decode_ascii_replace r
  end.

(** [data.decode('ascii')]. *)
Fixpoint decode_ascii (data : list byte) : result string :=
  match data with
  | [] => Ok EmptyString
  | b :: r =>
      if byte_val b <? 128
      then rbind (decode_ascii r) (fun s => Ok (String (ascii_of_byte b) s))
      else Raise UnicodeDecodeError
  end.

Fixpoint bin_pos (p : positive) (acc : string) : string :=
  match p with
  | xH => String "1" acc
  | xO q => bin_pos q (String "0" acc)
  | xI q => bin_pos q (String "1" acc)
  end.

(** [bin(v)[2:]] for a non-negative [v]. *)
Definition bin_digits (v : Z) : string :=
  match v with
  | Zpos p => bin_pos p EmptyString
  | _ => "0"
  end.

(** Truth value of an [int]. *)
Definition truthy (z : Z) : bool := negb (z =? 0).

End Py.

Import Py.

(** ** The data model *)

(** A member of a Python [Enum], known by its [name] alone: the module only
    compares members and reads their names, and the enumerations themselves
    ([MySQLType], [Utype] of [constants.py]) are not among the sources. *)
Module Enum.
Record t : Set := Member { name : string }.
Definition eqb (a b : t) : bool := String.eqb (name a) (name b).
End Enum.

(** The members of [constants.Utype] the module refers to. *)
Module Utype.
Definition NEXT_NUMBER : Enum.t := Enum.Member "NEXT_NUMBER".
Definition BLOB_FIELD : Enum.t := Enum.Member "BLOB_FIELD".
End Utype.

(** Modelled from the spec: the charset descriptor, whose class belongs to
    the charset catalog and is not among the sources. It gives the name, the
    collation and the default-collation flag, the maximum bytes per
    character, and [pycharset], the name of the codec that decodes its
    text. *)
Module Charset.
Record t : Set := Make {
  name : string;
  collation : string;
  is_default : bool;
  maxlen : Z;
  pycharset : string
}.
Definition eqb (a b : t) : bool :=
  String.eqb (name a) (name b) && String.eqb (collation a) (collation b)
  && Bool.eqb (is_default a) (is_default b) && (maxlen a =? maxlen b)
  && String.eqb (pycharset a) (pycharset b).
End Charset.

(** The field flags: the attributes the module reads, and [int(flags)]. *)
Record Flags : Set := {
  NO_DEFAULT : bool;
  MAYBE_NULL : bool;
  DECIMAL : bool;
  ZEROFILL : bool;
  to_int : Z
}.

(** The column context. [table_charset] is [context.table.charset]. *)
Record Context : Set := {
  type_code : Enum.t;
  flags : Flags;
  length : Z;
  charset : Charset.t;
  table_charset : Charset.t;
  labels : list string;
  unireg_check : Enum.t;
  subtype_code : Enum.t;
  null_bit : Z;
  null_map : list byte
}.

Definition set_null_bit (ctx : Context) (v : Z) : Context :=
  {| type_code := type_code ctx; flags := flags ctx; length := length ctx;
     charset := charset ctx; table_charset := table_charset ctx;
     labels := labels ctx; unireg_check := unireg_check ctx;
     subtype_code := subtype_code ctx; null_bit := v;
     null_map := null_map ctx |}.

Definition set_unireg_check (ctx : Context) (u : Enum.t) : Context :=
  {| type_code := type_code ctx; flags := flags ctx; length := length ctx;
     charset := charset ctx; table_charset := table_charset ctx;
     labels := labels ctx; unireg_check := u;
     subtype_code := subtype_code ctx; null_bit := null_bit ctx;
     null_map := null_map ctx |}.

(** ** The byte reader *)

Inductive endian : Set := Little | Big.

(** A Python [float], denoted by the bytes it was read from. *)
Inductive pyfloat : Set :=
| Float32 (raw : list byte)
| Float64 (raw : list byte).

(** Modelled from the spec: the primitive reader [util.ByteReader], which is
    not among the sources. It is a byte sequence with one advancing cursor,
    offering raw N-byte reads, fixed-width signed and unsigned integer reads
    (8 to 64 bits) in either byte order and 32/64-bit floating-point reads.
    A read for which fewer bytes remain than required fails and leaves the
    cursor where it was; a count below zero reads nothing. *)
Module ByteReader.

Record t : Set := Make { buffer : list byte; offset : nat }.

Definition remaining (r : t) : Z :=
  Z.of_nat (List.length (buffer r)) - Z.of_nat (offset r).

Definition advance (r : t) (n : Z) : t :=
  {| buffer := buffer r; offset := (offset r + Z.to_nat n)%nat |}.

(** The byte under the cursor. *)
Definition peek (r : t) : byte := nth (offset r) (buffer r) x00.

End ByteReader.

(** Computations over the default buffer: the reader is threaded through,
    and the outcome is a value or a raised exception. *)
Definition Reader (A : Type) : Type := ByteReader.t -> ByteReader.t * result A.

Definition ret {A} (a : A) : Reader A := fun r => (r, Ok a).

Definition raise {A} (e : exn) : Reader A := fun r => (r, Raise e).

Definition bind {A B} (m : Reader A) (k : A -> Reader B) : Reader B :=
  fun r => match m r with
           | (r', Ok a) => k a r'
           | (r', Raise e) => (r', Raise e)
           end.

Definition lift {A} (m : result A) : Reader A := fun r => (r, m).

Notation "x <- m ;; k" := (bind m (fun x => k))
  (at level 61, m at next level, right associativity).

Definition read (n : Z) : Reader (list byte) := fun r =>
  if n <=? ByteReader.remaining r
  then (ByteReader.advance r n,
        Ok (firstn (Z.to_nat n) (skipn (ByteReader.offset r) (ByteReader.buffer r))))
  else (r, Raise ShortRead).

Definition decode_uint (e : endian) (data : list byte) : Z :=
  match e with Big => be_uint data | Little => le_uint data end.

Definition read_uint (nbytes : Z) (e : endian) : Reader Z :=
  data <- read nbytes ;; ret (decode_uint e data).

Definition read_sint (nbytes : Z) (e : endian) : Reader Z :=
  data <- read nbytes ;; ret (signed (8 * nbytes) (decode_uint e data)).

Definition uint8 := read_uint 1.
Definition uint16 := read_uint 2.
Definition uint24 := read_uint 3.
Definition uint32 := read_uint 4.
Definition uint40 := read_uint 5.
Definition uint48 := read_uint 6.
Definition uint64 := read_uint 8.
Definition sint8 := read_sint 1.
Definition sint16 := read_sint 2.
Definition sint24 := read_sint 3.
Definition sint32 := read_sint 4.
Definition sint64 := read_sint 8.

Definition read_float (e : endian) : Reader pyfloat :=
  data <- read 4 ;;
  ret (Float32 (match e with Big => data | Little => rev data end)).

Definition read_double (e : endian) : Reader pyfloat :=
  data <- read 8 ;;
  ret (Float64 (match e with Big => data | Little => rev data end)).

(** ** What the module takes from outside

    [constants.py] and [util.py] are not part of the sources at hand, and
    floating point, codecs and the local time zone belong to the Python
    runtime; the module is embedded over these. *)
Record Extern : Type := {
  (** the byte order of a reader method called without [endian] *)
  default_endian : endian;
  (** [constants.FieldFlag.DEC_SHIFT] and [constants.FieldFlag.MAX_DEC] *)
  DEC_SHIFT : Z;
  MAX_DEC : Z;
  (** [constants.MAX_TIME_WIDTH] and [constants.MAX_DATETIME_WIDTH] *)
  MAX_TIME_WIDTH : Z;
  MAX_DATETIME_WIDTH : Z;
  (** [data.decode(codec)] *)
  codec_decode : string -> list byte -> result string;
  (** [datetime.datetime.fromtimestamp(epoch).strftime('%Y-%m-%d %H:%M:%S')] *)
  fromtimestamp_strftime : Z -> string;
  (** ['%.*g' % (precision, value)] *)
  format_g : Z -> pyfloat -> string;
  (** [_unpack_type_datetime_hires] past scale 6, where [10**(6 - scale)]
      is a float: the text it renders from the stored integer and the scale *)
  datetime_hires_float : Z -> Z -> string
}.

(** ** A concrete environment

    The values of MySQL's headers for the constants, a little-endian reader,
    the [ascii] and [latin1] codecs with text held as UTF-8, and the UTC
    civil calendar for [fromtimestamp]. Floats have no rendering here: the
    evaluations made in this environment read none. *)
Module Sample.

(** [data.decode('latin1')]. *)
Fixpoint decode_latin1 (data : list byte) : string :=
  match data with
  | [] => EmptyString
  | b :: r =>
      let v := byte_val b in
      if v <? 128 then String (ascii_of_byte b) (decode_latin1 r)
      else String (ascii_of_byte (byte_of (192 + v / 64)))
             (String (ascii_of_byte (byte_of (128 + v mod 64)))
                     (decode_latin1 r))
  end.

(** An unknown codec name is a [LookupError]. *)
Definition decode (codec : string) (data : list byte) : result string :=
  if String.eqb codec "ascii" then decode_ascii data
  else if String.eqb codec "latin1" then Ok (decode_latin1 data)
  else Raise LookupError.

(** Year, month and day of a day count from 1970-01-01. *)
Definition civil_from_days (days : Z) : Z * Z * Z :=
  let z := days + 719468 in
  let era := z / 146097 in
  let doe := z - era * 146097 in
  let yoe := (doe - doe / 1460 + doe / 36524 - doe / 146096) / 365 in
  let doy := doe - (365 * yoe + yoe / 4 - yoe / 100) in
  let mp := (5 * doy + 2) / 153 in
  let d := doy - (153 * mp + 2) / 5 + 1 in
  let m := if mp <? 10 then mp + 3 else mp - 9 in
  let y := yoe + era * 400 + (if m <=? 2 then 1 else 0) in
  (y, m, d).

Definition utc_strftime (epoch : Z) : string :=
  let '(y, m, d) := civil_from_days (epoch / 86400) in
  let secs := epoch mod 86400 in
  fmt_0d 4 y ++ "-" ++ fmt_0d 2 m ++ "-" ++ fmt_0d 2 d ++ " "
  ++ fmt_0d 2 (secs / 3600) ++ ":" ++ fmt_0d 2 ((secs / 60) mod 60) ++ ":"
  ++ fmt_0d 2 (secs mod 60).

Definition env : Extern :=
  {| default_endian := Little;
     DEC_SHIFT := 8;
     MAX_DEC := 31;
     MAX_TIME_WIDTH := 10;
     MAX_DATETIME_WIDTH := 19;
     codec_decode := decode;
     fromtimestamp_strftime := utc_strftime;
     format_g := fun _ _ => "nan";
     datetime_hires_float := fun _ _ => "nan" |}.

Definition latin1 : Charset.t :=
  Charset.Make "latin1" "latin1_swedish_ci" true 1 "latin1".

Definition binary : Charset.t :=
  Charset.Make "binary" "binary" true 1 "latin1".

Definition no_flags : Flags :=
  {| NO_DEFAULT := false; MAYBE_NULL := false; DECIMAL := false;
     ZEROFILL := false; to_int := 0 |}.

(** A column of the given type: no flags, length 0, latin1 in a latin1
    table, no labels, no unireg check, an empty null map. *)
Definition column (type_name : string) : Context :=
  {| type_code := Enum.Member type_name;
     flags := no_flags;
     length := 0;
     charset := latin1;
     table_charset := latin1;
     labels := [];
     unireg_check := Enum.Member "NONE";
     subtype_code := Enum.Member "GEOMETRY";
     null_bit := 0;
     null_map := [] |}.

Definition with_labels (context : Context) (l : list string) : Context :=
  {| type_code := type_code context; flags := flags context;
     length := length context; charset := charset context;
     table_charset := table_charset context; labels := l;
     unireg_check := unireg_check context;
     subtype_code := subtype_code context; null_bit := null_bit context;
     null_map := null_map context |}.

Definition with_length (context : Context) (n : Z) : Context :=
  {| type_code := type_code context; flags := flags context;
     length := n; charset := charset context;
     table_charset := table_charset context; labels := labels context;
     unireg_check := unireg_check context;
     subtype_code := subtype_code context; null_bit := null_bit context;
     null_map := null_map context |}.

Definition with_flags (context : Context) (fl : Flags) : Context :=
  {| type_code := type_code context; flags := fl;
     length := length context; charset := charset context;
     table_charset := table_charset context; labels := labels context;
     unireg_check := unireg_check context;
     subtype_code := subtype_code context; null_bit := null_bit context;
     null_map := null_map context |}.

Definition with_charset (context : Context) (cs : Charset.t) : Context :=
  {| type_code := type_code context; flags := flags context;
     length := length context; charset := cs;
     table_charset := table_charset context; labels := labels context;
     unireg_check := unireg_check context;
     subtype_code := subtype_code context; null_bit := null_bit context;
     null_map := null_map context |}.

Definition with_null_map (context : Context) (m : list byte) : Context :=
  {| type_code := type_code context; flags := flags context;
     length := length context; charset := charset context;
     table_charset := table_charset context; labels := labels context;
     unireg_check := unireg_check context;
     subtype_code := subtype_code context; null_bit := null_bit context;
     null_map := m |}.

(** An ENUM('a','b','c') column. *)
Definition enum_abc : Context := with_labels (column "ENUM") ["a"; "b"; "c"].

(** An INT(11) UNSIGNED ZEROFILL NOT NULL column. *)
Definition int11_unsigned_zerofill : Context :=
  with_length
    (with_flags (column "LONG")
       {| NO_DEFAULT := false; MAYBE_NULL := false; DECIMAL := false;
          ZEROFILL := true; to_int := 4 |})
    11.

(** A nullable column flagged as having no stored default. *)
Definition nullable_no_default : Context :=
  with_null_map
    (with_flags (column "LONG")
       {| NO_DEFAULT := true; MAYBE_NULL := true; DECIMAL := true;
          ZEROFILL := false; to_int := 49153 |})
    [x00].

(** A nullable INT column, first in a null map that marks it NULL. *)
Definition nullable_int_null : Context :=
  with_null_map
    (with_flags (column "LONG")
       {| NO_DEFAULT := false; MAYBE_NULL := true; DECIMAL := true;
          ZEROFILL := false; to_int := 32769 |})
    [x01].

(** A TIMESTAMP(3) column; the length is that of scale 3. *)
Definition timestamp3 : Context := with_length (column "TIMESTAMP2") 23.

(** A DATETIME column without fraction. *)
Definition datetime0 : Context := with_length (column "DATETIME2") 20.

(** A BINARY(1) column (also read below as VARBINARY(1)). *)
Definition binary1 : Context :=
  with_length (with_charset (column "STRING") binary) 1.

(** A signed DECIMAL(18,0) column: the length counts the sign. *)
Definition decimal_18_0 : Context :=
  with_length
    (with_flags (column "NEWDECIMAL")
       {| NO_DEFAULT := false; MAYBE_NULL := false; DECIMAL := true;
          ZEROFILL := false; to_int := 1 |})
    19.

(** A signed DECIMAL(18,9) column: the length counts sign and point, the
    scale sits above [DEC_SHIFT]. *)
Definition decimal_18_9 : Context :=
  with_length
    (with_flags (column "NEWDECIMAL")
       {| NO_DEFAULT := false; MAYBE_NULL := false; DECIMAL := true;
          ZEROFILL := false; to_int := 2305 |})
    20.

(** A signed DECIMAL(10,0) column. *)
Definition decimal_10_0 : Context := with_length decimal_18_0 11.

(** A signed DECIMAL(5,2) column. *)
Definition decimal_5_2 : Context :=
  with_length
    (with_flags (column "NEWDECIMAL")
       {| NO_DEFAULT := false; MAYBE_NULL := false; DECIMAL := true;
          ZEROFILL := false; to_int := 513 |})
    7.

End Sample.

Section MySQLTypes.

Variable E : Extern.

(** A reader method called without its [endian] argument. *)
Let dflt : endian := default_endian E.

Definition NOT_FIXED_DEC : Z := 31.

(** *** Helpers for the decimal pack_flag lookups *)

Definition f_decimals (fl : Flags) : Z :=
  Z.land (Z.shiftr (to_int fl) (DEC_SHIFT E)) (MAX_DEC E).

Definition f_is_dec (fl : Flags) : bool := DECIMAL fl.

Definition f_is_zerofill (fl : Flags) : bool := ZEROFILL fl.

(** ** Formatting of types *)

Definition _format_number (name : string) (context : Context) : string :=
  let value := name in
  let value :=
    if truthy (length context)
    then value ++ "(" ++ str (length context) ++ ")" else value in
  let value :=
    if negb (DECIMAL (flags context)) then value ++ " unsigned" else value in
  let value :=
    if ZEROFILL (flags context) then value ++ " zerofill" else value in
  value.

Definition format_type_tiny (context : Context) : result string :=
  Ok (_format_number "tinyint" context).

Definition format_type_short (context : Context) : result string :=
  Ok (_format_number "smallint" context).

Definition format_type_int24 (context : Context) : result string :=
  Ok (_format_number "mediumint" context).

Definition format_type_long (context : Context) : result string :=
  Ok (_format_number "int" context).

Definition format_type_longlong (context : Context) : result string :=
  Ok (_format_number "bigint" context).

(** Precision and scale as [format_type_newdecimal] and
    [unpack_type_newdecimal] both derive them. *)
Definition decimal_precision (context : Context) : Z :=
  let precision := length context in
  let scale := f_decimals (flags context) in
  let precision := if truthy scale then precision - 1 else precision in
  let precision := if truthy precision then precision - 1 else precision in
  precision.

Definition format_type_newdecimal (context : Context) : result string :=
  let precision := decimal_precision context in
  let scale := f_decimals (flags context) in
  Ok ("decimal(" ++ str precision ++ "," ++ str scale ++ ")").

Definition format_type_decimal := format_type_newdecimal.

Definition _format_real (name : string) (context : Context) : string :=
  let value := name in
  let decimals := f_decimals (flags context) in
  let value :=
    if negb (decimals =? NOT_FIXED_DEC) then
      let precision := length context in
      let scale := decimals in
      if scale <? NOT_FIXED_DEC
      then value ++ "(" ++ str precision ++ "," ++ str scale ++ ")"
      else value
    else value in
  let value :=
    if negb (f_is_dec (flags context)) then value ++ " unsigned" else value in
  let value :=
    if f_is_zerofill (flags context) then value ++ " zerofill" else value in
  value.

Definition format_type_float (context : Context) : result string :=
  Ok (_format_real "float" context).

Definition format_type_double (context : Context) : result string :=
  Ok (_format_real "double" context).

Definition _format_charset (context : Context) : string :=
  let value := "" in
  let value :=
    if negb (Charset.eqb (table_charset context) (charset context))
       && negb (String.eqb (Charset.name (charset context)) "binary")
    then value ++ " CHARACTER SET " ++ Charset.name (charset context)
    else value in
  let value :=
    if negb (Charset.is_default (charset context))
    then value ++ " COLLATE " ++ Charset.collation (charset context)
    else value in
  value.

(** [a // b], raising on a zero divisor. *)
Definition floordiv (a b : Z) : result Z :=
  if b =? 0 then Raise ZeroDivisionError else Ok (a / b).

Definition format_type_string (context : Context) : result string :=
  let name :=
    if String.eqb (Charset.name (charset context)) "binary"
    then "binary" else "char" in
  rbind (floordiv (length context) (Charset.maxlen (charset context)))
        (fun n =>
           let value := name ++ "(" ++ str n ++ ")" in
           Ok (value ++ _format_charset context)).

Definition format_type_varchar (context : Context) : result string :=
  let name :=
    if String.eqb (Charset.name (charset context)) "binary"
    then "varbinary" else "varchar" in
  rbind (floordiv (length context) (Charset.maxlen (charset context)))
        (fun n =>
           let value := name ++ "(" ++ str n ++ ")" in
           Ok (value ++ _format_charset context)).

Definition format_type_var_string := format_type_varchar.

Definition quoted (name : string) : string := "'" ++ name ++ "'".

Definition format_type_enum (context : Context) : result string :=
  let value := "enum(" ++ join "," (map quoted (labels context)) ++ ")" in
  Ok (value ++ _format_charset context).

Definition format_type_set (context : Context) : result string :=
  let value := "set(" ++ join "," (map quoted (labels context)) ++ ")" in
  Ok (value ++ _format_charset context).

Definition format_blob (blob text : string) (context : Context) : result string :=
  if String.eqb (Charset.name (charset context)) "binary"
  then Ok blob
  else Ok (text ++ _format_charset context).

Definition format_type_tiny_blob := format_blob "tinyblob" "tinytext".
Definition format_type_blob := format_blob "blob" "text".
Definition format_type_medium_blob := format_blob "mediumblob" "mediumtext".
Definition format_type_long_blob := format_blob "longblob" "longtext".

Definition format_type_bit (context : Context) : result string :=
  Ok ("bit(" ++ str (length context) ++ ")").

Definition format_scaled (name : string) (width : Z) (context : Context)
  : result string :=
  let scale := length context - width - 1 in
  if 0 <? scale then Ok (name ++ "(" ++ str scale ++ ")") else Ok name.

Definition format_type_time2 := format_scaled "time" (MAX_TIME_WIDTH E).
Definition format_type_time := format_type_time2.
Definition format_type_timestamp2 :=
  format_scaled "timestamp" (MAX_DATETIME_WIDTH E).
Definition format_type_timestamp := format_type_timestamp2.

Definition format_type_year (context : Context) : result string :=
  Ok ("year(" ++ str (length context) ++ ")").

Definition format_type_newdate (context : Context) : result string :=
  Ok "date".

Definition format_type_date := format_type_newdate.

Definition format_type_datetime2 :=
  format_scaled "datetime" (MAX_DATETIME_WIDTH E).
Definition format_type_datetime := format_type_datetime2.

Definition format_type_geometry (context : Context) : result string :=
  Ok (lower (Enum.name (subtype_code context))).

(** The entries of [globals()] whose key starts with [format_type_], keyed
    by what follows that prefix. *)
Definition format_globals : list (string * (Context -> result string)) :=
  [ ("tiny", format_type_tiny); ("short", format_type_short);
    ("int24", format_type_int24); ("long", format_type_long);
    ("longlong", format_type_longlong);
    ("newdecimal", format_type_newdecimal); ("decimal", format_type_decimal);
    ("float", format_type_float); ("double", format_type_double);
    ("string", format_type_string); ("varchar", format_type_varchar);
    ("var_string", format_type_var_string);
    ("enum", format_type_enum); ("set", format_type_set);
    ("tiny_blob", format_type_tiny_blob); ("blob", format_type_blob);
    ("medium_blob", format_type_medium_blob);
    ("long_blob", format_type_long_blob);
    ("bit", format_type_bit);
    ("time2", format_type_time2); ("time", format_type_time);
    ("timestamp2", format_type_timestamp2);
    ("timestamp", format_type_timestamp);
    ("year", format_type_year);
    ("newdate", format_type_newdate); ("date", format_type_date);
    ("datetime2", format_type_datetime2); ("datetime", format_type_datetime);
    ("geometry", format_type_geometry) ].

Fixpoint lookup {A} (key : string) (table : list (string * A)) : option A :=
  match table with
  | [] => None
  | (k, v) :: rest => if String.eqb k key then Some v else lookup key rest
  end.

Definition format_type (context : Context) : result string :=
  let name := lower (Enum.name (type_code context)) in
  match lookup name format_globals with
  | None => Raise LookupError
  | Some dispatch =>
      rbind (dispatch context)
            (fun result =>
               let result :=
                 if negb (MAYBE_NULL (flags context))
                 then result ++ " NOT NULL" else result in
               let result :=
                 if String.eqb (Enum.name (unireg_check context)) "NEXT_NUMBER"
                 then result ++ " AUTO_INCREMENT" else result in
               Ok result)
  end.

(** ** Defaults unpacking *)

(** [struct.unpack_from('B', data, 0)]. *)
Definition unpack_from_B (data : list byte) : result Z :=
  match data with
  | b :: _ => Ok (byte_val b)
  | [] => Raise StructError
  end.

(** [struct.pack('b', v)]. *)
Definition pack_b (v : Z) : result byte :=
  if (-128 <=? v) && (v <=? 127) then Ok (byte_of (v mod 256))
  else Raise StructError.

(** [struct.unpack('>i', data)]. *)
Definition unpack_be_i32 (data : list byte) : result Z :=
  if Z.of_nat (List.length data) =? 4 then Ok (signed 32 (be_uint data))
  else Raise StructError.

(** [struct.unpack('>I', data)]. *)
Definition unpack_be_u32 (data : list byte) : result Z :=
  if Z.of_nat (List.length data) =? 4 then Ok (be_uint data)
  else Raise StructError.

(** [struct.unpack('>Q', data)]. *)
Definition unpack_be_u64 (data : list byte) : result Z :=
  if Z.of_nat (List.length data) =? 8 then Ok (be_uint data)
  else Raise StructError.

(** [n * b] for a one-byte [b]. *)
Definition bytes_times (n : Z) (b : byte) : list byte := repeat b (Z.to_nat n).

(** *** Decimal (exact precision) types *)

Definition unpack_type_decimal (context : Context) : Reader string :=
  data <- read (length context) ;;
  text <- lift (decode_ascii data) ;;
  ret ("'" ++ text ++ "'").

Definition DIG_PER_DEC1 : Z := 9.
Definition DIGITS_TO_BYTES : list Z := [0; 1; 1; 2; 2; 3; 3; 4; 4; 4].

Definition _decode_decimal (data : list byte) (invert : bool) : result string :=
  let modcheck := Z.of_nat (List.length data) mod 4 in
  let data :=
    if negb (modcheck =? 0) then
      let pad := 4 - modcheck in
      let pad_char := if invert then xff else x00 in
      let whole := slice data None (Some (- modcheck)) in
      let frac :=
        (bytes_times pad pad_char ++ slice data (Some (- modcheck)) None)%list in
      (whole ++ frac)%list
    else data in
  rbind (unpack_be_i32s data)
        (fun groups =>
           let groups := if invert then map Z.lnot groups else groups in
           Ok (String.concat "" (map str groups))).

(** ["%r" % s] for a text of digits, [-] and [.], none of which [repr]
    escapes: the text between single quotes. *)
Definition repr_plain (s : string) : string := "'" ++ s ++ "'".

Definition unpack_type_newdecimal (context : Context) : Reader string :=
  let precision := decimal_precision context in
  let scale := f_decimals (flags context) in
  int_bytes <- lift (index DIGITS_TO_BYTES ((precision - scale) mod 9)) ;;
  let int_length := ((precision - scale) / 9) * 4 + int_bytes in
  frac_bytes <- lift (index DIGITS_TO_BYTES (scale mod 9)) ;;
  let frac_length := (scale / 9) * 4 + frac_bytes in
  data <- read (int_length + frac_length) ;;
  first <- lift (unpack_from_B data) ;;
  let sign := if truthy (Z.land first 128) then "" else "-" in
  let invert := negb (String.eqb sign "") in
  let data := byte_of (Z.lxor first 128) :: slice data (Some 1) None in
  int_part <-
    (if truthy int_length then
       integer_part <-
         lift (_decode_decimal (slice data (Some 0) (Some int_length)) invert) ;;
       let integer_part := lstrip0 integer_part in
       let integer_part :=
         if String.eqb integer_part "" then "0" else integer_part in
       ret (sign ++ integer_part)
     else ret (sign ++ "0")) ;;
  parts <-
    (if truthy frac_length then
       fractional_part <-
         lift (_decode_decimal (slice data (Some (- frac_length)) None) invert) ;;
       ret [int_part; zfill scale fractional_part]
     else ret [int_part]) ;;
  ret (repr_plain (join "." parts)).

(** *** Integer types *)

Definition _format_integer_default (value : Z) : string :=
  "'" ++ str value ++ "'".

Definition unpack_type_tiny (context : Context) : Reader string :=
  value <- (if DECIMAL (flags context) then sint8 dflt else uint8 dflt) ;;
  ret (_format_integer_default value).

Definition unpack_type_short (context : Context) : Reader string :=
  value <- (if DECIMAL (flags context) then sint16 dflt else uint16 dflt) ;;
  ret (_format_integer_default value).

Definition unpack_type_int24 (context : Context) : Reader string :=
  value <- (if DECIMAL (flags context) then sint24 dflt else uint24 dflt) ;;
  ret (_format_integer_default value).

Definition unpack_type_long (context : Context) : Reader string :=
  value <- (if DECIMAL (flags context) then sint32 dflt else uint32 dflt) ;;
  ret (_format_integer_default value).

Definition unpack_type_longlong (context : Context) : Reader string :=
  value <- (if DECIMAL (flags context) then sint64 dflt else uint64 dflt) ;;
  ret (_format_integer_default value).

(** *** Floating point types *)

Definition format_real_default (short_precision : Z) (context : Context)
  (value : pyfloat) : string :=
  let scale := f_decimals (flags context) in
  let precision := length context in
  if NOT_FIXED_DEC <=? scale
  then "'" ++ format_g E short_precision value ++ "'"
  else
    let max_scale := if 16 <? precision then 16 else precision in
    let base := format_g E max_scale value in
    let '(int_part, dec_part) := partition_dot base in
    let n := Z.of_nat (String.length dec_part) in
    let dec_part :=
      if n <? scale
      then dec_part ++ replicate (Z.to_nat (scale - n)) "0"%char
      else dec_part in
    "'" ++ int_part ++ "." ++ dec_part ++ "'".

Definition unpack_type_float (context : Context) : Reader string :=
  value <- read_float dflt ;;
  ret (format_real_default 6 context value).

Definition unpack_type_double (context : Context) : Reader string :=
  value <- read_double dflt ;;
  ret (format_real_default 16 context value).

(** *** Null type: [raise NotImplemented] raises a [TypeError], as
    [NotImplemented] is not an exception. *)
Definition unpack_type_null (context : Context) : Reader string :=
  raise TypeError.

(** *** Date/Time types *)

Definition TIME_MAX_HOUR : Z := 838.
Definition TIME_MAX_MINUTE : Z := 59.
Definition TIME_MAX_SECOND : Z := 59.
Definition TIME_MAX_SECOND_PART : Z := 999999.
Definition TIME_SECOND_PART_FACTOR : Z := TIME_MAX_SECOND_PART + 1.
Definition TIME_SECOND_PART_DIGITS : Z := 6.
Definition TIME_MAX_VALUE : Z :=
  TIME_MAX_HOUR * 10000 + TIME_MAX_MINUTE * 100 + TIME_MAX_SECOND.
Definition TIME_MAX_VALUE_SECONDS : Z :=
  TIME_MAX_HOUR * 3600 + TIME_MAX_MINUTE * 60 + TIME_MAX_SECOND.

(** Both are called with [digits <= 6] only, after the lookup in
    [TIME_HIRES_BYTES] has succeeded, so the exponent is not negative. *)
Definition _sec_part_shift (value digits : Z) : Z :=
  value / 10 ^ (TIME_SECOND_PART_DIGITS - digits).

Definition _sec_part_unshift (value digits : Z) : Z :=
  value * 10 ^ (TIME_SECOND_PART_DIGITS - digits).

Definition TIME_HIRES_BYTES : list Z := [3; 4; 4; 5; 5; 5; 6].

Definition _unpack_type_time_hires (context : Context) (scale : Z)
  : Reader string :=
  pack_length <- lift (index TIME_HIRES_BYTES scale) ;;
  dispatch <-
    (if pack_length =? 3 then ret uint24
     else if pack_length =? 4 then ret uint32
     else if pack_length =? 5 then ret uint40
     else if pack_length =? 6 then ret uint48
     else raise KeyError) ;;
  value <- dispatch Big ;;
  let zero_point :=
    _sec_part_shift ((TIME_MAX_VALUE_SECONDS + 1) * TIME_SECOND_PART_FACTOR)
                    scale in
  let value := _sec_part_unshift (value - zero_point) scale in
  let usec := value mod 1000000 in
  let value := value / 1000000 in
  let sec := value mod 60 in
  let value := value / 60 in
  let minute := value mod 60 in
  let value := value / 60 in
  let hour := value in
  let result :=
    fmt_0d 2 hour ++ ":" ++ fmt_0d 2 minute ++ ":" ++ fmt_0d 2 sec
    ++ "." ++ fmt_0d 6 usec in
  let result :=
    if scale <? 6 then str_slice result (Some 0) (Some (- (6 - scale)))
    else result in
  ret ("'" ++ result ++ "'").

Definition unpack_type_time (context : Context) : Reader string :=
  let scale := length context - MAX_TIME_WIDTH E - 1 in
  if 0 <? scale then _unpack_type_time_hires context scale
  else
    value <- uint24 dflt ;;
    let hour := value / 10000 in
    let minute := (value / 100) mod 100 in
    let second := value mod 100 in
    ret ("'" ++ fmt_0d 2 hour ++ ":" ++ fmt_0d 2 minute ++ ":"
         ++ fmt_0d 2 second ++ "'").

Definition unpack_type_time2 (context : Context) : Reader string :=
  data <- read 3 ;;
  first <- lift (unpack_from_B data) ;;
  let is_neg := negb (truthy (Z.land first 128)) in
  packed <- lift (pack_b (first - 128)) ;;
  let data := x00 :: packed :: slice data (Some 1) None in
  value <- lift (unpack_be_i32 data) ;;
  let value := if is_neg then Z.lnot value else value in
  let hour := (Z.shiftr value 12) mod (Z.shiftl 1 10) in
  let minute := (Z.shiftr value 6) mod (Z.shiftl 1 6) in
  let second := value mod (Z.shiftl 1 6) in
  let result :=
    fmt_0d 2 hour ++ ":" ++ fmt_0d 2 minute ++ ":" ++ fmt_0d 2 second in
  let scale := length context - MAX_TIME_WIDTH E - 1 in
  result <-
    (if 0 <? scale then
       nbytes <- lift (index DIGITS_TO_BYTES scale) ;;
       data <- read nbytes ;;
       let n := Z.of_nat (List.length data) in
       let data :=
         if truthy (n mod 4) then
           let pad := 4 - n mod 4 in
           let pad_char := if is_neg then xff else x00 in
           (bytes_times pad pad_char ++ data)%list
         else data in
       frac_part <- lift (unpack_be_i32 data) ;;
       let frac_part := if frac_part <? 0 then - frac_part else frac_part in
       let frac_part := zfill scale (str frac_part) in
       let frac_part :=
         if scale <? Z.of_nat (String.length frac_part)
         then str_slice frac_part (Some 0) (Some scale) else frac_part in
       ret (result ++ "." ++ frac_part)
     else ret result) ;;
  let result := if is_neg then "-" ++ result else result in
  ret ("'" ++ result ++ "'").

Definition unpack_type_year (context : Context) : Reader string :=
  value <- uint8 dflt ;;
  if value =? 0 then ret "'0000'"
  else ret ("'" ++ str (1900 + value) ++ "'").

(** pre 4.1 - unsupported *)
Definition unpack_type_date (context : Context) : Reader string :=
  raise NotImplementedError.

Definition unpack_type_newdate (context : Context) : Reader string :=
  value <- uint24 dflt ;;
  let year := Z.shiftr value 9 in
  let month := Z.land (Z.shiftr value 5) 15 in
  let day := Z.land value 31 in
  ret ("'" ++ fmt_wd 4 year ++ "-" ++ fmt_0d 2 month ++ "-" ++ fmt_0d 2 day
       ++ "'").

Definition zero_datetime : string := "0000-00-00 00:00:00".

Definition name_is (u : Enum.t) (s : string) : bool :=
  String.eqb (Enum.name u) s.

Definition unpack_type_timestamp2 (context : Context) : Reader string :=
  epoch <- sint32 Big ;;
  let value :=
    if negb (epoch =? 0) then fromtimestamp_strftime E epoch
    else zero_datetime in
  let scale := length context - MAX_DATETIME_WIDTH E - 1 in
  value <-
    (if 0 <? scale then
       nbytes <- lift (index DIGITS_TO_BYTES scale) ;;
       fractional <-
         (if nbytes =? 1 then uint8 Big
          else if nbytes =? 2 then uint16 Big
          else if nbytes =? 3 then uint24 Big
          else raise ValueError) ;;
       ret (value ++ "." ++ zfill scale (str fractional))
     else ret value) ;;
  let scale_str := if 0 <? scale then "(" ++ str scale ++ ")" else "" in
  if name_is (unireg_check context) "TIMESTAMP_DN_FIELD" then
    ret ("CURRENT_TIMESTAMP" ++ scale_str)
  else if name_is (unireg_check context) "TIMESTAMP_UN_FIELD" then
    ret ("'" ++ value ++ "' ON UPDATE CURRENT_TIMESTAMP" ++ scale_str)
  else if name_is (unireg_check context) "TIMESTAMP_DNUN_FIELD" then
    ret ("CURRENT_TIMESTAMP" ++ scale_str ++ " ON UPDATE CURRENT_TIMESTAMP"
         ++ scale_str)
  else ret ("'" ++ value ++ "'").

Definition unpack_type_timestamp (context : Context) : Reader string :=
  let scale := length context - MAX_DATETIME_WIDTH E - 1 in
  if 0 <? scale then unpack_type_timestamp2 context
  else
    epoch <- sint32 Little ;;
    let value :=
      if negb (epoch =? 0) then fromtimestamp_strftime E epoch
      else zero_datetime in
    if name_is (unireg_check context) "TIMESTAMP_DN_FIELD" then
      ret "CURRENT_TIMESTAMP"
    else if name_is (unireg_check context) "TIMESTAMP_UN_FIELD" then
      ret ("'" ++ value ++ "' ON UPDATE CURRENT_TIMESTAMP")
    else if name_is (unireg_check context) "TIMESTAMP_DNUN_FIELD" then
      ret "CURRENT_TIMESTAMP ON UPDATE CURRENT_TIMESTAMP"
    else ret ("'" ++ value ++ "'").

Definition _unpack_type_datetime_hires (context : Context) (scale : Z)
  : Reader string :=
  value <- uint64 Big ;;
  if TIME_SECOND_PART_DIGITS <? scale
  then ret (datetime_hires_float E value scale)
  else
    let value := value * 10 ^ (TIME_SECOND_PART_DIGITS - scale) in
    let usec := zfill scale (str (value mod 1000000)) in
    let value := value / 1000000 in
    let second := zfill 2 (str (value mod 60)) in
    let value := value / 60 in
    let minute := zfill 2 (str (value mod 60)) in
    let value := value / 60 in
    let hour := zfill 2 (str (value mod 24)) in
    let value := value / 24 in
    let day := zfill 2 (str (value mod 32)) in
    let value := value / 32 in
    let month := zfill 2 (str (value mod 13)) in
    let value := value / 13 in
    let year := str value in
    ret ("'" ++ year ++ "-" ++ month ++ "-" ++ day ++ " " ++ hour ++ ":"
         ++ minute ++ ":" ++ second ++ "." ++ usec ++ "'").

Definition unpack_type_datetime (context : Context) : Reader string :=
  let scale := length context - MAX_DATETIME_WIDTH E - 1 in
  if 0 <? scale then _unpack_type_datetime_hires context scale
  else
    value <- uint64 dflt ;;
    let second := zfill 2 (str (value mod 10 ^ 2)) in
    let value := value / 10 ^ 2 in
    let minute := zfill 2 (str (value mod 10 ^ 2)) in
    let value := value / 10 ^ 2 in
    let hour := zfill 2 (str (value mod 10 ^ 2)) in
    let value := value / 10 ^ 2 in
    let day := zfill 2 (str (value mod 10 ^ 2)) in
    let value := value / 10 ^ 2 in
    let month := zfill 2 (str (value mod 10 ^ 2)) in
    let value := value / 10 ^ 2 in
    let year := zfill 4 (str (value mod 10 ^ 4)) in
    ret ("'" ++ year ++ "-" ++ month ++ "-" ++ day ++ " " ++ hour ++ ":"
         ++ minute ++ ":" ++ second ++ "'").

Definition unpack_type_datetime2 (context : Context) : Reader string :=
  ymdhms <- uint40 Big ;;
  let ymd := Z.shiftr ymdhms 17 in
  let ym := Z.land (Z.shiftr ymd 5) (Z.lnot (2 ^ 17)) in
  let day := ymd mod (Z.shiftl 1 5) in
  let month := ym mod 13 in
  let year := ym / 13 in
  let hms := ymdhms mod (Z.shiftl 1 17) in
  let second := hms mod (Z.shiftl 1 6) in
  let minute := (Z.shiftr hms 6) mod (Z.shiftl 1 6) in
  let hour := Z.shiftr hms 12 in
  let value :=
    str year ++ "-" ++ fmt_0d 2 month ++ "-" ++ fmt_0d 2 day ++ " "
    ++ fmt_0d 2 hour ++ ":" ++ fmt_0d 2 minute ++ ":" ++ fmt_0d 2 second in
  let scale := length context - MAX_DATETIME_WIDTH E - 1 in
  value <-
    (if 0 <? scale then
       nbytes <- lift (index DIGITS_TO_BYTES scale) ;;
       frac_bytes <- read nbytes ;;
       let padding :=
         bytes_times (4 - Z.of_nat (List.length frac_bytes)) x00 in
       microseconds <- lift (unpack_be_u32 (padding ++ frac_bytes)%list) ;;
       let microseconds := zfill scale (str microseconds) in
       let microseconds :=
         if scale <? Z.of_nat (String.length microseconds)
         then str_slice microseconds (Some 0) (Some scale)
         else microseconds in
       ret (value ++ "." ++ microseconds)
     else ret value) ;;
  ret ("'" ++ value ++ "'").

(** *** String types *)

Definition unpack_type_varchar (context : Context) : Reader string :=
  len <- (if length context <? 256 then uint8 dflt else uint16 dflt) ;;
  data <- read len ;;
  if String.eqb (Charset.name (charset context)) "binary" then
    let data := replace_nul data in
    ret ("'" ++ rstrip_space (decode_ascii_replace data) ++ "'")
  else
    text <- lift (codec_decode E (Charset.pycharset (charset context)) data) ;;
    ret ("'" ++ text ++ "'").

Definition unpack_type_var_string (context : Context) : Reader string :=
  data <- read (length context) ;;
  text <- lift (codec_decode E (Charset.pycharset (charset context)) data) ;;
  ret ("'" ++ rstrip_space text ++ "'").

Definition unpack_type_string (context : Context) : Reader string :=
  bytestr <- read (length context) ;;
  if String.eqb (Charset.name (charset context)) "binary" then
    let bytestr := replace_nul bytestr in
    ret ("'" ++ rstrip_space (decode_ascii_replace bytestr) ++ "'")
  else
    text <- lift (codec_decode E (Charset.pycharset (charset context)) bytestr) ;;
    ret ("'" ++ rstrip_space text ++ "'").

(** *** BIT(m) *)

Definition unpack_type_bit (context : Context) : Reader string :=
  let nbytes := (length context + 7) / 8 in
  let pad := bytes_times (8 - nbytes) x00 in
  data <- read nbytes ;;
  value <- lift (unpack_be_u64 (pad ++ data)%list) ;;
  ret ("b'" ++ bin_digits value ++ "'").

(** *** ENUM *)

Definition unpack_type_enum (context : Context) : Reader string :=
  let labels := labels context in
  offset <-
    (if Z.of_nat (List.length labels) <? 256
     then v <- uint8 dflt ;; ret (v - 1)
     else v <- uint16 dflt ;; ret (v - 1)) ;;
  match index labels offset with
  | Ok label => ret ("'" ++ label ++ "'")
  | Raise IndexError => ret "''"
  | Raise e => raise e
  end.

(** *** SET *)

(** The labels whose bit, counted from [bit], is set in [value]. *)
Fixpoint set_members (value : Z) (bit : Z) (labels : list string)
  : list string :=
  match labels with
  | [] => []
  | name :: rest =>
      if truthy (Z.land value (Z.shiftl 1 bit))
      then name :: set_members value (bit + 1) rest
      else set_members value (bit + 1) rest
  end.

Definition unpack_type_set (context : Context) : Reader string :=
  let elt_count := Z.of_nat (List.length (labels context)) in
  let n_bytes := (elt_count + 7) / 8 in
  let n_bytes := if 4 <? n_bytes then 8 else n_bytes in
  value <-
    (if n_bytes =? 1 then uint8 dflt
     else if n_bytes =? 2 then uint16 dflt
     else if n_bytes =? 3 then uint24 dflt
     else if n_bytes =? 4 then uint32 dflt
     else if n_bytes =? 8 then uint64 dflt
     else raise ValueError) ;;
  let result := set_members value 0 (labels context) in
  ret ("'" ++ join "," result ++ "'").

(** *** BLOB/TEXT and GEOMETRY: left unimplemented *)

Definition unpack_type_long_blob (context : Context) : Reader string :=
  raise NotImplementedError.

Definition unpack_type_tiny_blob := unpack_type_long_blob.
Definition unpack_type_medium_blob := unpack_type_long_blob.
Definition unpack_type_blob := unpack_type_long_blob.

Definition unpack_type_geometry (context : Context) : Reader string :=
  raise NotImplementedError.

(** The entries of [globals()] whose key starts with [unpack_type_], keyed
    by what follows that prefix. *)
Definition unpack_globals : list (string * (Context -> Reader string)) :=
  [ ("decimal", unpack_type_decimal); ("newdecimal", unpack_type_newdecimal);
    ("tiny", unpack_type_tiny); ("short", unpack_type_short);
    ("int24", unpack_type_int24); ("long", unpack_type_long);
    ("longlong", unpack_type_longlong);
    ("float", unpack_type_float); ("double", unpack_type_double);
    ("null", unpack_type_null);
    ("time", unpack_type_time); ("time2", unpack_type_time2);
    ("year", unpack_type_year);
    ("date", unpack_type_date); ("newdate", unpack_type_newdate);
    ("timestamp", unpack_type_timestamp);
    ("timestamp2", unpack_type_timestamp2);
    ("datetime", unpack_type_datetime); ("datetime2", unpack_type_datetime2);
    ("varchar", unpack_type_varchar); ("var_string", unpack_type_var_string);
    ("string", unpack_type_string);
    ("bit", unpack_type_bit); ("enum", unpack_type_enum);
    ("set", unpack_type_set);
    ("long_blob", unpack_type_long_blob); ("tiny_blob", unpack_type_tiny_blob);
    ("medium_blob", unpack_type_medium_blob); ("blob", unpack_type_blob);
    ("geometry", unpack_type_geometry) ].

(** The outcome of [unpack_default]: the reader and the context as the call
    leaves them, and the returned default ([None] for no default) or the
    exception raised. *)
Definition Outcome : Type := ByteReader.t * Context * result (option string).

(** The part of [unpack_default] after the null-bit protocol. *)
Definition unpack_dispatch (defaults : ByteReader.t) (context : Context)
  : Outcome :=
  if Enum.eqb (unireg_check context) Utype.BLOB_FIELD then
    (defaults, context, Ok None)
  else
    let type_name := lower (Enum.name (type_code context)) in
    match lookup type_name unpack_globals with
    | None => (defaults, context, Raise LookupError)
    | Some dispatch =>
        match dispatch context defaults with
        | (defaults', Ok text) => (defaults', context, Ok (Some text))
        | (defaults', Raise NotImplementedError) =>
            (defaults', context, Raise LookupError)
        | (defaults', Raise e) => (defaults', context, Raise e)
        end
    end.

Definition unpack_default (defaults : ByteReader.t) (context : Context)
  : Outcome :=
  let no_default_value := NO_DEFAULT (flags context) in
  let is_auto_increment := Enum.eqb (unireg_check context) Utype.NEXT_NUMBER in
  if no_default_value || is_auto_increment then (defaults, context, Ok None)
  else if MAYBE_NULL (flags context) then
    let null_map := null_map context in
    let offset := null_bit context / 8 in
    match index null_map offset with
    | Raise e => (defaults, context, Raise e)
    | Ok b =>
        let null_byte := byte_val b in
        let null_bit' := null_bit context mod 8 in
        let context := set_null_bit context (null_bit context + 1) in
        if truthy (Z.land null_byte (Z.shiftl 1 null_bit'))
           && negb (Enum.eqb (unireg_check context) Utype.BLOB_FIELD)
        then (defaults, context, Ok (Some "NULL"))
        else unpack_dispatch defaults context
    end
  else unpack_dispatch defaults context.

End MySQLTypes.

(** ** The storage formats, as the specification words them

    The module only decodes. These encoders follow the description of the
    formats and serve to state what a decoder is given. *)
Module Encode.

Definition digit_value (c : ascii) : Z := Z.of_nat (nat_of_ascii c) - 48.

(** The number a text of decimal digits denotes. *)
Definition digits_value (s : list ascii) : Z :=
  fold_left (fun acc c => acc * 10 + digit_value c) s 0.

(** The low [n] bytes of [v], most significant first. *)
Fixpoint be_bytes (n : nat) (v : Z) : list byte :=
  match n with
  | O => []
  | S k => (be_bytes k (v / 256) ++ [byte_of (v mod 256)])%list
  end.

(** Groups of nine digits from the left; the last may be shorter. *)
Fixpoint groups9 (fuel : nat) (s : list ascii) : list (list ascii) :=
  match fuel with
  | O => []
  | S k =>
      match s with
      | [] => []
      | _ => firstn 9 s :: groups9 k (skipn 9 s)
      end
  end.

(** The integer digits: the outermost (first) group takes what is left over
    from groups of nine. *)
Definition int_groups (s : list ascii) : list (list ascii) :=
  let k := (List.length s mod 9)%nat in
  ((match k with O => [] | _ => [firstn k s] end)
   ++ groups9 (List.length s) (skipn k s))%list.

(** The fractional digits: the innermost (last) group is the short one. *)
Definition frac_groups (s : list ascii) : list (list ascii) :=
  groups9 (List.length s) s.

(** A group of up to nine digits in the byte width of its digit count; a
    negative value stores the one's complement. *)
Definition group_bytes (negative : bool) (g : list ascii) : list byte :=
  let width := nth (List.length g) DIGITS_TO_BYTES 0 in
  let v := digits_value g in
  be_bytes (Z.to_nat width) (if negative then Z.lnot v else v).

Definition flip_top_bit (data : list byte) : list byte :=
  match data with
  | b :: r => byte_of (Z.lxor (byte_val b) 128) :: r
  | [] => []
  end.

(** NEWDECIMAL: [int_digits] holds precision - scale digits and
    [frac_digits] holds scale digits. *)
Definition newdecimal (negative : bool) (int_digits frac_digits : string)
  : list byte :=
  flip_top_bit
    (List.concat
       (map (group_bytes negative)
            (int_groups (list_ascii_of_string int_digits)
             ++ frac_groups (list_ascii_of_string frac_digits))%list)).

(** The text of the value: sign, integer digits without leading zeros (but
    at least one), and the fractional digits after a dot when there are
    any. *)
Definition decimal_text (negative : bool) (int_digits frac_digits : string)
  : string :=
  let i := lstrip0 int_digits in
  (if negative then "-" else "")
  ++ (if String.eqb i "" then "0" else i)
  ++ (if String.eqb frac_digits "" then "" else "." ++ frac_digits).

(** DATETIME2 without fraction: five bytes, most significant first; the date
    field above bit 17 holds the day in its low 5 bits and year*13+month in
    the next 17, the low 17 bits hold second (6), minute (6) and hour.
    [top_bit] is the one bit of the 23-bit date field above these. *)
Definition datetime2 (top_bit : bool) (year month day hour minute second : Z)
  : list byte :=
  let ym := year * 13 + month in
  let ymd := Z.lor (Z.shiftl ym 5) day in
  let hms := Z.lor (Z.lor (Z.shiftl hour 12) (Z.shiftl minute 6)) second in
  let v := Z.lor (Z.shiftl ymd 17) hms in
  be_bytes 5 (if top_bit then Z.lor v (2 ^ 39) else v).

End Encode.

(** ** Vocabulary of the statements *)

(** The two suffixes [format_type] appends. *)
Definition not_null_suffix (context : Context) : string :=
  if MAYBE_NULL (flags context) then "" else " NOT NULL".

Definition auto_increment_suffix (context : Context) : string :=
  if String.eqb (Enum.name (unireg_check context)) "NEXT_NUMBER"
  then " AUTO_INCREMENT" else "".

(** The bytes that hold the fraction of a temporal value of the given
    scale. *)
Definition fraction_bytes (scale : Z) : Z :=
  if 0 <? scale then nth (Z.to_nat scale) DIGITS_TO_BYTES 0 else 0.

(** The column gets past the first test of [unpack_default]: it may have a
    stored default and is not auto-increment. *)
Definition has_stored_default (context : Context) : bool :=
  negb (NO_DEFAULT (flags context)
        || Enum.eqb (unireg_check context) Utype.NEXT_NUMBER).

(** The null map holds the byte of the current null bit. *)
Definition null_byte_present (context : Context) : bool :=
  match index (null_map context) (null_bit context / 8) with
  | Ok _ => true
  | Raise _ => false
  end.

(** The bit of the column in the byte [b] of the null map. *)
Definition null_bit_set (context : Context) (b : byte) : bool :=
  Z.testbit (byte_val b) (null_bit context mod 8).

(** The call gets as far as the lookup of the type's routine. *)
Definition reaches_dispatch (context : Context) : bool :=
  has_stored_default context
  && negb (Enum.eqb (unireg_check context) Utype.BLOB_FIELD)
  && (if MAYBE_NULL (flags context)
      then match index (null_map context) (null_bit context / 8) with
           | Ok b => negb (null_bit_set context b)
           | Raise _ => false
           end
      else true).

(** The context as [unpack_default] leaves it once the null-bit test has
    been passed. *)
Definition after_null_check (context : Context) : Context :=
  if MAYBE_NULL (flags context)
  then set_null_bit context (null_bit context + 1) else context.

(** The lowercase names of the types whose routine is left unimplemented. *)
Definition unimplemented_types : list string :=
  ["tiny_blob"; "blob"; "medium_blob"; "long_blob"; "geometry"; "date"].

(** A text, or ["0"] for the empty text ([s or '0']). *)
Definition nonempty (s : string) : string := if String.eqb s "" then "0" else s.

(** The bytes of a group of [n] digits. *)
Definition group_width (n : nat) : nat := Z.to_nat (nth n DIGITS_TO_BYTES 0).

(** Evaluates the closed powers of the goal and of the hypotheses. *)
Ltac eval_pows :=
  repeat match goal with
         | |- context [?a ^ ?b] =>
             let r := eval vm_compute in (a ^ b) in
             progress change (a ^ b) with r
         | H : context [?a ^ ?b] |- _ =>
             let r := eval vm_compute in (a ^ b) in
             progress change (a ^ b) with r in H
         end.

(** The [n] bytes under the cursor, which a read of [n] bytes returns. *)
Definition next_bytes (r : ByteReader.t) (n : Z) : list byte :=
  firstn (Z.to_nat n) (skipn (ByteReader.offset r) (ByteReader.buffer r)).

(** The text holds no NUL character. *)
Definition nul_free (s : string) : Prop :=
  ~ In Ascii.zero (list_ascii_of_string s).

(** The lowercase type names that have a formatting routine. *)
Definition format_type_names : list string :=
  ["tiny"; "short"; "int24"; "long"; "longlong"; "newdecimal"; "decimal";
   "float"; "double"; "string"; "varchar"; "var_string"; "enum"; "set";
   "tiny_blob"; "blob"; "medium_blob"; "long_blob"; "bit"; "time2"; "time";
   "timestamp2"; "timestamp"; "year"; "newdate"; "date"; "datetime2";
   "datetime"; "geometry"].

(** The lowercase type names that have a routine to decode a default. *)
Definition unpack_type_names : list string :=
  ["decimal"; "newdecimal"; "tiny"; "short"; "int24"; "long"; "longlong";
   "float"; "double"; "null"; "time"; "time2"; "year"; "date"; "newdate";
   "timestamp"; "timestamp2"; "datetime"; "datetime2"; "varchar";
   "var_string"; "string"; "bit"; "enum"; "set"; "long_blob"; "tiny_blob";
   "medium_blob"; "blob"; "geometry"].

(** ** Properties *)

Section Properties.

Variable E : Extern.

(** *** The byte reader *)

Lemma read_ok (n : Z) (r : ByteReader.t) :
  n <= ByteReader.remaining r ->
  read n r =
    (ByteReader.advance r n,
     Ok (firstn (Z.to_nat n)
                (skipn (ByteReader.offset r) (ByteReader.buffer r)))).
Proof.
  intros H. unfold read.
  destruct (Z.leb_spec n (ByteReader.remaining r)); [reflexivity | lia].
Qed.

Lemma read_short (n : Z) (r : ByteReader.t) :
  ByteReader.remaining r < n -> read n r = (r, Raise ShortRead).
Proof.
  intros H. unfold read.
  destruct (Z.leb_spec n (ByteReader.remaining r)); [lia | reflexivity].
Qed.

Lemma firstn_1_skipn {A} (d : A) (l : list A) (k : nat) :
  (k < List.length l)%nat -> firstn 1 (skipn k l) = [nth k l d].
Proof.
  revert k. induction l as [|x l IH]; intros k H; simpl in H.
  - lia.
  - destruct k as [|k]; simpl.
    + reflexivity.
    + apply IH. lia.
Qed.

Lemma read_1 (r : ByteReader.t) :
  1 <= ByteReader.remaining r ->
  read 1 r = (ByteReader.advance r 1, Ok [ByteReader.peek r]).
Proof.
  intros H. rewrite read_ok by exact H.
  change (Z.to_nat 1) with 1%nat.
  rewrite (firstn_1_skipn x00).
  - reflexivity.
  - unfold ByteReader.remaining in H. lia.
Qed.

Lemma decode_uint_1 (e : endian) (b : byte) : decode_uint e [b] = byte_val b.
Proof. destruct e; reflexivity. Qed.

Lemma uint8_ok (e : endian) (r : ByteReader.t) :
  1 <= ByteReader.remaining r ->
  uint8 e r = (ByteReader.advance r 1, Ok (byte_val (ByteReader.peek r))).
Proof.
  intros H. unfold uint8, read_uint, bind.
  rewrite read_1 by exact H. unfold ret. now rewrite decode_uint_1.
Qed.

Lemma byte_val_range (b : byte) : 0 <= byte_val b <= 255.
Proof. destruct b; vm_compute; split; discriminate. Qed.

Lemma advance_advance (r : ByteReader.t) (n m : Z) :
  0 <= n -> 0 <= m ->
  ByteReader.advance (ByteReader.advance r n) m = ByteReader.advance r (n + m).
Proof.
  intros Hn Hm. unfold ByteReader.advance. simpl. f_equal.
  rewrite Z2Nat.inj_add by assumption. lia.
Qed.

Lemma remaining_advance (r : ByteReader.t) (n : Z) :
  0 <= n ->
  ByteReader.remaining (ByteReader.advance r n) = ByteReader.remaining r - n.
Proof.
  intros Hn. unfold ByteReader.remaining, ByteReader.advance. simpl. lia.
Qed.

(** *** YEAR *)

(** C10: [unpack_type_year] consumes exactly one byte; a stored 0 gives
    ['0000'] and a stored byte [b] in 1..255 gives the decimal text of
    [1900 + b], between 1901 and 2155, in quotes. *)
Theorem unpack_type_year_spec (context : Context) (r : ByteReader.t) :
  1 <= ByteReader.remaining r ->
  let b := byte_val (ByteReader.peek r) in
  unpack_type_year E context r =
    (ByteReader.advance r 1,
     Ok (if b =? 0 then "'0000'" else "'" ++ str (1900 + b) ++ "'"))
  /\ (b <> 0 -> 1901 <= 1900 + b <= 2155).
Proof.
  intros H b. split.
  - unfold unpack_type_year, bind. rewrite uint8_ok by exact H.
    fold b. destruct (b =? 0); reflexivity.
  - intros Hb. pose proof (byte_val_range (ByteReader.peek r)). subst b. lia.
Qed.

(** *** DATETIME2 *)

(** C6: [unpack_type_datetime2] on the five bytes that encode
    2020-01-02 03:04:05, at scale 0, returns ['2020-01-02 03:04:05'] (and
    has then read the five bytes), whatever the top bit of the date
    field. *)
Theorem unpack_type_datetime2_2020 (context : Context) (top_bit : bool) :
  length context - MAX_DATETIME_WIDTH E - 1 = 0 ->
  let data := Encode.datetime2 top_bit 2020 1 2 3 4 5 in
  unpack_type_datetime2 E context (ByteReader.Make data 0) =
    (ByteReader.Make data 5, Ok "'2020-01-02 03:04:05'").
Proof.
  intros H data. subst data. unfold unpack_type_datetime2.
  rewrite H. destruct top_bit; vm_compute; reflexivity.
Qed.

(** *** The type formatter *)

Lemma append_assoc (a b c : string) : (a ++ b) ++ c = a ++ b ++ c.
Proof. induction a as [|x a IH]; simpl; [reflexivity | now rewrite IH]. Qed.

Lemma append_nil_r (a : string) : a ++ "" = a.
Proof. induction a as [|x a IH]; simpl; [reflexivity | now rewrite IH]. Qed.

(** C9: whatever routine the type code selects, [format_type] returns its
    fragment followed by [" NOT NULL"] for a column that is not nullable and
    then by [" AUTO_INCREMENT"] for an auto-increment column; for an
    unsigned, zero-filled, non-nullable INT of length 11 without
    auto-increment that is [int(11) unsigned zerofill NOT NULL]. *)
Theorem format_type_suffixes (context : Context)
  (dispatch : Context -> result string) (fragment : string) :
  lookup (lower (Enum.name (type_code context))) (format_globals E)
    = Some dispatch ->
  dispatch context = Ok fragment ->
  format_type E context =
    Ok (fragment ++ not_null_suffix context ++ auto_increment_suffix context)
  /\ (lower (Enum.name (type_code context)) = "long" ->
      length context = 11 ->
      DECIMAL (flags context) = false ->
      ZEROFILL (flags context) = true ->
      MAYBE_NULL (flags context) = false ->
      Enum.name (unireg_check context) <> "NEXT_NUMBER" ->
      format_type E context = Ok "int(11) unsigned zerofill NOT NULL").
Proof.
  intros Hlook Hfrag.
  assert (Hgen : format_type E context =
    Ok (fragment ++ not_null_suffix context ++ auto_increment_suffix context)).
  { unfold format_type. rewrite Hlook. rewrite Hfrag. simpl.
    unfold not_null_suffix, auto_increment_suffix.
    destruct (MAYBE_NULL (flags context)); simpl;
      destruct (String.eqb (Enum.name (unireg_check context)) "NEXT_NUMBER");
      now rewrite ?append_assoc, ?append_nil_r. }
  split; [exact Hgen |].
  intros Hname Hlen Hdec Hzero Hnull Hauto.
  rewrite Hgen.
  rewrite Hname in Hlook. simpl in Hlook. injection Hlook as <-.
  unfold format_type_long, _format_number in Hfrag.
  rewrite Hlen, Hdec, Hzero in Hfrag. injection Hfrag as <-.
  unfold not_null_suffix, auto_increment_suffix. rewrite Hnull.
  apply String.eqb_neq in Hauto. rewrite Hauto. reflexivity.
Qed.

(** *** ENUM *)

(** With fewer than 256 labels the ordinal is one byte, and the label is
    looked up at the ordinal less one, as Python indexes a list. *)
Lemma unpack_type_enum_small (context : Context) (r : ByteReader.t) :
  (List.length (labels context) < 256)%nat ->
  1 <= ByteReader.remaining r ->
  unpack_type_enum E context r =
    (ByteReader.advance r 1,
     Ok (match index (labels context) (byte_val (ByteReader.peek r) - 1) with
         | Ok label => "'" ++ label ++ "'"
         | Raise _ => "''"
         end)).
Proof.
  intros Hl Hr. unfold unpack_type_enum, bind.
  destruct (Z.ltb_spec (Z.of_nat (List.length (labels context))) 256); [|lia].
  rewrite uint8_ok by exact Hr. unfold ret.
  assert (Hidx : forall i e, index (labels context) i = Raise e -> e = IndexError).
  { intros i e. unfold index.
    destruct ((_ <? 0) || _); [congruence |].
    destruct (nth_error _ _); congruence. }
  destruct (index (labels context) (byte_val (ByteReader.peek r) - 1))
    as [l | e] eqn:Hi; [reflexivity |].
  apply Hidx in Hi. subst e. reflexivity.
Qed.

(** With 256 labels or more the ordinal is two bytes. *)
Lemma unpack_type_enum_two_bytes (context : Context) (r : ByteReader.t) :
  (256 <= List.length (labels context))%nat ->
  2 <= ByteReader.remaining r ->
  fst (unpack_type_enum E context r) = ByteReader.advance r 2.
Proof.
  intros Hl Hr. unfold unpack_type_enum, bind.
  destruct (Z.ltb_spec (Z.of_nat (List.length (labels context))) 256); [lia|].
  unfold uint16, read_uint, bind. rewrite read_ok by exact Hr. unfold ret.
  match goal with |- context [index ?l ?i] => destruct (index l i) as [x | []] end;
    reflexivity.
Qed.

Lemma nth_error_last {A} (d : A) (l : list A) :
  l <> [] -> nth_error l (List.length l - 1) = Some (last l d).
Proof.
  induction l as [|x l IH]; [congruence |]. intros _.
  destruct l as [|y l]; [reflexivity |].
  replace (List.length (x :: y :: l) - 1)%nat
    with (S (List.length (y :: l) - 1)) by (simpl; lia).
  change (nth_error (y :: l) (List.length (y :: l) - 1)
          = Some (last (y :: l) d)).
  apply IH. congruence.
Qed.

Lemma index_minus_one {A} (d : A) (l : list A) :
  l <> [] -> index l (-1) = Ok (last l d).
Proof.
  intros Hl. unfold index.
  assert (Hlen : (0 < List.length l)%nat)
    by (destruct l; [congruence | simpl; lia]).
  change (-1 <? 0) with true. cbv iota.
  destruct (Z.ltb_spec (Z.of_nat (List.length l) + -1) 0); [lia |].
  destruct (Z.leb_spec (Z.of_nat (List.length l))
                       (Z.of_nat (List.length l) + -1)); [lia |].
  simpl orb. cbv iota.
  replace (Z.to_nat (Z.of_nat (List.length l) + -1))
    with (List.length l - 1)%nat by lia.
  now rewrite (nth_error_last d) by exact Hl.
Qed.

(** Whatever the labels (fewer than 256, at least one), the stored ordinal 0
    decodes to the last of them. *)
Lemma unpack_type_enum_zero_is_last (context : Context) (r : ByteReader.t) :
  labels context <> [] ->
  (List.length (labels context) < 256)%nat ->
  1 <= ByteReader.remaining r ->
  ByteReader.peek r = x00 ->
  unpack_type_enum E context r =
    (ByteReader.advance r 1, Ok ("'" ++ last (labels context) "" ++ "'")).
Proof.
  intros Hl Hn Hr Hb. rewrite unpack_type_enum_small by assumption.
  rewrite Hb. change (byte_val x00 - 1) with (-1).
  now rewrite (index_minus_one "") by exact Hl.
Qed.

(** Labels 'a','b','c': the stored ordinal 2 decodes to ['b']. *)
Lemma unpack_type_enum_ordinal_two :
  unpack_type_enum E Sample.enum_abc (ByteReader.Make [x02] 0)
  = (ByteReader.Make [x02] 1, Ok "'b'").
Proof.
  rewrite unpack_type_enum_small; [reflexivity | simpl; lia | vm_compute; discriminate].
Qed.

(** C4: with labels 'a','b','c' the stored ordinal 0 gives index -1, which
    Python counts from the end: the result is the last label, ['c'], not the
    empty text. *)
Theorem unpack_type_enum_ordinal_zero :
  unpack_type_enum E Sample.enum_abc (ByteReader.Make [x00] 0)
  = (ByteReader.Make [x00] 1, Ok "'c'").
Proof.
  rewrite unpack_type_enum_small; [reflexivity | simpl; lia | vm_compute; discriminate].
Qed.

(** *** TIMESTAMP2 *)

Lemma sint32_ok (e : endian) (r : ByteReader.t) :
  4 <= ByteReader.remaining r ->
  exists v, sint32 e r = (ByteReader.advance r 4, Ok v).
Proof.
  intros H. unfold sint32, read_sint, bind. rewrite read_ok by exact H.
  eexists. reflexivity.
Qed.

Lemma read_uint_ok (n : Z) (e : endian) (r : ByteReader.t) :
  n <= ByteReader.remaining r ->
  exists v, read_uint n e r = (ByteReader.advance r n, Ok v).
Proof.
  intros H. unfold read_uint, bind. rewrite read_ok by exact H.
  eexists. reflexivity.
Qed.

(** The text of a timestamp is chosen after all reads are done. *)
Lemma timestamp_text_no_read (u : Enum.t) (a b c d : string)
  (r : ByteReader.t) :
  exists text,
    (if name_is u "TIMESTAMP_DN_FIELD" then ret a
     else if name_is u "TIMESTAMP_UN_FIELD" then ret b
     else if name_is u "TIMESTAMP_DNUN_FIELD" then ret c
     else ret d) r = (r, Ok text).
Proof.
  destruct (name_is u "TIMESTAMP_DN_FIELD"); [eexists; reflexivity |].
  destruct (name_is u "TIMESTAMP_UN_FIELD"); [eexists; reflexivity |].
  destruct (name_is u "TIMESTAMP_DNUN_FIELD"); eexists; reflexivity.
Qed.

Lemma fraction_bytes_nonneg (scale : Z) : 0 <= fraction_bytes scale.
Proof.
  unfold fraction_bytes. destruct (0 <? scale); [|lia].
  destruct (Z.to_nat scale) as [|[|[|[|[|[|[|[|[|[|[|n]]]]]]]]]]];
    simpl; lia.
Qed.

(** The fraction of a scale from 1 to 6 takes one, two or three bytes. *)
Lemma fraction_bytes_index (scale : Z) :
  0 < scale <= 6 ->
  index DIGITS_TO_BYTES scale = Ok (fraction_bytes scale)
  /\ 1 <= fraction_bytes scale <= 3.
Proof.
  intros Hs.
  assert (Hcase : scale = 1 \/ scale = 2 \/ scale = 3 \/ scale = 4
                  \/ scale = 5 \/ scale = 6) by lia.
  destruct Hcase as [-> | [-> | [-> | [-> | [-> | ->]]]]];
    vm_compute; repeat split; discriminate.
Qed.

(** One, two or three bytes are read as an unsigned integer. *)
Lemma timestamp2_fraction_ok (nbytes : Z) (r : ByteReader.t) :
  1 <= nbytes <= 3 ->
  nbytes <= ByteReader.remaining r ->
  exists v,
    (if nbytes =? 1 then uint8 Big
     else if nbytes =? 2 then uint16 Big
     else if nbytes =? 3 then uint24 Big
     else raise ValueError) r
    = (ByteReader.advance r nbytes, Ok v).
Proof.
  intros Hn Hr.
  assert (Hcase : nbytes = 1 \/ nbytes = 2 \/ nbytes = 3) by lia.
  destruct Hcase as [-> | [-> | ->]]; simpl; apply read_uint_ok; exact Hr.
Qed.

Lemma unpack_type_timestamp2_ok (context : Context) (r : ByteReader.t) :
  let scale := length context - MAX_DATETIME_WIDTH E - 1 in
  scale <= 6 ->
  4 + fraction_bytes scale <= ByteReader.remaining r ->
  exists text,
    unpack_type_timestamp2 E context r =
      (ByteReader.advance r (4 + fraction_bytes scale), Ok text).
Proof.
  intros scale Hs Hr.
  unfold unpack_type_timestamp2.
  fold scale. unfold bind at 1.
  destruct (sint32_ok Big r) as [epoch ->]; [pose proof (fraction_bytes_nonneg scale); lia |].
  unfold bind at 1.
  destruct (Z.ltb_spec 0 scale) as [Hpos | Hneg].
  - destruct (fraction_bytes_index scale) as [Hidx Hrange]; [lia |].
    unfold bind at 1. unfold lift at 1. rewrite Hidx.
    destruct (timestamp2_fraction_ok (fraction_bytes scale)
                (ByteReader.advance r 4)) as [v Hv];
      [exact Hrange | rewrite remaining_advance; lia |].
    unfold bind at 1. rewrite Hv. unfold ret at 1.
    rewrite advance_advance by lia.
    apply timestamp_text_no_read.
  - unfold ret at 1.
    replace (fraction_bytes scale) with 0
      by (unfold fraction_bytes; destruct (Z.ltb_spec 0 scale); [lia | reflexivity]).
    replace (4 + 0) with 4 by lia.
    apply timestamp_text_no_read.
Qed.

(** C5: for a scale up to 6 and a buffer that holds the value, whatever the
    [unireg_check] of the column, [unpack_type_timestamp2] returns a text
    and leaves the cursor 4 bytes plus the fraction bytes of the scale
    further. *)
Theorem unpack_type_timestamp2_consumes (context : Context) (u : Enum.t)
  (r : ByteReader.t) :
  let scale := length context - MAX_DATETIME_WIDTH E - 1 in
  scale <= 6 ->
  4 + fraction_bytes scale <= ByteReader.remaining r ->
  exists text,
    unpack_type_timestamp2 E (set_unireg_check context u) r =
      (ByteReader.advance r (4 + fraction_bytes scale), Ok text).
Proof.
  intros scale Hs Hr.
  exact (unpack_type_timestamp2_ok (set_unireg_check context u) r Hs Hr).
Qed.

(** *** The null-bit protocol of [unpack_default] *)

(** The test [null_byte & (1 << bit)] reads the bit of the byte. *)
Lemma land_shiftl_testbit (a k : Z) :
  0 <= k -> truthy (Z.land a (Z.shiftl 1 k)) = Z.testbit a k.
Proof.
  intros Hk. unfold truthy. rewrite Z.shiftl_1_l.
  destruct (Z.testbit a k) eqn:Hbit.
  - assert (Hland : Z.land a (2 ^ k) = 2 ^ k).
    { apply Z.bits_inj'. intros n Hn. rewrite Z.land_spec.
      rewrite Z.pow2_bits_eqb by exact Hk.
      destruct (Z.eqb_spec k n) as [<- | Hne].
      - now rewrite Hbit.
      - apply andb_false_r. }
    rewrite Hland.
    assert (0 < 2 ^ k) by (apply Z.pow_pos_nonneg; lia).
    destruct (Z.eqb_spec (2 ^ k) 0); [lia | reflexivity].
  - assert (Hland : Z.land a (2 ^ k) = 0).
    { apply Z.bits_inj'. intros n Hn. rewrite Z.land_spec, Z.bits_0.
      rewrite Z.pow2_bits_eqb by exact Hk.
      destruct (Z.eqb_spec k n) as [<- | Hne].
      - now rewrite Hbit.
      - apply andb_false_r. }
    now rewrite Hland.
Qed.

Lemma null_test (context : Context) (b : byte) :
  truthy (Z.land (byte_val b) (Z.shiftl 1 (null_bit context mod 8)))
  = null_bit_set context b.
Proof.
  unfold null_bit_set. apply land_shiftl_testbit.
  apply Z.mod_pos_bound. lia.
Qed.

(** The routines of the types receive the context and cannot change it;
    [unpack_default] past the null-bit test returns the context it had. *)
Lemma unpack_dispatch_context (defaults : ByteReader.t) (context : Context) :
  snd (fst (unpack_dispatch E defaults context)) = context.
Proof.
  unfold unpack_dispatch.
  destruct (Enum.eqb (unireg_check context) Utype.BLOB_FIELD); [reflexivity |].
  destruct (lookup _ _) as [dispatch |]; [| reflexivity].
  destruct (dispatch context defaults) as [defaults' [text | []]]; reflexivity.
Qed.

(** C1 (as amended): the null-bit cursor increases by exactly 1 when the
    column may have a stored default (flag clear, not auto-increment), is
    nullable and the null map holds the byte of its bit, whatever the call
    then returns or raises; in every other case the cursor is unchanged. *)
Theorem unpack_default_null_bit (defaults : ByteReader.t) (context : Context) :
  null_bit (snd (fst (unpack_default E defaults context))) =
    if has_stored_default context && MAYBE_NULL (flags context)
       && null_byte_present context
    then null_bit context + 1
    else null_bit context.
Proof.
  unfold unpack_default, has_stored_default, null_byte_present.
  destruct (NO_DEFAULT (flags context)
            || Enum.eqb (unireg_check context) Utype.NEXT_NUMBER);
    [reflexivity |].
  destruct (MAYBE_NULL (flags context)); simpl.
  - destruct (index (null_map context) (null_bit context / 8)) as [b | e];
      [| reflexivity].
    match goal with
    | |- context [if ?c then _ else _] => destruct c
    end; [reflexivity |].
    now rewrite unpack_dispatch_context.
  - now rewrite unpack_dispatch_context.
Qed.

(** C2: a nullable column that reaches the null-bit test with its bit set in
    the null map, and that is not marked as a blob, gets exactly [NULL]; the
    reader is returned as it was and the null-bit cursor is one further. *)
Theorem unpack_default_null (defaults : ByteReader.t) (context : Context)
  (b : byte) :
  has_stored_default context = true ->
  MAYBE_NULL (flags context) = true ->
  index (null_map context) (null_bit context / 8) = Ok b ->
  null_bit_set context b = true ->
  Enum.eqb (unireg_check context) Utype.BLOB_FIELD = false ->
  unpack_default E defaults context =
    (defaults, set_null_bit context (null_bit context + 1), Ok (Some "NULL")).
Proof.
  intros Hdef Hnull Hidx Hbit Hblob.
  unfold unpack_default. unfold has_stored_default in Hdef.
  apply negb_true_iff in Hdef. rewrite Hdef, Hnull, Hidx.
  rewrite null_test, Hbit. simpl unireg_check. rewrite Hblob. reflexivity.
Qed.

(** *** Unimplemented routines *)

Lemma lookup_unimplemented (name : string) :
  In name unimplemented_types ->
  exists dispatch,
    lookup name (unpack_globals E) = Some dispatch
    /\ forall context defaults,
         dispatch context defaults = (defaults, Raise NotImplementedError).
Proof.
  unfold unimplemented_types. simpl.
  intros [<- | [<- | [<- | [<- | [<- | [<- | []]]]]]];
    eexists; (split; [reflexivity | intros; reflexivity]).
Qed.

(** C7: when [unpack_default] gets as far as the routine of the type, the
    routine of a blob-family, geometry or pre-4.1 DATE type raises
    [NotImplementedError], and [unpack_default] raises a [LookupError] with
    the reader where it was: it neither returns a default nor reports that
    there is none. *)
Theorem unpack_default_unimplemented (defaults : ByteReader.t)
  (context : Context) :
  reaches_dispatch context = true ->
  In (lower (Enum.name (type_code context))) unimplemented_types ->
  (exists dispatch,
     lookup (lower (Enum.name (type_code context))) (unpack_globals E)
       = Some dispatch
     /\ dispatch context defaults = (defaults, Raise NotImplementedError))
  /\ unpack_default E defaults context =
       (defaults, after_null_check context, Raise LookupError).
Proof.
  intros Hreach Hname.
  split.
  { destruct (lookup_unimplemented _ Hname) as [dispatch [Hlook Hraise]].
    exists dispatch. split; [exact Hlook | apply Hraise]. }
  unfold reaches_dispatch in Hreach.
  apply andb_true_iff in Hreach as [Hreach Hbit].
  apply andb_true_iff in Hreach as [Hdef Hblob].
  apply negb_true_iff in Hblob.
  unfold has_stored_default in Hdef. apply negb_true_iff in Hdef.
  destruct (lookup_unimplemented _ Hname) as [dispatch [Hlook Hraise]].
  assert (Hdisp : forall c, type_code c = type_code context ->
            unireg_check c = unireg_check context ->
            unpack_dispatch E defaults c = (defaults, c, Raise LookupError)).
  { intros c Htc Hu. unfold unpack_dispatch.
    rewrite Hu, Hblob, Htc, Hlook, Hraise. reflexivity. }
  unfold unpack_default, after_null_check. rewrite Hdef.
  destruct (MAYBE_NULL (flags context)).
  - destruct (index (null_map context) (null_bit context / 8)) as [b | e];
      [| discriminate Hbit].
    rewrite null_test. apply negb_true_iff in Hbit. rewrite Hbit. simpl.
    apply Hdisp; reflexivity.
  - apply Hdisp; reflexivity.
Qed.

(** *** String types *)

Lemma replace_nul_no_nul (data : list byte) : ~ In x00 (replace_nul data).
Proof.
  induction data as [|b data IH]; simpl.
  - tauto.
  - destruct (Byte.eqb b x00) eqn:Hb; simpl.
    + intros [H | [H | H]]; [discriminate | discriminate | tauto].
    + intros [H | H]; [| tauto].
      subst b. discriminate Hb.
Qed.

(** CHAR with the binary charset: NUL bytes are escaped, the bytes are then
    decoded permissively and trailing spaces are stripped. *)
Lemma unpack_type_string_binary (context : Context) (r : ByteReader.t) :
  Charset.name (charset context) = "binary" ->
  length context <= ByteReader.remaining r ->
  exists data,
    read (length context) r = (ByteReader.advance r (length context), Ok data)
    /\ unpack_type_string E context r =
         (ByteReader.advance r (length context),
          Ok ("'" ++ rstrip_space (decode_ascii_replace (replace_nul data))
              ++ "'")).
Proof.
  intros Hname Hr. eexists. split; [apply read_ok; exact Hr |].
  unfold unpack_type_string, bind. rewrite read_ok by exact Hr.
  rewrite Hname. reflexivity.
Qed.

(** VARCHAR with the binary charset: the same after the length prefix. *)
Lemma unpack_type_varchar_binary (context : Context) (r r' : ByteReader.t)
  (len : Z) :
  Charset.name (charset context) = "binary" ->
  (if length context <? 256 then uint8 (default_endian E)
   else uint16 (default_endian E)) r = (r', Ok len) ->
  len <= ByteReader.remaining r' ->
  exists data,
    read len r' = (ByteReader.advance r' len, Ok data)
    /\ unpack_type_varchar E context r =
         (ByteReader.advance r' len,
          Ok ("'" ++ rstrip_space (decode_ascii_replace (replace_nul data))
              ++ "'")).
Proof.
  intros Hname Hlen Hr. eexists. split; [apply read_ok; exact Hr |].
  unfold unpack_type_varchar, bind. rewrite Hlen.
  rewrite read_ok by exact Hr. rewrite Hname. reflexivity.
Qed.

(** The 4.1 VAR_STRING has one path for every charset: the bytes read go to
    the codec of the charset as they are. *)
Lemma unpack_type_var_string_any (context : Context) (r : ByteReader.t) :
  length context <= ByteReader.remaining r ->
  exists data,
    read (length context) r = (ByteReader.advance r (length context), Ok data)
    /\ unpack_type_var_string E context r =
         (ByteReader.advance r (length context),
          rbind (codec_decode E (Charset.pycharset (charset context)) data)
                (fun text => Ok ("'" ++ rstrip_space text ++ "'"))).
Proof.
  intros Hr. eexists. split; [apply read_ok; exact Hr |].
  unfold unpack_type_var_string, bind. rewrite read_ok by exact Hr.
  unfold lift.
  destruct (codec_decode E _ _); reflexivity.
Qed.

End Properties.

(** ** NEWDECIMAL values of one group on each side of the point

    When the integer digits and the fractional digits each fit one group
    (at most nine digits), [unpack_type_newdecimal] gives back the text that
    was encoded, for both signs. Digit texts are taken as the texts of
    decimal numerals ([Decimal.uint]). *)
Module NewDecimal.

Import Decimal DecimalFacts DecimalPos.Unsigned.

Lemma string_of_uint_nil (d : uint) :
  NilEmpty.string_of_uint d = "" -> d = Nil.
Proof. destruct d; simpl; congruence. Qed.

Lemma lstrip0_string_of_uint (d : uint) :
  lstrip0 (NilEmpty.string_of_uint d) = NilEmpty.string_of_uint (nzhead d).
Proof. induction d; simpl; auto. Qed.

(** [str] of the number a digit text denotes: the text without its leading
    zeros, or ["0"]. *)
Lemma str_of_uint (d : uint) :
  str (Z.of_uint d) = nonempty (lstrip0 (NilEmpty.string_of_uint d)).
Proof.
  unfold str. change (Z.of_uint d) with (Z.of_int (Pos d)).
  rewrite DecimalZ.to_of. simpl norm.
  rewrite lstrip0_string_of_uint. unfold unorm, nonempty.
  destruct (nzhead d) eqn:Hd; try reflexivity.
Qed.


Lemma usize_nb_digits (d : uint) : usize d = N.of_nat (nb_digits d).
Proof. induction d; simpl nb_digits; simpl usize; rewrite ?IHd; try reflexivity; lia. Qed.

Lemma of_lu_bound (d : uint) : (of_lu d < 10 ^ usize d)%N.
Proof.
  induction d; simpl usize; rewrite ?N.pow_succ_r';
    [ simpl; lia | .. ];
    rewrite of_lu_eqn; simpl hd; simpl tl; lia.
Qed.

Lemma length_string_of_uint (d : uint) :
  String.length (NilEmpty.string_of_uint d) = nb_digits d.
Proof. induction d; simpl; congruence. Qed.

(** The value of a digit text read from the left with an accumulator. *)
Lemma fold_digits (d : uint) (acc : Z) :
  fold_left (fun a c => a * 10 + Encode.digit_value c)
            (list_ascii_of_string (NilEmpty.string_of_uint d)) acc
  = acc * 10 ^ Z.of_N (usize d) + Z.of_N (of_lu (rev d)).
Proof.
  revert acc.
  induction d; intros acc; simpl usize;
    [ simpl; lia | .. ];
    unfold rev; simpl revapp; rewrite (of_lu_revapp d); fold (rev d);
    simpl NilEmpty.string_of_uint; simpl list_ascii_of_string;
    simpl fold_left; rewrite IHd;
    rewrite N2Z.inj_succ, Z.pow_succ_r by lia;
    rewrite N2Z.inj_add, N2Z.inj_mul, N2Z.inj_pow;
    match goal with |- context [Encode.digit_value ?c] =>
      let v := eval vm_compute in (Encode.digit_value c) in
      change (Encode.digit_value c) with v end;
    match goal with |- context [of_lu (?k Nil)] =>
      let v := eval vm_compute in (Z.of_N (of_lu (k Nil))) in
      change (Z.of_N (of_lu (k Nil))) with v end;
    change (Z.of_N 10) with 10; ring.
Qed.

Lemma digits_value_of_uint (d : uint) :
  Encode.digits_value (list_ascii_of_string (NilEmpty.string_of_uint d))
  = Z.of_uint d.
Proof.
  unfold Encode.digits_value. rewrite fold_digits.
  unfold Z.of_uint. now rewrite of_uint_alt.
Qed.

Lemma of_uint_bound (d : uint) :
  0 <= Z.of_uint d < 10 ^ Z.of_nat (nb_digits d).
Proof.
  unfold Z.of_uint. rewrite of_uint_alt.
  pose proof (of_lu_bound (rev d)) as H.
  rewrite usize_nb_digits, nb_digits_rev in H.
  split; [lia |].
  apply N2Z.inj_lt in H. rewrite N2Z.inj_pow in H.
  now rewrite nat_N_Z in H.
Qed.

Lemma replicate_snoc (n : nat) (c : ascii) :
  replicate n c ++ String c "" = replicate (S n) c.
Proof. induction n; simpl; [reflexivity | now rewrite IHn]. Qed.

Lemma length_replicate (n : nat) (c : ascii) :
  String.length (replicate n c) = n.
Proof. induction n; simpl; congruence. Qed.

Lemma length_append (a b : string) :
  String.length (a ++ b) = (String.length a + String.length b)%nat.
Proof. induction a; simpl; congruence. Qed.

Lemma lstrip0_split (d : uint) :
  exists k,
    NilEmpty.string_of_uint d
    = replicate k "0"%char ++ NilEmpty.string_of_uint (nzhead d).
Proof.
  induction d; try (exists 0%nat; reflexivity).
  destruct IHd as [k Hk]. exists (S k). simpl. now rewrite Hk at 1.
Qed.

Lemma nzhead_first (d : uint) :
  match NilEmpty.string_of_uint (nzhead d) with
  | String c _ => (Ascii.eqb c "-" || Ascii.eqb c "+")%bool = false
  | EmptyString => True
  end.
Proof. induction d; simpl; auto. Qed.

(** Padding [str] of the value back to the digit count gives the digits. *)
Lemma zfill_of_uint (d : uint) :
  (0 < nb_digits d)%nat ->
  zfill (Z.of_nat (nb_digits d)) (str (Z.of_uint d))
  = NilEmpty.string_of_uint d.
Proof.
  intros Hn. rewrite str_of_uint, lstrip0_string_of_uint.
  destruct (lstrip0_split d) as [k Hk].
  pose proof (length_string_of_uint d) as Hlen.
  rewrite Hk, length_append, length_replicate in Hlen.
  pose proof (nzhead_first d) as Hfirst.
  unfold nonempty.
  destruct (NilEmpty.string_of_uint (nzhead d)) as [|c t] eqn:Ht.
  - simpl String.eqb. cbv iota. rewrite Hk. simpl in Hlen.
    rewrite Nat.add_0_r in Hlen. subst k. rewrite append_nil_r.
    unfold zfill. simpl String.length.
    destruct (Z.leb_spec (Z.of_nat (nb_digits d)) (Z.of_nat 1)).
    + assert (nb_digits d = 1%nat) as -> by lia. reflexivity.
    + simpl. replace (Z.to_nat (Z.of_nat (nb_digits d) - Z.of_nat 1))
        with (nb_digits d - 1)%nat by lia.
      rewrite replicate_snoc. f_equal. lia.
  - simpl String.eqb. cbv iota. rewrite Hk.
    unfold zfill. rewrite Hfirst.
    destruct (Z.leb_spec (Z.of_nat (nb_digits d))
                         (Z.of_nat (String.length (String c t)))).
    + assert (k = 0%nat) as -> by lia. reflexivity.
    + do 2 f_equal. simpl in *. lia.
Qed.

Lemma byte_val_byte_of (x : Z) : 0 <= x < 256 -> byte_val (byte_of x) = x.
Proof.
  intros Hx. unfold byte_val, byte_of.
  destruct (Byte.of_N (Z.to_N x)) as [b |] eqn:Hb.
  - apply Byte.to_of_N in Hb. lia.
  - apply Byte.of_N_None_iff in Hb. lia.
Qed.

Lemma be_uint_acc (l : list byte) (acc : Z) :
  fold_left (fun a b => a * 256 + byte_val b) l acc
  = acc * 256 ^ Z.of_nat (List.length l) + be_uint l.
Proof.
  unfold be_uint. revert acc.
  induction l as [|b l IH]; intros acc.
  - simpl. lia.
  - cbn [fold_left List.length]. rewrite IH, (IH (0 * 256 + byte_val b)).
    rewrite Nat2Z.inj_succ, Z.pow_succ_r by lia. ring.
Qed.

Lemma be_uint_app (l1 l2 : list byte) :
  be_uint (l1 ++ l2)
  = be_uint l1 * 256 ^ Z.of_nat (List.length l2) + be_uint l2.
Proof. unfold be_uint at 1. rewrite fold_left_app. apply be_uint_acc. Qed.

Lemma be_uint_cons (b : byte) (l : list byte) :
  be_uint (b :: l) = byte_val b * 256 ^ Z.of_nat (List.length l) + be_uint l.
Proof. apply (be_uint_app [b] l). Qed.

Lemma be_uint_bound (l : list byte) :
  0 <= be_uint l < 256 ^ Z.of_nat (List.length l).
Proof.
  induction l as [|b l IH].
  - vm_compute. split; [discriminate | reflexivity].
  - rewrite be_uint_cons. cbn [List.length].
    rewrite Nat2Z.inj_succ, Z.pow_succ_r by lia.
    pose proof (byte_val_range b). nia.
Qed.

Lemma be_bytes_length (n : nat) (v : Z) :
  List.length (Encode.be_bytes n v) = n.
Proof.
  revert v. induction n as [|n IH]; intros v; simpl; [reflexivity |].
  rewrite length_app, IH. simpl. lia.
Qed.

(** Reading back the low [n] bytes of [v]. *)
Lemma be_uint_be_bytes (n : nat) (v : Z) :
  be_uint (Encode.be_bytes n v) = v mod 256 ^ Z.of_nat n.
Proof.
  revert v. induction n as [|n IH]; intros v.
  - simpl. now rewrite Z.mod_1_r.
  - cbn [Encode.be_bytes]. rewrite be_uint_app, IH.
    change (be_uint [byte_of (v mod 256)]) with (0 * 256 + byte_val (byte_of (v mod 256))).
    rewrite byte_val_byte_of by (apply Z.mod_pos_bound; lia).
    rewrite Nat2Z.inj_succ, Z.pow_succ_r by lia.
    rewrite (Z.rem_mul_r v 256 (256 ^ Z.of_nat n)) by lia.
    simpl List.length. change (256 ^ Z.of_nat 1) with 256. ring.
Qed.

Lemma lnot_mod (v m : Z) : 0 <= v < m -> Z.lnot v mod m = m - 1 - v.
Proof.
  intros H. unfold Z.lnot. symmetry.
  apply (Z.mod_unique _ _ (-1)); lia.
Qed.

Lemma be_uint_repeat_00 (k : nat) : be_uint (repeat x00 k) = 0.
Proof.
  induction k as [|k IH]; [reflexivity |].
  cbn [repeat]. rewrite be_uint_cons, IH. reflexivity.
Qed.

Lemma be_uint_repeat_ff (k : nat) :
  be_uint (repeat xff k) = 256 ^ Z.of_nat k - 1.
Proof.
  induction k as [|k IH]; [reflexivity |].
  cbn [repeat]. rewrite be_uint_cons, IH, repeat_length.
  rewrite Nat2Z.inj_succ, Z.pow_succ_r by lia.
  change (byte_val xff) with 255. ring.
Qed.

Lemma unflip_byte (b : byte) :
  byte_of (Z.lxor (byte_val (byte_of (Z.lxor (byte_val b) 128))) 128) = b.
Proof. destruct b; reflexivity. Qed.

Lemma sign_byte (b : byte) :
  truthy (Z.land (byte_val (byte_of (Z.lxor (byte_val b) 128))) 128)
  = (byte_val b <? 128).
Proof. destruct b; reflexivity. Qed.

Lemma slice_tail {A} (x : A) (l : list A) : slice (x :: l) (Some 1) None = l.
Proof.
  unfold slice, clamp_index. cbn [List.length].
  change (1 <? 0) with false. cbv iota.
  rewrite Z.min_l by lia.
  change (Z.to_nat 1) with 1%nat. cbn [skipn].
  replace (Z.to_nat (Z.of_nat (S (List.length l)) - 1)) with (List.length l) by lia.
  apply firstn_all.
Qed.

Lemma slice_prefix {A} (l1 l2 : list A) :
  slice (l1 ++ l2) (Some 0) (Some (Z.of_nat (List.length l1))) = l1.
Proof.
  unfold slice, clamp_index. rewrite length_app.
  change (0 <? 0) with false. cbv iota.
  destruct (Z.ltb_spec (Z.of_nat (List.length l1)) 0); [lia |].
  rewrite Z.min_l, Z.min_l by lia. cbn [Z.to_nat skipn].
  rewrite Z.sub_0_r, Nat2Z.id.
  rewrite firstn_app, Nat.sub_diag, firstn_all. cbn [firstn]. apply List.app_nil_r.
Qed.

Lemma slice_suffix {A} (l1 l2 : list A) :
  l2 <> [] ->
  slice (l1 ++ l2) (Some (- Z.of_nat (List.length l2))) None = l2.
Proof.
  intros Hne. unfold slice, clamp_index. rewrite length_app.
  assert (0 < List.length l2)%nat by (destruct l2; [congruence | simpl; lia]).
  destruct (Z.ltb_spec (- Z.of_nat (List.length l2)) 0); [| lia].
  rewrite Z.max_r by lia.
  replace (Z.to_nat (Z.of_nat (List.length l1 + List.length l2)
                     + - Z.of_nat (List.length l2))) with (List.length l1) by lia.
  rewrite skipn_app, Nat.sub_diag, skipn_all. cbn [skipn List.app].
  replace (Z.to_nat _) with (List.length l2) by lia.
  apply firstn_all.
Qed.

Lemma slice_whole_neg {A} (l : list A) :
  l <> [] -> slice l (Some (- Z.of_nat (List.length l))) None = l.
Proof. intros H. apply (slice_suffix [] l H). Qed.

Lemma slice_none_neg {A} (l : list A) :
  slice l None (Some (- Z.of_nat (List.length l))) = [].
Proof.
  unfold slice, clamp_index.
  destruct (_ <? 0).
  - rewrite Z.max_l by lia. reflexivity.
  - assert (Z.of_nat (List.length l) = 0 \/ 0 < Z.of_nat (List.length l)) as [H0 | H0] by lia.
    + rewrite H0. reflexivity.
    + rewrite Z.min_l by lia. cbn [skipn Z.to_nat].
      replace (Z.to_nat _) with 0%nat by lia. reflexivity.
Qed.

Lemma unpack_be_i32s_4 (l : list byte) :
  List.length l = 4%nat -> unpack_be_i32s l = Ok [signed 32 (be_uint l)].
Proof.
  destruct l as [|a [|b [|c [|d [|e l]]]]]; try discriminate. reflexivity.
Qed.


(** A group of one to four bytes, padded as the decoder pads it, is a
    four-byte list whose value is the stored number, or its complement to
    32 bits for a negative value. *)
Lemma padded_group (w : nat) (v : Z) (neg : bool) (l : list byte) :
  (1 <= w <= 4)%nat ->
  0 <= v < 2 ^ (8 * Z.of_nat w - 1) ->
  List.length l = w ->
  be_uint l = (if neg then Z.lnot v else v) mod 256 ^ Z.of_nat w ->
  let data4 := (bytes_times (4 - Z.of_nat w) (if neg then xff else x00) ++ l)%list in
  List.length data4 = 4%nat
  /\ be_uint data4 = if neg then 2 ^ 32 - 1 - v else v.
Proof.
  intros Hw Hv Hlen Hval data4. subst data4.
  rewrite length_app, be_uint_app. unfold bytes_times.
  rewrite repeat_length, Hval, Hlen.
  assert (Hcase : (w = 1 \/ w = 2 \/ w = 3 \/ w = 4)%nat) by lia.
  assert (Hmod : forall m, 0 <= v < m ->
            (if neg then Z.lnot v else v) mod m = if neg then m - 1 - v else v).
  { intros m Hm. destruct neg; [now apply lnot_mod | now apply Z.mod_small]. }
  destruct Hcase as [-> | [-> | [-> | ->]]];
    change (8 * Z.of_nat 1 - 1) with 7 in Hv;
    change (8 * Z.of_nat 2 - 1) with 15 in Hv;
    change (8 * Z.of_nat 3 - 1) with 23 in Hv;
    change (8 * Z.of_nat 4 - 1) with 31 in Hv;
    eval_pows;
    (split; [reflexivity |]);
    rewrite Hmod by lia;
    destruct neg;
    rewrite ?be_uint_repeat_ff, ?be_uint_repeat_00;
    eval_pows; lia.
Qed.

(** [_decode_decimal] on one group of one to four bytes holding [v], or
    its complement when the value is negative, gives [str v]. *)
Lemma decode_group_bytes (v : Z) (neg : bool) (l : list byte) :
  (1 <= List.length l <= 4)%nat ->
  0 <= v < 2 ^ (8 * Z.of_nat (List.length l) - 1) ->
  be_uint l
  = (if neg then Z.lnot v else v) mod 256 ^ Z.of_nat (List.length l) ->
  _decode_decimal l neg = Ok (str v).
Proof.
  intros Hw Hv Hval.
  assert (Hne : l <> []) by (intros ->; simpl in Hw; lia).
  destruct (padded_group (List.length l) v neg l Hw Hv eq_refl Hval)
    as [Hl4 Hu].
  assert (Hpad :
    (let modcheck := Z.of_nat (List.length l) mod 4 in
     if negb (modcheck =? 0) then
       let pad := 4 - modcheck in
       let pad_char := if neg then xff else x00 in
       let whole := slice l None (Some (- modcheck)) in
       let frac := (bytes_times pad pad_char
                    ++ slice l (Some (- modcheck)) None)%list in
       (whole ++ frac)%list
     else l)
    = (bytes_times (4 - Z.of_nat (List.length l)) (if neg then xff else x00)
       ++ l)%list).
  { cbv zeta.
    assert (Hcase : (List.length l < 4 \/ List.length l = 4)%nat) by lia.
    destruct Hcase as [Hlt | H4].
    - rewrite Z.mod_small by lia.
      destruct (Z.eqb_spec (Z.of_nat (List.length l)) 0); [lia |].
      cbn [negb].
      rewrite slice_none_neg, slice_whole_neg by exact Hne. reflexivity.
    - rewrite H4. reflexivity. }
  unfold _decode_decimal. cbv zeta in Hpad |- *. rewrite Hpad.
  rewrite unpack_be_i32s_4 by exact Hl4. cbn [rbind].
  rewrite Hu.
  assert (Hv31 : 0 <= v < 2 ^ 31).
  { split; [lia |]. eapply Z.lt_le_trans; [apply Hv |].
    apply Z.pow_le_mono_r; lia. }
  f_equal. unfold signed. change (2 ^ (32 - 1)) with (2 ^ 31).
  destruct neg.
  - destruct (Z.ltb_spec (2 ^ 32 - 1 - v) (2 ^ 31)) as [H | H].
    + eval_pows. lia.
    + cbn [map]. replace (Z.lnot (2 ^ 32 - 1 - v - 2 ^ 32)) with v
        by (unfold Z.lnot; lia).
      cbn [String.concat]. reflexivity.
  - destruct (Z.ltb_spec v (2 ^ 31)) as [H | H].
    + cbn [map String.concat]. reflexivity.
    + lia.
Qed.


(** Up to nine digits: the byte count the decoder computes is the width of
    the group, at most four bytes, and nine digits leave the top bit of the
    group free. *)
Lemma group_width_facts (n : nat) :
  (n <= 9)%nat ->
  (exists x, index DIGITS_TO_BYTES (Z.of_nat n mod 9) = Ok x
             /\ Z.of_nat n / 9 * 4 + x = Z.of_nat (group_width n))
  /\ (group_width n <= 4)%nat
  /\ ((1 <= n)%nat ->
      (1 <= group_width n)%nat
      /\ 10 ^ Z.of_nat n <= 2 ^ (8 * Z.of_nat (group_width n) - 1)).
Proof.
  intros Hn.
  do 10 (destruct n as [|n];
         [ split; [eexists; split; reflexivity |];
           split; [vm_compute; lia |];
           intros H1;
           first [ exfalso; lia
                 | split; [vm_compute; lia | vm_compute; discriminate] ] |]).
  lia.
Qed.

(** Up to nine digits make one group. *)
Lemma int_groups_bytes (neg : bool) (l : list ascii) :
  (List.length l <= 9)%nat ->
  List.concat (map (Encode.group_bytes neg) (Encode.int_groups l))
  = Encode.be_bytes (group_width (List.length l))
      (if neg then Z.lnot (Encode.digits_value l) else Encode.digits_value l).
Proof.
  intros Hn.
  do 10 (destruct l as [|? l];
         [ cbn [Encode.int_groups List.length Nat.modulo Nat.divmod fst snd
                Nat.sub firstn skipn Encode.groups9 List.app map List.concat];
           rewrite ?List.app_nil_r; reflexivity |]).
  simpl in Hn. lia.
Qed.

Lemma frac_groups_bytes (neg : bool) (l : list ascii) :
  (List.length l <= 9)%nat ->
  List.concat (map (Encode.group_bytes neg) (Encode.frac_groups l))
  = Encode.be_bytes (group_width (List.length l))
      (if neg then Z.lnot (Encode.digits_value l) else Encode.digits_value l).
Proof.
  intros Hn.
  do 10 (destruct l as [|? l];
         [ cbn [Encode.frac_groups List.length firstn skipn Encode.groups9
                List.app map List.concat];
           rewrite ?List.app_nil_r; reflexivity |]).
  simpl in Hn. lia.
Qed.

(** The top bit of the first byte of a stored group tells the sign. *)
Lemma top_byte (v : Z) (neg : bool) (l : list byte) :
  (1 <= List.length l <= 4)%nat ->
  0 <= v < 2 ^ (8 * Z.of_nat (List.length l) - 1) ->
  be_uint l
  = (if neg then Z.lnot v else v) mod 256 ^ Z.of_nat (List.length l) ->
  exists b0 t, l = b0 :: t /\ (byte_val b0 <? 128) = negb neg.
Proof.
  intros Hw Hv Hval.
  destruct l as [|b0 t]; [simpl in Hw; lia |].
  exists b0, t. split; [reflexivity |].
  rewrite be_uint_cons in Hval.
  pose proof (be_uint_bound t) as Ht.
  pose proof (byte_val_range b0) as Hb.
  cbn [List.length] in *.
  assert (Hcase : (List.length t = 0 \/ List.length t = 1
                   \/ List.length t = 2 \/ List.length t = 3)%nat) by lia.
  assert (Hmod : forall m, 0 <= v < m ->
            (if neg then Z.lnot v else v) mod m = if neg then m - 1 - v else v).
  { intros m Hm. destruct neg; [now apply lnot_mod | now apply Z.mod_small]. }
  destruct Hcase as [H | [H | [H | H]]]; rewrite H in *;
    change (8 * Z.of_nat 1 - 1) with 7 in Hv;
    change (8 * Z.of_nat 2 - 1) with 15 in Hv;
    change (8 * Z.of_nat 3 - 1) with 23 in Hv;
    change (8 * Z.of_nat 4 - 1) with 31 in Hv;
    eval_pows;
    rewrite Hmod in Hval by lia;
    destruct neg; cbn [negb];
    destruct (Z.ltb_spec (byte_val b0) 128); try reflexivity; lia.
Qed.

Section RoundTrip.

Variable E : Extern.

(** Reading a whole buffer. *)
Lemma read_all (data : list byte) (n : Z) :
  n = Z.of_nat (List.length data) ->
  read n (ByteReader.Make data 0)
  = (ByteReader.Make data (List.length data), Ok data).
Proof.
  intros ->. rewrite read_ok
    by (unfold ByteReader.remaining; simpl; lia).
  unfold ByteReader.advance. simpl. rewrite Nat2Z.id, firstn_all. reflexivity.
Qed.

Lemma flip_top_bit_length (l : list byte) :
  List.length (Encode.flip_top_bit l) = List.length l.
Proof. destruct l; reflexivity. Qed.


Lemma length_list_ascii (s : string) :
  List.length (list_ascii_of_string s) = String.length s.
Proof. induction s; simpl; congruence. Qed.

Lemma nonempty_lstrip0_idem (d : uint) :
  nonempty (lstrip0 (nonempty (lstrip0 (NilEmpty.string_of_uint d))))
  = nonempty (lstrip0 (NilEmpty.string_of_uint d)).
Proof.
  rewrite lstrip0_string_of_uint. unfold nonempty at 2.
  destruct (String.eqb_spec (NilEmpty.string_of_uint (nzhead d)) "") as [H | H].
  - rewrite H. reflexivity.
  - now rewrite lstrip0_string_of_uint, nzhead_involutive.
Qed.

(** What the encoder stores for digits of at most one group per side. *)
Lemma newdecimal_bytes (neg : bool) (di df : uint) :
  (nb_digits di <= 9)%nat -> (nb_digits df <= 9)%nat ->
  Encode.newdecimal neg (NilEmpty.string_of_uint di)
                        (NilEmpty.string_of_uint df)
  = Encode.flip_top_bit
      (Encode.be_bytes (group_width (nb_digits di))
         (if neg then Z.lnot (Z.of_uint di) else Z.of_uint di)
       ++ Encode.be_bytes (group_width (nb_digits df))
         (if neg then Z.lnot (Z.of_uint df) else Z.of_uint df))%list.
Proof.
  intros Hi Hf. unfold Encode.newdecimal.
  rewrite map_app, concat_app.
  rewrite int_groups_bytes, frac_groups_bytes
    by (rewrite length_list_ascii, length_string_of_uint; assumption).
  now rewrite !length_list_ascii, !length_string_of_uint, !digits_value_of_uint.
Qed.

(** Round trip for one group on each side: with at most nine integer digits
    and at most nine fractional digits (not both none), for both signs, the
    decoder returns the encoded text, and has read all its bytes. *)
Theorem unpack_type_newdecimal_single_groups (context : Context)
  (negative : bool) (di df : uint) :
  (nb_digits di <= 9)%nat ->
  (nb_digits df <= 9)%nat ->
  (0 < nb_digits di + nb_digits df)%nat ->
  decimal_precision E context = Z.of_nat (nb_digits di + nb_digits df) ->
  f_decimals E (flags context) = Z.of_nat (nb_digits df) ->
  let int_digits := NilEmpty.string_of_uint di in
  let frac_digits := NilEmpty.string_of_uint df in
  let data := Encode.newdecimal negative int_digits frac_digits in
  unpack_type_newdecimal E context (ByteReader.Make data 0)
  = (ByteReader.Make data (List.length data),
     Ok ("'" ++ Encode.decimal_text negative int_digits frac_digits ++ "'")).
Proof.
  intros Hi Hf Hpos Hprec Hscale int_digits frac_digits data.
  subst int_digits frac_digits.
  assert (Hdata := newdecimal_bytes negative di df Hi Hf). fold data in Hdata.
  destruct (group_width_facts (nb_digits di) Hi)
    as [[xi [Hxi Hxi']] [Hwi4 Hwi]].
  destruct (group_width_facts (nb_digits df) Hf)
    as [[xf [Hxf Hxf']] [Hwf4 Hwf]].
  pose proof (of_uint_bound di) as Hvi.
  pose proof (of_uint_bound df) as Hvf.
  set (vi := Z.of_uint di) in *. set (vf := Z.of_uint df) in *.
  set (wi := group_width (nb_digits di)) in *.
  set (wf := group_width (nb_digits df)) in *.
  remember (Encode.be_bytes wi (if negative then Z.lnot vi else vi)) as bi eqn:Hbi.
  remember (Encode.be_bytes wf (if negative then Z.lnot vf else vf)) as bf eqn:Hbf.
  assert (Hbil : List.length bi = wi) by (subst bi; apply be_bytes_length).
  assert (Hbfl : List.length bf = wf) by (subst bf; apply be_bytes_length).
  assert (Hbiv : be_uint bi = (if negative then Z.lnot vi else vi)
                              mod 256 ^ Z.of_nat (List.length bi))
    by (rewrite Hbil; subst bi; apply be_uint_be_bytes).
  assert (Hbfv : be_uint bf = (if negative then Z.lnot vf else vf)
                              mod 256 ^ Z.of_nat (List.length bf))
    by (rewrite Hbfl; subst bf; apply be_uint_be_bytes).
  clear Hbi Hbf.
  unfold unpack_type_newdecimal.
  rewrite Hprec, Hscale.
  replace (Z.of_nat (nb_digits di + nb_digits df) - Z.of_nat (nb_digits df))
    with (Z.of_nat (nb_digits di)) by lia.
  unfold bind at 1. unfold lift at 1. rewrite Hxi, Hxi'.
  unfold bind at 1. unfold lift at 1. rewrite Hxf, Hxf'.
  unfold bind at 1.
  rewrite read_all
    by (rewrite Hdata, flip_top_bit_length, length_app, Hbil, Hbfl; lia).
  assert (Hgi : (1 <= nb_digits di)%nat ->
            (1 <= List.length bi <= 4)%nat
            /\ 0 <= vi < 2 ^ (8 * Z.of_nat (List.length bi) - 1)).
  { intros H1. destruct (Hwi H1) as [Hw1 Hwb]. rewrite Hbil. lia. }
  assert (Hgf : (1 <= nb_digits df)%nat ->
            (1 <= List.length bf <= 4)%nat
            /\ 0 <= vf < 2 ^ (8 * Z.of_nat (List.length bf) - 1)).
  { intros H1. destruct (Hwf H1) as [Hw1 Hwb]. rewrite Hbfl. lia. }
  assert (Hi0 : nb_digits di = 0%nat -> bi = []).
  { intros H0. subst wi. rewrite H0 in Hbil. now destruct bi. }
  assert (Hf0 : nb_digits df = 0%nat -> bf = []).
  { intros H0. subst wf. rewrite H0 in Hbfl. now destruct bf. }
  clear Hwi Hwf.
  assert (Hall : exists b0 t,
            (bi ++ bf)%list = b0 :: t
            /\ (byte_val b0 <? 128) = negb negative).
  { destruct (Nat.eq_dec (nb_digits di) 0) as [Hz | Hz].
    - rewrite (Hi0 Hz). cbn [List.app].
      destruct Hgf as [Hl Hb]; [lia |].
      apply (top_byte vf negative bf Hl Hb Hbfv).
    - destruct Hgi as [Hl Hb]; [lia |].
      destruct (top_byte vi negative bi Hl Hb Hbiv) as [b0 [t [Hbt Hs]]].
      exists b0, (t ++ bf)%list. split; [now rewrite Hbt | exact Hs]. }
  destruct Hall as [b0 [t [Hbt Hsign]]].
  assert (Hfirst : unpack_from_B data
                   = Ok (byte_val (byte_of (Z.lxor (byte_val b0) 128)))).
  { rewrite Hdata, Hbt. reflexivity. }
  assert (Hrest : slice data (Some 1) None = t).
  { rewrite Hdata, Hbt. apply slice_tail. }
  unfold bind at 1. unfold lift at 1. rewrite Hfirst.
  rewrite sign_byte, unflip_byte, Hrest, Hsign, <- Hbt.
  replace (negb ((if negb negative then "" else "-") =? "")%string)
    with negative by (destruct negative; reflexivity).
  set (sign := if negb negative then "" else "-").
  match goal with
  | |- (bind ?m ?k) ?r = _ =>
      assert (Hint : m r
        = (r, Ok (sign ++ nonempty (lstrip0 (NilEmpty.string_of_uint di)))))
  end.
  { destruct (Nat.eq_dec (nb_digits di) 0) as [Hz | Hz].
    - assert (Hw0 : wi = 0%nat) by (subst wi; rewrite Hz; reflexivity).
      rewrite Hw0. change (truthy (Z.of_nat 0)) with false. cbv iota.
      apply nb_digits_0 in Hz. rewrite Hz. reflexivity.
    - destruct Hgi as [Hl Hb]; [lia |].
      replace (truthy (Z.of_nat wi)) with true
        by (unfold truthy; destruct (Z.eqb_spec (Z.of_nat wi) 0); [lia | reflexivity]).
      cbv iota. rewrite <- Hbil, slice_prefix.
      rewrite (decode_group_bytes vi negative bi Hl Hb Hbiv).
      unfold bind, lift, ret. subst vi. rewrite str_of_uint.
      fold (nonempty (lstrip0 (nonempty (lstrip0 (NilEmpty.string_of_uint di))))).
      now rewrite nonempty_lstrip0_idem. }
  unfold bind at 1. rewrite Hint.
  match goal with
  | |- (bind ?m ?k) ?r = _ =>
      assert (Hfrac : m r
        = (r, Ok (if Nat.eqb (nb_digits df) 0
                  then [sign ++ nonempty (lstrip0 (NilEmpty.string_of_uint di))]
                  else [sign ++ nonempty (lstrip0 (NilEmpty.string_of_uint di));
                        NilEmpty.string_of_uint df])))
  end.
  { destruct (Nat.eqb_spec (nb_digits df) 0) as [Hz | Hz].
    - assert (Hw0 : wf = 0%nat) by (subst wf; rewrite Hz; reflexivity).
      rewrite Hw0. reflexivity.
    - destruct Hgf as [Hl Hb]; [lia |].
      replace (truthy (Z.of_nat wf)) with true
        by (unfold truthy; destruct (Z.eqb_spec (Z.of_nat wf) 0); [lia | reflexivity]).
      cbv iota. rewrite <- Hbfl, slice_suffix
        by (intros ->; simpl in Hl; lia).
      rewrite (decode_group_bytes vf negative bf Hl Hb Hbfv).
      unfold bind, lift, ret. subst vf.
      rewrite zfill_of_uint by lia. reflexivity. }
  unfold bind at 1. rewrite Hfrac. unfold ret.
  f_equal. f_equal. unfold repr_plain, Encode.decimal_text. f_equal.
  fold (nonempty (lstrip0 (NilEmpty.string_of_uint di))).
  replace (if negative then "-" else "") with sign
    by (subst sign; destruct negative; reflexivity).
  destruct (Nat.eqb_spec (nb_digits df) 0) as [Hz | Hz].
  - apply nb_digits_0 in Hz. rewrite Hz. cbn [join]. simpl.
    now rewrite ?append_nil_r, ?append_assoc.
  - cbn [join].
    destruct (String.eqb_spec (NilEmpty.string_of_uint df) "") as [He | He].
    + apply string_of_uint_nil in He. subst df. simpl in Hz. congruence.
    + now rewrite ?append_assoc.
Qed.

End RoundTrip.

End NewDecimal.

(** ** More of the module: dispatch, the other routines, formatting *)

Section MoreProperties.

Variable E : Extern.

(** *** Dispatch tables *)

Lemma lookup_None_iff {A} (key : string) (table : list (string * A)) :
  lookup key table = None <-> ~ In key (map fst table).
Proof.
  induction table as [|[k v] table IH]; simpl.
  - tauto.
  - destruct (String.eqb_spec k key) as [-> | Hne].
    + split; [discriminate | tauto].
    + rewrite IH. tauto.
Qed.

(** No formatting routine raises [LookupError] itself. *)
Lemma format_type_lookup_none (context : Context) :
  format_type E context = Raise LookupError
  <-> lookup (lower (Enum.name (type_code context))) (format_globals E)
      = None.
Proof.
  unfold format_type.
  destruct (lookup _ (format_globals E)) as [dispatch |] eqn:Hl.
  - split; [| discriminate].
    intros H. exfalso.
    assert (Hno : forall c, dispatch c <> Raise LookupError).
    { clear H. simpl in Hl.
      repeat match type of Hl with
             | (if ?b then _ else _) = _ =>
                 destruct b; [injection Hl as <- | ]
             end; try discriminate Hl;
      intros c;
      unfold format_type_tiny, format_type_short, format_type_int24,
        format_type_long, format_type_longlong, format_type_newdecimal,
        format_type_decimal, format_type_newdecimal,
        format_type_float, format_type_double, format_type_string,
        format_type_varchar, format_type_var_string, format_type_varchar,
        format_type_enum, format_type_set,
        format_type_tiny_blob, format_type_blob, format_type_medium_blob,
        format_type_long_blob, format_blob, format_type_bit,
        format_type_time2, format_type_time, format_type_time2,
        format_type_timestamp2, format_type_timestamp, format_type_timestamp2,
        format_type_year, format_type_newdate, format_type_date,
        format_type_newdate,
        format_type_datetime2, format_type_datetime, format_type_datetime2,
        format_scaled, format_type_geometry, floordiv, rbind;
      repeat match goal with
             | |- context [if ?b then _ else _] => destruct b
             end; discriminate. }
    destruct (dispatch context) as [t | e] eqn:Hd; simpl in H.
    + discriminate.
    + apply (Hno context). rewrite Hd. exact H.
  - tauto.
Qed.

(** [format_type] raises [LookupError] exactly when the lowercase type
    name has no formatting routine. *)
Theorem format_type_lookup_error (context : Context) :
  format_type E context = Raise LookupError
  <-> ~ In (lower (Enum.name (type_code context))) format_type_names.
Proof.
  rewrite format_type_lookup_none.
  change format_type_names with (map fst (format_globals E)).
  apply lookup_None_iff.
Qed.


Lemma names_related (name : string) :
  In name unpack_type_names <-> In name format_type_names \/ name = "null".
Proof.
  unfold unpack_type_names, format_type_names. simpl.
  split; intros H; intuition (subst; auto 40).
Qed.

(** *** [unpack_default] *)

Lemma reaches_dispatch_inv (context : Context) :
  reaches_dispatch context = true ->
  (NO_DEFAULT (flags context)
   || Enum.eqb (unireg_check context) Utype.NEXT_NUMBER) = false
  /\ Enum.eqb (unireg_check context) Utype.BLOB_FIELD = false
  /\ forall defaults,
       unpack_default E defaults context
       = unpack_dispatch E defaults (after_null_check context).
Proof.
  intros Hreach. unfold reaches_dispatch in Hreach.
  apply andb_true_iff in Hreach as [Hreach Hbit].
  apply andb_true_iff in Hreach as [Hdef Hblob].
  apply negb_true_iff in Hblob.
  unfold has_stored_default in Hdef. apply negb_true_iff in Hdef.
  repeat split; try assumption.
  intros defaults. unfold unpack_default, after_null_check. rewrite Hdef.
  destruct (MAYBE_NULL (flags context)); [| reflexivity].
  destruct (index (null_map context) (null_bit context / 8)) as [b | e];
    [| discriminate Hbit].
  rewrite null_test. apply negb_true_iff in Hbit. rewrite Hbit. reflexivity.
Qed.

Lemma after_null_check_fields (context : Context) :
  type_code (after_null_check context) = type_code context
  /\ unireg_check (after_null_check context) = unireg_check context.
Proof.
  unfold after_null_check. destruct (MAYBE_NULL (flags context)); split;
    reflexivity.
Qed.

(** when the routine of the type is looked up and the type has none,
    [unpack_default] raises [LookupError] with the reader where it was, and
    [format_type] raises [LookupError] for the same column. *)
Theorem unpack_default_no_routine (defaults : ByteReader.t)
  (context : Context) :
  reaches_dispatch context = true ->
  ~ In (lower (Enum.name (type_code context))) unpack_type_names ->
  unpack_default E defaults context
    = (defaults, after_null_check context, Raise LookupError)
  /\ format_type E context = Raise LookupError.
Proof.
  intros Hreach Hname. split.
  - destruct (reaches_dispatch_inv context Hreach) as [_ [Hblob ->]].
    destruct (after_null_check_fields context) as [Htc Hu].
    unfold unpack_dispatch. rewrite Hu, Hblob, Htc.
    change unpack_type_names with (map fst (unpack_globals E)) in Hname.
    apply lookup_None_iff in Hname. now rewrite Hname.
  - apply format_type_lookup_none.
    change (lookup (lower (Enum.name (type_code context))) (format_globals E)
            = None).
    apply lookup_None_iff.
    change (map fst (format_globals E)) with format_type_names.
    intros Hin. apply Hname. apply names_related. now left.
Qed.

(** the NULL type has a routine, which raises [NotImplemented], not an
    exception: Python turns that into a [TypeError], and [unpack_default]
    lets it through instead of raising [LookupError]. *)
Theorem unpack_default_null_type (defaults : ByteReader.t)
  (context : Context) :
  reaches_dispatch context = true ->
  lower (Enum.name (type_code context)) = "null" ->
  unpack_default E defaults context
    = (defaults, after_null_check context, Raise TypeError).
Proof.
  intros Hreach Hname.
  destruct (reaches_dispatch_inv context Hreach) as [_ [Hblob ->]].
  destruct (after_null_check_fields context) as [Htc Hu].
  unfold unpack_dispatch. rewrite Hu, Hblob, Htc, Hname. reflexivity.
Qed.

(** a column marked as a blob has no default, whatever its null bit:
    the reader stays where it was and only the null-bit cursor of a
    nullable column moves. *)
Theorem unpack_default_blob_field (defaults : ByteReader.t)
  (context : Context) :
  has_stored_default context = true ->
  Enum.eqb (unireg_check context) Utype.BLOB_FIELD = true ->
  (MAYBE_NULL (flags context) = true -> null_byte_present context = true) ->
  unpack_default E defaults context
    = (defaults, after_null_check context, Ok None).
Proof.
  intros Hdef Hblob Hmap.
  unfold has_stored_default in Hdef. apply negb_true_iff in Hdef.
  unfold unpack_default, after_null_check, null_byte_present in *.
  rewrite Hdef.
  destruct (MAYBE_NULL (flags context)).
  - destruct (index (null_map context) (null_bit context / 8)) as [b | e];
      [| discriminate (Hmap eq_refl)].
    simpl unireg_check. rewrite Hblob, andb_false_r.
    unfold unpack_dispatch. simpl unireg_check. now rewrite Hblob.
  - unfold unpack_dispatch. now rewrite Hblob.
Qed.

Lemma unpack_dispatch_none (defaults defaults' : ByteReader.t)
  (context context' : Context) :
  unpack_dispatch E defaults context = (defaults', context', Ok None) ->
  defaults' = defaults
  /\ Enum.eqb (unireg_check context) Utype.BLOB_FIELD = true.
Proof.
  unfold unpack_dispatch.
  destruct (Enum.eqb (unireg_check context) Utype.BLOB_FIELD).
  - intros [= <- _]. split; reflexivity.
  - destruct (lookup _ _) as [dispatch |]; [| discriminate].
    destruct (dispatch context defaults) as [d [t | []]]; discriminate.
Qed.

(** [unpack_default] reports that there is no default only for a column
    flagged as having none, an auto-increment column or a column marked as
    a blob, and then the reader is where it was. *)
Theorem unpack_default_none (defaults defaults' : ByteReader.t)
  (context context' : Context) :
  unpack_default E defaults context = (defaults', context', Ok None) ->
  defaults' = defaults
  /\ (NO_DEFAULT (flags context) = true
      \/ Enum.eqb (unireg_check context) Utype.NEXT_NUMBER = true
      \/ Enum.eqb (unireg_check context) Utype.BLOB_FIELD = true).
Proof.
  unfold unpack_default.
  destruct (NO_DEFAULT (flags context)); simpl.
  { intros [= <- _]. auto. }
  destruct (Enum.eqb (unireg_check context) Utype.NEXT_NUMBER).
  { intros [= <- _]. auto. }
  destruct (MAYBE_NULL (flags context)).
  - destruct (index (null_map context) (null_bit context / 8)) as [b | e];
      [| discriminate].
    match goal with
    | |- context [if ?c then _ else _] => destruct c
    end; [discriminate |].
    intros H. apply unpack_dispatch_none in H as [-> H]. simpl in H. auto.
  - intros H. apply unpack_dispatch_none in H as [-> H]. auto.
Qed.


(** *** Reading integers *)

Lemma next_bytes_length (r : ByteReader.t) (n : Z) :
  0 <= n <= ByteReader.remaining r ->
  Z.of_nat (List.length (next_bytes r n)) = n.
Proof.
  intros H. unfold next_bytes, ByteReader.remaining in *.
  rewrite length_firstn, length_skipn. lia.
Qed.

Lemma read_uint_spec (n : Z) (e : endian) (r : ByteReader.t) :
  n <= ByteReader.remaining r ->
  read_uint n e r
  = (ByteReader.advance r n, Ok (decode_uint e (next_bytes r n))).
Proof.
  intros H. unfold read_uint, bind. now rewrite read_ok by exact H.
Qed.

Lemma read_sint_spec (n : Z) (e : endian) (r : ByteReader.t) :
  n <= ByteReader.remaining r ->
  read_sint n e r
  = (ByteReader.advance r n,
     Ok (signed (8 * n) (decode_uint e (next_bytes r n)))).
Proof.
  intros H. unfold read_sint, bind. now rewrite read_ok by exact H.
Qed.

Lemma decode_uint_bound (e : endian) (data : list byte) :
  0 <= decode_uint e data < 256 ^ Z.of_nat (List.length data).
Proof.
  destruct e; simpl.
  - unfold le_uint. rewrite <- length_rev. apply NewDecimal.be_uint_bound.
  - apply NewDecimal.be_uint_bound.
Qed.

Lemma pow_256 (n : Z) : 0 <= n -> 256 ^ n = 2 ^ (8 * n).
Proof.
  intros H. change 256 with (2 ^ 8). now rewrite <- Z.pow_mul_r by lia.
Qed.

Lemma signed_range (w v : Z) :
  1 <= w -> 0 <= v < 2 ^ w ->
  - 2 ^ (w - 1) <= signed w v < 2 ^ (w - 1).
Proof.
  intros Hw Hv. unfold signed.
  assert (H2 : 2 ^ w = 2 * 2 ^ (w - 1)).
  { rewrite <- Z.pow_succ_r by lia. f_equal. lia. }
  destruct (Z.ltb_spec v (2 ^ (w - 1))); lia.
Qed.

(** The value an integer routine reads: in the signed or in the unsigned
    range of its width. *)
Lemma integer_default (n : Z) (context : Context) (r : ByteReader.t) :
  1 <= n <= ByteReader.remaining r ->
  exists v,
    ((value <- (if DECIMAL (flags context)
                then read_sint n (default_endian E)
                else read_uint n (default_endian E)) ;;
      ret (_format_integer_default value)) r
     = (ByteReader.advance r n, Ok ("'" ++ str v ++ "'")))
    /\ (if DECIMAL (flags context)
        then - 2 ^ (8 * n - 1) <= v < 2 ^ (8 * n - 1)
        else 0 <= v < 2 ^ (8 * n)).
Proof.
  intros Hn.
  pose proof (decode_uint_bound (default_endian E) (next_bytes r n)) as Hb.
  rewrite next_bytes_length, pow_256 in Hb by lia.
  unfold bind.
  destruct (DECIMAL (flags context)).
  - rewrite read_sint_spec by lia. eexists. split; [reflexivity |].
    apply signed_range; lia.
  - rewrite read_uint_spec by lia. eexists. split; [reflexivity |].
    exact Hb.
Qed.

(** TINY, SHORT, INT24, LONG and LONGLONG read 1, 2, 3, 4 and 8 bytes
    and render a number of the signed range of that width when the column
    is signed, of the unsigned range otherwise. *)
Theorem unpack_integer_types (context : Context) (r : ByteReader.t)
  (routine : Extern -> Context -> Reader string) (n : Z) :
  In (routine, n)
     [(unpack_type_tiny, 1); (unpack_type_short, 2); (unpack_type_int24, 3);
      (unpack_type_long, 4); (unpack_type_longlong, 8)] ->
  n <= ByteReader.remaining r ->
  exists v,
    routine E context r
    = (ByteReader.advance r n, Ok ("'" ++ str v ++ "'"))
    /\ (if DECIMAL (flags context)
        then - 2 ^ (8 * n - 1) <= v < 2 ^ (8 * n - 1)
        else 0 <= v < 2 ^ (8 * n)).
Proof.
  intros Hin Hr. simpl in Hin.
  destruct Hin as [H | [H | [H | [H | [H | []]]]]];
    injection H as <- <-;
    apply (integer_default _ context r); lia.
Qed.


(** *** Dates and times *)

Lemma div_pack (a b q : Z) : 0 <= b < q -> (a * q + b) / q = a.
Proof. intros H. symmetry. apply (Z.div_unique _ _ _ b); lia. Qed.

Lemma mod_pack (a b q : Z) : 0 <= b < q -> (a * q + b) mod q = b.
Proof. intros H. symmetry. apply (Z.mod_unique _ _ a); lia. Qed.

(** NEWDATE reads three bytes holding year * 512 + month * 32 + day and
    renders the three fields. *)
Theorem unpack_type_newdate_fields (context : Context) (r : ByteReader.t)
  (year month day : Z) :
  3 <= ByteReader.remaining r ->
  0 <= year -> 0 <= month < 16 -> 0 <= day < 32 ->
  decode_uint (default_endian E) (next_bytes r 3)
    = year * 512 + month * 32 + day ->
  unpack_type_newdate E context r
  = (ByteReader.advance r 3,
     Ok ("'" ++ fmt_wd 4 year ++ "-" ++ fmt_0d 2 month ++ "-"
         ++ fmt_0d 2 day ++ "'")).
Proof.
  intros Hr Hy Hm Hd Hv.
  unfold unpack_type_newdate, bind, uint24.
  rewrite read_uint_spec by lia. rewrite Hv. unfold ret.
  rewrite !Z.shiftr_div_pow2 by lia.
  change 15 with (Z.ones 4). change 31 with (Z.ones 5).
  rewrite !Z.land_ones by lia.
  change (2 ^ 9) with 512. change (2 ^ 5) with 32. change (2 ^ 4) with 16.
  replace (year * 512 + month * 32 + day)
    with ((year * 16 + month) * 32 + day) by ring.
  rewrite (mod_pack _ day 32) by lia.
  rewrite (div_pack _ day 32) by lia.
  rewrite (mod_pack year month 16) by lia.
  replace ((year * 16 + month) * 32 + day)
    with (year * 512 + (month * 32 + day)) by ring.
  rewrite (div_pack year _ 512) by lia.
  reflexivity.
Qed.

(** the legacy TIME without fraction reads three bytes holding
    hour * 10000 + minute * 100 + second and renders hh:mm:ss. *)
Theorem unpack_type_time_fields (context : Context) (r : ByteReader.t)
  (hour minute second : Z) :
  length context - MAX_TIME_WIDTH E - 1 <= 0 ->
  3 <= ByteReader.remaining r ->
  0 <= hour -> 0 <= minute < 100 -> 0 <= second < 100 ->
  decode_uint (default_endian E) (next_bytes r 3)
    = hour * 10000 + minute * 100 + second ->
  unpack_type_time E context r
  = (ByteReader.advance r 3,
     Ok ("'" ++ fmt_0d 2 hour ++ ":" ++ fmt_0d 2 minute ++ ":"
         ++ fmt_0d 2 second ++ "'")).
Proof.
  intros Hs Hr Hh Hm Hsec Hv.
  unfold unpack_type_time.
  destruct (Z.ltb_spec 0 (length context - MAX_TIME_WIDTH E - 1)); [lia |].
  unfold bind, uint24. rewrite read_uint_spec by lia. rewrite Hv. unfold ret.
  replace (hour * 10000 + minute * 100 + second)
    with ((hour * 100 + minute) * 100 + second) by ring.
  rewrite (mod_pack _ second 100) by lia.
  rewrite (div_pack _ second 100) by lia.
  rewrite (mod_pack hour minute 100) by lia.
  replace ((hour * 100 + minute) * 100 + second)
    with (hour * 10000 + (minute * 100 + second)) by ring.
  rewrite (div_pack hour _ 10000) by lia.
  reflexivity.
Qed.

(** the legacy DATETIME without fraction reads eight bytes holding the
    decimal digits yyyymmddhhmmss and renders each field zero-filled. *)
Theorem unpack_type_datetime_fields (context : Context) (r : ByteReader.t)
  (year month day hour minute second : Z) :
  length context - MAX_DATETIME_WIDTH E - 1 <= 0 ->
  8 <= ByteReader.remaining r ->
  0 <= year < 10000 -> 0 <= month < 100 -> 0 <= day < 100 ->
  0 <= hour < 100 -> 0 <= minute < 100 -> 0 <= second < 100 ->
  decode_uint (default_endian E) (next_bytes r 8)
    = ((((year * 100 + month) * 100 + day) * 100 + hour) * 100 + minute)
      * 100 + second ->
  unpack_type_datetime E context r
  = (ByteReader.advance r 8,
     Ok ("'" ++ zfill 4 (str year) ++ "-" ++ zfill 2 (str month) ++ "-"
         ++ zfill 2 (str day) ++ " " ++ zfill 2 (str hour) ++ ":"
         ++ zfill 2 (str minute) ++ ":" ++ zfill 2 (str second) ++ "'")).
Proof.
  intros Hs Hr Hy Hmo Hd Hh Hmi Hsec Hv.
  unfold unpack_type_datetime.
  destruct (Z.ltb_spec 0 (length context - MAX_DATETIME_WIDTH E - 1)); [lia |].
  unfold bind, uint64. rewrite read_uint_spec by lia. rewrite Hv. unfold ret.
  change (10 ^ 2) with 100. change (10 ^ 4) with 10000.
  repeat first [rewrite mod_pack by lia | rewrite div_pack by lia].
  rewrite (Z.mod_small year) by lia.
  reflexivity.
Qed.


Lemma testbit_above (a n i : Z) :
  0 <= a < 2 ^ n -> 0 <= n <= i -> Z.testbit a i = false.
Proof.
  intros Ha Hn. apply Z.testbit_false; [lia |].
  rewrite Z.div_small; [reflexivity |].
  split; [lia |]. eapply Z.lt_le_trans; [apply Ha |].
  apply Z.pow_le_mono_r; lia.
Qed.

(** Clearing bit 17 of a number below 2^18 leaves its low 17 bits. *)
Lemma clear_bit_17 (x : Z) :
  0 <= x < 2 ^ 18 -> Z.land x (Z.lnot (2 ^ 17)) = x mod 2 ^ 17.
Proof.
  intros Hx. apply Z.bits_inj'. intros i Hi.
  rewrite Z.land_spec, Z.lnot_spec, Z.pow2_bits_eqb by lia.
  destruct (Z.ltb_spec i 17) as [Hlt | Hge].
  - rewrite Z.mod_pow2_bits_low by lia.
    destruct (Z.eqb_spec 17 i); [lia |]. apply andb_true_r.
  - rewrite Z.mod_pow2_bits_high by lia.
    destruct (Z.eqb_spec 17 i) as [<- | Hne]; [apply andb_false_r |].
    rewrite (testbit_above x 18 i) by lia. reflexivity.
Qed.

(** DATETIME2 without fraction reads five bytes, most significant
    first, and gives back the six fields packed into them, whatever the top
    bit. *)
Theorem unpack_type_datetime2_fields (context : Context) (r : ByteReader.t)
  (top year month day hour minute second : Z) :
  length context - MAX_DATETIME_WIDTH E - 1 <= 0 ->
  5 <= ByteReader.remaining r ->
  0 <= top <= 1 ->
  0 <= year -> 0 <= month < 13 -> year * 13 + month < 2 ^ 17 ->
  0 <= day < 32 -> 0 <= hour < 32 -> 0 <= minute < 64 -> 0 <= second < 64 ->
  be_uint (next_bytes r 5)
    = ((top * 2 ^ 17 + (year * 13 + month)) * 32 + day) * 2 ^ 17
      + ((hour * 64 + minute) * 64 + second) ->
  unpack_type_datetime2 E context r
  = (ByteReader.advance r 5,
     Ok ("'" ++ (str year ++ "-" ++ fmt_0d 2 month ++ "-" ++ fmt_0d 2 day
                 ++ " " ++ fmt_0d 2 hour ++ ":" ++ fmt_0d 2 minute ++ ":"
                 ++ fmt_0d 2 second) ++ "'")).
Proof.
  intros Hs Hr Htop Hy Hmo Hym Hd Hh Hmi Hsec Hv.
  unfold unpack_type_datetime2.
  destruct (Z.ltb_spec 0 (length context - MAX_DATETIME_WIDTH E - 1)); [lia |].
  unfold bind at 1. unfold uint40. rewrite read_uint_spec by lia.
  cbn [decode_uint]. rewrite Hv. unfold bind, ret.
  rewrite !Z.shiftr_div_pow2, !Z.shiftl_mul_pow2 by lia.
  change (2 ^ 5) with 32 in *. change (2 ^ 6) with 64. change (2 ^ 12) with 4096.
  rewrite !Z.mul_1_l.
  set (hms := (hour * 64 + minute) * 64 + second).
  assert (Hhms : 0 <= hms < 2 ^ 17) by (subst hms; change (2 ^ 17) with 131072; lia).
  rewrite (div_pack _ hms (2 ^ 17)) by exact Hhms.
  rewrite (mod_pack _ hms (2 ^ 17)) by exact Hhms.
  rewrite (div_pack _ day 32), (mod_pack _ day 32) by lia.
  rewrite clear_bit_17
    by (change (2 ^ 18) with (2 * 2 ^ 17); lia).
  rewrite (mod_pack top _ (2 ^ 17)) by lia.
  rewrite (mod_pack year month 13), (div_pack year month 13) by lia.
  subst hms.
  rewrite (mod_pack _ second 64), (div_pack _ second 64) by lia.
  rewrite (mod_pack hour minute 64) by lia.
  replace ((hour * 64 + minute) * 64 + second)
    with (hour * 4096 + (minute * 64 + second)) by ring.
  rewrite (div_pack hour _ 4096) by lia.
  reflexivity.
Qed.


Lemma byte_top_bit (b : byte) :
  truthy (Z.land (byte_val b) 128) = (128 <=? byte_val b).
Proof. destruct b; reflexivity. Qed.

Lemma next_bytes_3 (r : ByteReader.t) :
  3 <= ByteReader.remaining r ->
  exists b0 b1 b2, next_bytes r 3 = [b0; b1; b2].
Proof.
  intros Hr. pose proof (next_bytes_length r 3) as Hl.
  destruct (next_bytes r 3) as [|b0 [|b1 [|b2 [|b3 l]]]];
    simpl in Hl; try lia.
  now exists b0, b1, b2.
Qed.

(** TIME2 without fraction, for a time that is not negative: the three
    bytes hold 2^23 + hour * 4096 + minute * 64 + second, most significant
    first, and the routine renders hh:mm:ss. *)
Theorem unpack_type_time2_fields (context : Context) (r : ByteReader.t)
  (hour minute second : Z) :
  length context - MAX_TIME_WIDTH E - 1 <= 0 ->
  3 <= ByteReader.remaining r ->
  0 <= hour < 1024 -> 0 <= minute < 64 -> 0 <= second < 64 ->
  be_uint (next_bytes r 3)
    = 2 ^ 23 + ((hour * 64 + minute) * 64 + second) ->
  unpack_type_time2 E context r
  = (ByteReader.advance r 3,
     Ok ("'" ++ (fmt_0d 2 hour ++ ":" ++ fmt_0d 2 minute ++ ":"
                 ++ fmt_0d 2 second) ++ "'")).
Proof.
  intros Hs Hr Hh Hm Hsec Hv.
  unfold unpack_type_time2.
  destruct (Z.ltb_spec 0 (length context - MAX_TIME_WIDTH E - 1)); [lia |].
  unfold bind at 1. rewrite read_ok by lia. fold (next_bytes r 3).
  destruct (next_bytes_3 r Hr) as [b0 [b1 [b2 Hb]]]. rewrite Hb in *.
  pose proof (byte_val_range b0) as H0.
  pose proof (byte_val_range b1) as H1.
  pose proof (byte_val_range b2) as H2.
  assert (Hu : be_uint [b0; b1; b2]
               = (byte_val b0 * 256 + byte_val b1) * 256 + byte_val b2)
    by (unfold be_uint; simpl; lia).
  rewrite Hu in Hv. change (2 ^ 23) with 8388608 in Hv.
  assert (Htop : 128 <= byte_val b0) by lia.
  unfold bind at 1. unfold lift at 1. cbn [unpack_from_B].
  rewrite byte_top_bit.
  destruct (Z.leb_spec 128 (byte_val b0)); [| lia]. cbn [negb].
  unfold bind at 1. unfold lift at 1. unfold pack_b.
  destruct (Z.leb_spec (-128) (byte_val b0 - 128)); [| lia].
  destruct (Z.leb_spec (byte_val b0 - 128) 127); [| lia]. cbn [andb].
  rewrite Z.mod_small by lia.
  rewrite NewDecimal.slice_tail.
  unfold bind at 1. unfold lift at 1. unfold unpack_be_i32.
  cbn [List.length]. change (Z.of_nat 4 =? 4) with true. cbv iota.
  assert (Hval : be_uint [x00; byte_of (byte_val b0 - 128); b1; b2]
                 = (hour * 64 + minute) * 64 + second).
  { unfold be_uint; simpl fold_left.
    rewrite NewDecimal.byte_val_byte_of by lia.
    change (byte_val x00) with 0. lia. }
  rewrite Hval. unfold signed.
  destruct (Z.ltb_spec ((hour * 64 + minute) * 64 + second) (2 ^ (32 - 1)));
    [| change (2 ^ (32 - 1)) with 2147483648 in *; lia].
  unfold bind, ret.
  rewrite !Z.shiftr_div_pow2, !Z.shiftl_mul_pow2 by lia.
  change (2 ^ 6) with 64. change (2 ^ 12) with 4096.
  change (2 ^ 10) with 1024. rewrite !Z.mul_1_l.
  rewrite (mod_pack _ second 64), (div_pack _ second 64) by lia.
  rewrite (mod_pack hour minute 64) by lia.
  replace ((hour * 64 + minute) * 64 + second)
    with (hour * 4096 + (minute * 64 + second)) by ring.
  rewrite (div_pack hour _ 4096) by lia.
  rewrite (Z.mod_small hour) by lia.
  reflexivity.
Qed.


(** *** SET and BIT *)



(** BIT(n) for n from 1 to 64 reads the bytes that hold n bits and
    renders their big-endian value in binary. *)
Theorem unpack_type_bit_value (context : Context) (r : ByteReader.t) :
  let nbytes := (length context + 7) / 8 in
  1 <= length context <= 64 ->
  nbytes <= ByteReader.remaining r ->
  unpack_type_bit context r
  = (ByteReader.advance r nbytes,
     Ok ("b'" ++ bin_digits (be_uint (next_bytes r nbytes)) ++ "'")).
Proof.
  intros nbytes Hl Hr.
  assert (Hn : 1 <= nbytes <= 8).
  { subst nbytes.
    assert (1 <= (length context + 7) / 8)
      by (apply Z.div_le_lower_bound; lia).
    assert ((length context + 7) / 8 < 9)
      by (apply Z.div_lt_upper_bound; lia).
    lia. }
  unfold unpack_type_bit. fold nbytes. unfold bind at 1.
  rewrite read_ok by exact Hr. fold (next_bytes r nbytes).
  pose proof (next_bytes_length r nbytes) as Hlen.
  unfold bind, lift, unpack_be_u64, bytes_times.
  rewrite length_app, repeat_length.
  destruct (Z.eqb_spec
              (Z.of_nat (Z.to_nat (8 - nbytes)
                         + List.length (next_bytes r nbytes))) 8); [| lia].
  rewrite NewDecimal.be_uint_app, NewDecimal.be_uint_repeat_00.
  reflexivity.
Qed.

(** BIT(n) beyond 64 bits reads its bytes and then raises
    [struct.error]: the value does not fit the eight bytes it is unpacked
    from. *)
Theorem unpack_type_bit_too_long (context : Context) (r : ByteReader.t) :
  let nbytes := (length context + 7) / 8 in
  64 < length context ->
  nbytes <= ByteReader.remaining r ->
  unpack_type_bit context r
  = (ByteReader.advance r nbytes, Raise StructError).
Proof.
  intros nbytes Hl Hr.
  assert (Hn : 9 <= nbytes)
    by (subst nbytes; apply Z.div_le_lower_bound; lia).
  unfold unpack_type_bit. fold nbytes. unfold bind at 1.
  rewrite read_ok by exact Hr. fold (next_bytes r nbytes).
  pose proof (next_bytes_length r nbytes) as Hlen.
  unfold bind, lift, unpack_be_u64, bytes_times.
  rewrite length_app, repeat_length.
  destruct (Z.eqb_spec
              (Z.of_nat (Z.to_nat (8 - nbytes)
                         + List.length (next_bytes r nbytes))) 8); [lia |].
  reflexivity.
Qed.


(** *** TIMESTAMP2 *)

(** a TIMESTAMP2 column whose length gives a scale beyond 6 fails after
    the four bytes of the epoch have been read: with [ValueError] for a
    scale from 7 to 9 and with [IndexError] beyond. *)
Theorem unpack_type_timestamp2_bad_scale (context : Context)
  (r : ByteReader.t) :
  let scale := length context - MAX_DATETIME_WIDTH E - 1 in
  6 < scale ->
  4 <= ByteReader.remaining r ->
  unpack_type_timestamp2 E context r
  = (ByteReader.advance r 4,
     Raise (if scale <=? 9 then ValueError else IndexError)).
Proof.
  intros scale Hs Hr.
  unfold unpack_type_timestamp2. fold scale. unfold bind at 1.
  destruct (sint32_ok Big r Hr) as [epoch ->].
  destruct (Z.ltb_spec 0 scale); [| lia].
  unfold bind at 1. unfold bind at 1. unfold bind at 1. unfold lift at 1.
  destruct (Z.leb_spec scale 9).
  - assert (Hcase : scale = 7 \/ scale = 8 \/ scale = 9) by lia.
    destruct Hcase as [-> | [-> | ->]]; reflexivity.
  - assert (Hidx : index DIGITS_TO_BYTES scale = Raise IndexError).
    { unfold index. cbn [List.length DIGITS_TO_BYTES].
      destruct (Z.ltb_spec scale 0); [lia |].
      destruct (Z.ltb_spec scale 0); [lia |].
      destruct (Z.leb_spec (Z.of_nat 10) scale); [reflexivity | lia]. }
    rewrite Hidx. reflexivity.
Qed.

(** for a TIMESTAMP2 column whose default or update value is the
    current time, the text does not depend on the bytes read: it is
    CURRENT_TIMESTAMP with the scale in parentheses when there is one, and
    for both roles the ON UPDATE clause follows. *)
Theorem unpack_type_timestamp2_symbolic (context : Context)
  (r : ByteReader.t) :
  let scale := length context - MAX_DATETIME_WIDTH E - 1 in
  let scale_str := if 0 <? scale then "(" ++ str scale ++ ")" else "" in
  scale <= 6 ->
  4 + fraction_bytes scale <= ByteReader.remaining r ->
  (Enum.name (unireg_check context) = "TIMESTAMP_DN_FIELD" ->
   unpack_type_timestamp2 E context r
   = (ByteReader.advance r (4 + fraction_bytes scale),
      Ok ("CURRENT_TIMESTAMP" ++ scale_str)))
  /\ (Enum.name (unireg_check context) = "TIMESTAMP_DNUN_FIELD" ->
      unpack_type_timestamp2 E context r
      = (ByteReader.advance r (4 + fraction_bytes scale),
         Ok ("CURRENT_TIMESTAMP" ++ scale_str
             ++ " ON UPDATE CURRENT_TIMESTAMP" ++ scale_str))).
Proof.
  intros scale scale_str Hs Hr.
  assert (Hgen : exists value,
    unpack_type_timestamp2 E context r
    = (if name_is (unireg_check context) "TIMESTAMP_DN_FIELD" then
         ret ("CURRENT_TIMESTAMP" ++ scale_str)
       else if name_is (unireg_check context) "TIMESTAMP_UN_FIELD" then
         ret ("'" ++ value ++ "' ON UPDATE CURRENT_TIMESTAMP" ++ scale_str)
       else if name_is (unireg_check context) "TIMESTAMP_DNUN_FIELD" then
         ret ("CURRENT_TIMESTAMP" ++ scale_str
              ++ " ON UPDATE CURRENT_TIMESTAMP" ++ scale_str)
       else ret ("'" ++ value ++ "'"))
      (ByteReader.advance r (4 + fraction_bytes scale))).
  { unfold unpack_type_timestamp2. fold scale. fold scale_str.
    unfold bind at 1.
    destruct (sint32_ok Big r) as [epoch ->];
      [pose proof (fraction_bytes_nonneg scale); lia |].
    unfold bind at 1.
    destruct (Z.ltb_spec 0 scale) as [Hpos | Hneg].
    - destruct (fraction_bytes_index scale) as [Hidx Hrange]; [lia |].
      unfold bind at 1. unfold lift at 1. rewrite Hidx.
      destruct (timestamp2_fraction_ok (fraction_bytes scale)
                  (ByteReader.advance r 4)) as [v Hv];
        [exact Hrange | rewrite remaining_advance; lia |].
      unfold bind at 1. rewrite Hv. unfold ret at 1.
      rewrite advance_advance by lia.
      eexists. reflexivity.
    - unfold ret at 1.
      replace (fraction_bytes scale) with 0
        by (unfold fraction_bytes; destruct (Z.ltb_spec 0 scale);
            [lia | reflexivity]).
      replace (4 + 0) with 4 by lia.
      eexists. reflexivity. }
  destruct Hgen as [value Hgen]. rewrite Hgen. unfold name_is.
  split; intros ->; reflexivity.
Qed.


(** *** Strings *)

(** VARCHAR reads a length prefix of one byte when the column length is
    below 256 and of two bytes otherwise, then as many bytes as the prefix
    says, whatever the charset and whether or not they decode. *)
Theorem unpack_type_varchar_consumes (context : Context) (r : ByteReader.t) :
  let w := if length context <? 256 then 1 else 2 in
  let n := decode_uint (default_endian E) (next_bytes r w) in
  w + n <= ByteReader.remaining r ->
  fst (unpack_type_varchar E context r) = ByteReader.advance r (w + n).
Proof.
  intros w n Hr.
  pose proof (decode_uint_bound (default_endian E) (next_bytes r w)) as Hn.
  fold n in Hn.
  assert (Hw : 1 <= w <= 2) by (subst w; destruct (_ <? _); lia).
  assert (Hprefix :
    (if length context <? 256 then uint8 (default_endian E)
     else uint16 (default_endian E)) r = (ByteReader.advance r w, Ok n)).
  { subst n w. unfold uint8, uint16.
    destruct (length context <? 256); apply read_uint_spec; lia. }
  unfold unpack_type_varchar. unfold bind at 1. rewrite Hprefix.
  unfold bind at 1.
  rewrite read_ok by (rewrite remaining_advance; lia).
  rewrite advance_advance by lia.
  destruct (String.eqb _ "binary"); [reflexivity |].
  unfold bind, lift. destruct (codec_decode E _ _); reflexivity.
Qed.

Lemma ascii_of_byte_zero (b : byte) : ascii_of_byte b = Ascii.zero -> b = x00.
Proof.
  intros H. apply (f_equal byte_of_ascii) in H.
  now rewrite byte_of_ascii_of_byte in H.
Qed.

Lemma in_list_ascii_app (c : ascii) (a b : string) :
  In c (list_ascii_of_string (a ++ b))
  <-> In c (list_ascii_of_string a) \/ In c (list_ascii_of_string b).
Proof.
  induction a as [|x a IH]; simpl; [tauto |]. rewrite IH. tauto.
Qed.

Lemma rstrip_space_subset (c : ascii) (s : string) :
  In c (list_ascii_of_string (rstrip_space s)) ->
  In c (list_ascii_of_string s).
Proof.
  induction s as [|x s IH]; simpl; [tauto |].
  destruct (rstrip_space s) as [|y t].
  - destruct (Ascii.eqb x " "); simpl; tauto.
  - simpl in *. tauto.
Qed.

Lemma decode_ascii_replace_nul (data : list byte) :
  In Ascii.zero (list_ascii_of_string (decode_ascii_replace data)) ->
  In x00 data.
Proof.
  induction data as [|b data IH]; simpl; [tauto |].
  destruct (byte_val b <? 128).
  - simpl. intros [H | H]; [left | right; auto].
    now apply ascii_of_byte_zero.
  - simpl. intros [H | [H | [H | H]]]; try discriminate H. right; auto.
Qed.

(** The text rendered for the bytes of a binary string holds no NUL. *)
Lemma binary_text_nul_free (data : list byte) :
  nul_free ("'" ++ rstrip_space (decode_ascii_replace (replace_nul data))
            ++ "'").
Proof.
  unfold nul_free. rewrite !in_list_ascii_app. simpl.
  intros [[H | []] | [H | [H | []]]]; try discriminate H.
  apply rstrip_space_subset, decode_ascii_replace_nul in H.
  now apply replace_nul_no_nul in H.
Qed.

(** for the binary charset, CHAR and VARCHAR render a text that holds no
    NUL character, whatever bytes are stored. *)
Theorem binary_strings_nul_free (context : Context) (r : ByteReader.t)
  (r' : ByteReader.t) (text : string) :
  Charset.name (charset context) = "binary" ->
  unpack_type_string E context r = (r', Ok text)
  \/ unpack_type_varchar E context r = (r', Ok text) ->
  nul_free text.
Proof.
  intros Hname [H | H].
  - unfold unpack_type_string, bind in H.
    destruct (read (length context) r) as [r1 [data | e]]; [| discriminate].
    rewrite Hname in H. cbn [String.eqb] in H.
    change (String.eqb "binary" "binary") with true in H.
    injection H as _ <-. apply binary_text_nul_free.
  - unfold unpack_type_varchar, bind in H.
    destruct ((if length context <? 256 then uint8 (default_endian E)
               else uint16 (default_endian E)) r) as [r1 [len | e]];
      [| discriminate].
    destruct (read len r1) as [r2 [data | e]]; [| discriminate].
    rewrite Hname in H.
    change (String.eqb "binary" "binary") with true in H.
    injection H as _ <-. apply binary_text_nul_free.
Qed.


(** *** The vendor TIME(N) *)

(** a legacy TIME column whose length gives a scale from 1 to 6 is read
    as the vendor format, from 4, 4, 5, 5, 5 or 6 bytes: the three-byte
    entry of the table belongs to scale 0, which takes the legacy path. *)
Theorem unpack_type_time_hires_consumes (context : Context)
  (r : ByteReader.t) :
  let scale := length context - MAX_TIME_WIDTH E - 1 in
  let n := nth (Z.to_nat scale) TIME_HIRES_BYTES 0 in
  1 <= scale <= 6 ->
  n <= ByteReader.remaining r ->
  exists text,
    unpack_type_time E context r = (ByteReader.advance r n, Ok text)
    /\ In n [4; 5; 6].
Proof.
  intros scale n Hs Hr.
  unfold unpack_type_time. fold scale.
  destruct (Z.ltb_spec 0 scale); [| lia].
  unfold _unpack_type_time_hires.
  assert (Hcase : scale = 1 \/ scale = 2 \/ scale = 3 \/ scale = 4
                  \/ scale = 5 \/ scale = 6) by lia.
  assert (Hdisp : exists f : endian -> Reader Z,
    (pack_length <- lift (index TIME_HIRES_BYTES scale) ;;
     (if pack_length =? 3 then ret uint24
      else if pack_length =? 4 then ret uint32
      else if pack_length =? 5 then ret uint40
      else if pack_length =? 6 then ret uint48
      else raise KeyError)) r = (r, Ok f)
    /\ f = read_uint n /\ In n [4; 5; 6]).
  { subst n.
    destruct Hcase as [H0 | [H0 | [H0 | [H0 | [H0 | H0]]]]]; rewrite H0;
      eexists; (split; [reflexivity |]); split;
      try reflexivity; simpl; auto. }
  destruct Hdisp as [f [Hd [Hf Hin]]].
  unfold bind in Hd |- *. unfold lift in Hd |- *.
  destruct (index TIME_HIRES_BYTES scale) as [pl | e]; [| discriminate Hd].
  destruct ((if pl =? 3 then ret uint24
             else if pl =? 4 then ret uint32
             else if pl =? 5 then ret uint40
             else if pl =? 6 then ret uint48
             else raise KeyError) r) as [r1 [g | e]] eqn:Hg;
    [| discriminate Hd].
  injection Hd as -> ->. rewrite Hf.
  rewrite read_uint_spec by exact Hr.
  eexists. split; [reflexivity | exact Hin].
Qed.


(** a legacy TIME column whose length gives a scale beyond 6 raises
    [IndexError] before anything is read. *)
Theorem unpack_type_time_bad_scale (context : Context) (r : ByteReader.t) :
  6 < length context - MAX_TIME_WIDTH E - 1 ->
  unpack_type_time E context r = (r, Raise IndexError).
Proof.
  intros Hs. unfold unpack_type_time.
  destruct (Z.ltb_spec 0 (length context - MAX_TIME_WIDTH E - 1)); [| lia].
  unfold _unpack_type_time_hires, bind, lift.
  assert (Hidx : index TIME_HIRES_BYTES (length context - MAX_TIME_WIDTH E - 1)
                 = Raise IndexError).
  { unfold index. cbn [List.length TIME_HIRES_BYTES].
    destruct (Z.ltb_spec (length context - MAX_TIME_WIDTH E - 1) 0); [lia |].
    destruct (Z.ltb_spec (length context - MAX_TIME_WIDTH E - 1) 0); [lia |].
    destruct (Z.leb_spec (Z.of_nat 7) (length context - MAX_TIME_WIDTH E - 1));
      [reflexivity | lia]. }
  now rewrite Hidx.
Qed.

(** *** [_decode_decimal] *)

Lemma unpack_be_i32s_ok (k : nat) (data : list byte) :
  List.length data = (4 * k)%nat ->
  exists groups, unpack_be_i32s data = Ok groups /\ List.length groups = k.
Proof.
  revert data. induction k as [|k IH]; intros data Hl.
  - destruct data; [| discriminate]. exists []. split; reflexivity.
  - destruct data as [|a [|b [|c [|d rest]]]]; simpl in Hl; try lia.
    destruct (IH rest) as [gs [Hg Hk]]; [lia |].
    cbn [unpack_be_i32s]. rewrite Hg. cbn [rbind].
    eexists. split; [reflexivity |]. simpl. now rewrite Hk.
Qed.

Lemma slice_head_length {A} (l : list A) (m : Z) :
  0 < m <= Z.of_nat (List.length l) ->
  Z.of_nat (List.length (slice l None (Some (- m))))
  = Z.of_nat (List.length l) - m.
Proof.
  intros Hm. unfold slice, clamp_index.
  destruct (Z.ltb_spec (- m) 0); [| lia].
  rewrite Z.max_r by lia. cbn [Z.to_nat skipn].
  rewrite length_firstn. lia.
Qed.

Lemma slice_tail_length {A} (l : list A) (m : Z) :
  0 < m <= Z.of_nat (List.length l) ->
  Z.of_nat (List.length (slice l (Some (- m)) None)) = m.
Proof.
  intros Hm. unfold slice, clamp_index.
  destruct (Z.ltb_spec (- m) 0); [| lia].
  rewrite Z.max_r by lia.
  rewrite length_firstn, length_skipn. lia.
Qed.

(** [_decode_decimal] never raises: whatever the bytes, the padding
    brings them to whole four-byte groups, one per started group, and each
    is rendered. *)
Theorem decode_decimal_total (data : list byte) (invert : bool) :
  exists groups,
    Z.of_nat (List.length groups) = (Z.of_nat (List.length data) + 3) / 4
    /\ _decode_decimal data invert = Ok (String.concat "" (map str groups)).
Proof.
  unfold _decode_decimal. cbv zeta.
  set (len := Z.of_nat (List.length data)).
  assert (Hlen : 0 <= len) by (subst len; lia).
  pose proof (Z.mod_pos_bound len 4 ltac:(lia)) as Hm.
  pose proof (Z.div_mod len 4 ltac:(lia)) as Hdm.
  set (padded :=
    if negb (len mod 4 =? 0) then
      (slice data None (Some (- (len mod 4)))
       ++ bytes_times (4 - len mod 4) (if invert then xff else x00)
       ++ slice data (Some (- (len mod 4))) None)%list
    else data).
  assert (Hpad : Z.of_nat (List.length padded) = 4 * ((len + 3) / 4)).
  { subst padded.
    destruct (Z.eqb_spec (len mod 4) 0) as [H0 | H0]; cbn [negb].
    - fold len. rewrite H0 in Hdm.
      replace (len + 3) with (len / 4 * 4 + 3) by lia.
      rewrite div_pack by lia. lia.
    - rewrite !length_app, !Nat2Z.inj_add.
      unfold bytes_times. rewrite repeat_length.
      rewrite slice_head_length, slice_tail_length by (fold len; lia).
      fold len.
      replace (len + 3) with ((len / 4 + 1) * 4 + (len mod 4 - 1)) by lia.
      rewrite div_pack by lia. lia. }
  destruct (unpack_be_i32s_ok (Z.to_nat ((len + 3) / 4)) padded)
    as [gs [Hg Hk]]; [lia |].
  rewrite Hg. cbn [rbind].
  assert (Hq : 0 <= (len + 3) / 4) by (apply Z.div_pos; lia).
  destruct invert.
  - exists (map Z.lnot gs). split; [rewrite length_map; lia | reflexivity].
  - exists gs. split; [lia | reflexivity].
Qed.


(** *** Formatting *)

(** the charset clause is empty exactly when the collation is the
    default one of the charset and the charset is the table's or the binary
    pseudo-charset. *)
Theorem format_charset_empty (context : Context) :
  _format_charset context = ""
  <-> Charset.is_default (charset context) = true
      /\ (Charset.eqb (table_charset context) (charset context) = true
          \/ Charset.name (charset context) = "binary").
Proof.
  unfold _format_charset.
  destruct (Charset.eqb (table_charset context) (charset context));
    destruct (String.eqb_spec (Charset.name (charset context)) "binary");
    destruct (Charset.is_default (charset context)); cbn;
    split; try tauto; try discriminate;
    try (intros [H _]; discriminate H);
    try (intros [_ [H | H]]; [discriminate H | contradiction]).
Qed.

(** the display length of a DECIMAL column counts the sign and, when
    there are decimals, the point: a length of P + 1 without decimals and
    of P + 2 with them is formatted as decimal(P,S). *)
Theorem format_type_newdecimal_precision (context : Context) (P : Z) :
  let scale := f_decimals E (flags context) in
  1 <= P ->
  length context = P + 1 + (if scale =? 0 then 0 else 1) ->
  format_type_newdecimal E context
  = Ok ("decimal(" ++ str P ++ "," ++ str scale ++ ")").
Proof.
  intros scale HP Hl.
  unfold format_type_newdecimal, decimal_precision. fold scale.
  rewrite Hl. unfold truthy.
  destruct (Z.eqb_spec scale 0) as [H0 | H0]; cbn [negb].
  - rewrite Z.add_0_r.
    destruct (Z.eqb_spec (P + 1) 0); [lia |]. cbn [negb].
    now replace (P + 1 - 1) with P by lia.
  - replace (P + 1 + 1 - 1) with (P + 1) by lia.
    destruct (Z.eqb_spec (P + 1) 0); [lia |]. cbn [negb].
    now replace (P + 1 - 1) with P by lia.
Qed.

(** *** ENUM *)

Lemma index_in_range {A} (d : A) (l : list A) (i : Z) :
  0 <= i < Z.of_nat (List.length l) ->
  index l i = Ok (nth (Z.to_nat i) l d).
Proof.
  intros Hi. unfold index.
  destruct (Z.ltb_spec i 0); [lia |].
  destruct (Z.ltb_spec i 0); [lia |].
  destruct (Z.leb_spec (Z.of_nat (List.length l)) i); [lia |].
  cbn [orb].
  destruct (nth_error l (Z.to_nat i)) as [x |] eqn:Hn.
  - now rewrite (nth_error_nth _ _ d Hn).
  - apply nth_error_None in Hn. lia.
Qed.

Lemma index_above {A} (l : list A) (i : Z) :
  Z.of_nat (List.length l) <= i -> index l i = Raise IndexError.
Proof.
  intros Hi. unfold index.
  destruct (Z.ltb_spec i 0); [lia |].
  destruct (Z.ltb_spec i 0); [lia |].
  destruct (Z.leb_spec (Z.of_nat (List.length l)) i); [reflexivity | lia].
Qed.

(** ENUM with fewer than 256 labels reads a one-byte ordinal: an
    ordinal from 1 to the number of labels gives the label of that rank,
    and a larger one gives the empty text. *)
Theorem unpack_type_enum_ordinal (context : Context) (r : ByteReader.t) :
  let ordinal := byte_val (ByteReader.peek r) in
  let count := Z.of_nat (List.length (labels context)) in
  count < 256 ->
  1 <= ByteReader.remaining r ->
  1 <= ordinal ->
  unpack_type_enum E context r
  = (ByteReader.advance r 1,
     Ok (if ordinal <=? count
         then "'" ++ nth (Z.to_nat (ordinal - 1)) (labels context) "" ++ "'"
         else "''")).
Proof.
  intros ordinal count Hc Hr Ho.
  rewrite unpack_type_enum_small by (try assumption; subst count; lia).
  fold ordinal. f_equal. f_equal.
  destruct (Z.leb_spec ordinal count).
  - now rewrite (index_in_range "") by (fold count; lia).
  - now rewrite index_above by (fold count; lia).
Qed.


(** *** More on the temporal types *)

Lemma name_is_plain (u : Enum.t) (a b c d : string) (r : ByteReader.t) :
  Enum.name u <> "TIMESTAMP_DN_FIELD" ->
  Enum.name u <> "TIMESTAMP_UN_FIELD" ->
  Enum.name u <> "TIMESTAMP_DNUN_FIELD" ->
  (if name_is u "TIMESTAMP_DN_FIELD" then ret a
   else if name_is u "TIMESTAMP_UN_FIELD" then ret b
   else if name_is u "TIMESTAMP_DNUN_FIELD" then ret c
   else ret d) r = (r, Ok d).
Proof.
  intros H1 H2 H3. unfold name_is.
  apply String.eqb_neq in H1, H2, H3. now rewrite H1, H2, H3.
Qed.

(** a stored epoch of zero is the zero date, not 1970: for a plain
    TIMESTAMP column without fraction, four zero bytes render
    '0000-00-00 00:00:00', in the legacy and in the new format. *)
Theorem unpack_type_timestamp_zero (context : Context) (r : ByteReader.t) :
  length context - MAX_DATETIME_WIDTH E - 1 <= 0 ->
  4 <= ByteReader.remaining r ->
  next_bytes r 4 = [x00; x00; x00; x00] ->
  Enum.name (unireg_check context) <> "TIMESTAMP_DN_FIELD" ->
  Enum.name (unireg_check context) <> "TIMESTAMP_UN_FIELD" ->
  Enum.name (unireg_check context) <> "TIMESTAMP_DNUN_FIELD" ->
  unpack_type_timestamp E context r
    = (ByteReader.advance r 4, Ok "'0000-00-00 00:00:00'")
  /\ unpack_type_timestamp2 E context r
    = (ByteReader.advance r 4, Ok "'0000-00-00 00:00:00'").
Proof.
  intros Hs Hr Hb H1 H2 H3.
  assert (Hts2 : unpack_type_timestamp2 E context r
                 = (ByteReader.advance r 4, Ok "'0000-00-00 00:00:00'")).
  { unfold unpack_type_timestamp2.
    destruct (Z.ltb_spec 0 (length context - MAX_DATETIME_WIDTH E - 1));
      [lia |].
    unfold bind at 1. unfold sint32. rewrite read_sint_spec by exact Hr.
    rewrite Hb.
    change (signed (8 * 4) (decode_uint Big [x00; x00; x00; x00])) with 0.
    cbn [Z.eqb negb]. unfold bind, ret at 1.
    now rewrite name_is_plain by assumption. }
  split; [| exact Hts2].
  unfold unpack_type_timestamp.
  destruct (Z.ltb_spec 0 (length context - MAX_DATETIME_WIDTH E - 1)); [lia |].
  unfold bind at 1. unfold sint32. rewrite read_sint_spec by exact Hr.
  rewrite Hb.
  change (signed (8 * 4) (decode_uint Little [x00; x00; x00; x00])) with 0.
  cbn [Z.eqb negb].
  now rewrite name_is_plain by assumption.
Qed.

(** DATETIME2 with a fraction reads five bytes and then the bytes of
    the scale, for every scale from 1 to 9: unlike TIMESTAMP2 it takes the
    four-byte entries of the table for scales 7 to 9. *)
Theorem unpack_type_datetime2_consumes (context : Context)
  (r : ByteReader.t) :
  let scale := length context - MAX_DATETIME_WIDTH E - 1 in
  let n := nth (Z.to_nat scale) DIGITS_TO_BYTES 0 in
  1 <= scale <= 9 ->
  5 + n <= ByteReader.remaining r ->
  exists text,
    unpack_type_datetime2 E context r
    = (ByteReader.advance r (5 + n), Ok text).
Proof.
  intros scale n Hs Hr.
  assert (Hidx : index DIGITS_TO_BYTES scale = Ok n /\ 1 <= n <= 4).
  { subst n.
    assert (Hcase : scale = 1 \/ scale = 2 \/ scale = 3 \/ scale = 4
                    \/ scale = 5 \/ scale = 6 \/ scale = 7 \/ scale = 8
                    \/ scale = 9) by lia.
    destruct Hcase as [H | [H | [H | [H | [H | [H | [H | [H | H]]]]]]]];
      rewrite H; vm_compute; repeat split; discriminate. }
  destruct Hidx as [Hidx Hn].
  unfold unpack_type_datetime2. fold scale.
  unfold bind at 1. unfold uint40. rewrite read_uint_spec by lia.
  destruct (Z.ltb_spec 0 scale); [| lia].
  unfold bind at 1. unfold bind at 1. unfold lift at 1. rewrite Hidx.
  unfold bind at 1. rewrite read_ok by (rewrite remaining_advance; lia).
  fold (next_bytes (ByteReader.advance r 5) n).
  pose proof (next_bytes_length (ByteReader.advance r 5) n) as Hl.
  rewrite remaining_advance in Hl by lia.
  unfold bind at 1. unfold lift at 1. unfold unpack_be_u32.
  rewrite length_app. unfold bytes_times. rewrite repeat_length.
  match goal with
  | |- context [Z.of_nat ?a =? 4] =>
      destruct (Z.eqb_spec (Z.of_nat a) 4) as [_ | Hne]; [| exfalso; lia]
  end.
  unfold bind, ret. rewrite advance_advance by lia.
  eexists. reflexivity.
Qed.

End MoreProperties.

(** ** Evaluations in the concrete environment *)

(** C8: on a binary column holding one NUL byte, CHAR renders the escape
    [\0], and VAR_STRING renders the NUL character itself: its routine has
    no branch for the binary charset. *)
Theorem unpack_type_var_string_binary_nul :
  let r := ByteReader.Make [x00] 0 in
  unpack_type_string Sample.env Sample.binary1 r
    = (ByteReader.Make [x00] 1, Ok "'\0'")
  /\ unpack_type_var_string Sample.env Sample.binary1 r
    = (ByteReader.Make [x00] 1, Ok ("'" ++ String Ascii.zero "" ++ "'")).
Proof. split; vm_compute; reflexivity. Qed.

(** DECIMAL(18,9), one group of nine digits on each side of the point:
    encoded and decoded, both signs come back as they were. *)
Lemma unpack_type_newdecimal_18_9 (negative : bool) :
  let data := Encode.newdecimal negative "123456789" "000000005" in
  unpack_type_newdecimal Sample.env Sample.decimal_18_9
    (ByteReader.Make data 0)
  = (ByteReader.Make data 8,
     Ok ("'" ++ Encode.decimal_text negative "123456789" "000000005" ++ "'")).
Proof. destruct negative; vm_compute; reflexivity. Qed.

(** DECIMAL(5,2), a short group on each side of the point: both signs come
    back as they were. *)
Lemma unpack_type_newdecimal_5_2 (negative : bool) :
  let data := Encode.newdecimal negative "001" "23" in
  unpack_type_newdecimal Sample.env Sample.decimal_5_2
    (ByteReader.Make data 0)
  = (ByteReader.Make data 3,
     Ok ("'" ++ Encode.decimal_text negative "001" "23" ++ "'")).
Proof. destruct negative; vm_compute; reflexivity. Qed.

(** DECIMAL(10,0): the one-digit group comes first in the encoding, and the
    decoder pads the last byte instead. *)
Lemma unpack_type_newdecimal_10_0 :
  let data := Encode.newdecimal false "1234567890" "" in
  unpack_type_newdecimal Sample.env Sample.decimal_10_0
    (ByteReader.Make data 0)
  = (ByteReader.Make data 5, Ok "'17693496210'").
Proof. vm_compute; reflexivity. Qed.

(** C3: DECIMAL(18,0) holding 1000000005 is stored as the two groups 1 and
    000000005; the decoder joins the groups without padding the second to
    nine digits and returns ['15']. *)
Theorem unpack_type_newdecimal_two_groups :
  let data := Encode.newdecimal false "000000001000000005" "" in
  Encode.decimal_text false "000000001000000005" "" = "1000000005"
  /\ unpack_type_newdecimal Sample.env Sample.decimal_18_0
       (ByteReader.Make data 0)
     = (ByteReader.Make data 8, Ok "'15'").
Proof. split; vm_compute; reflexivity. Qed.

(** C1, as first stated, fails: a nullable column flagged as having no
    stored default leaves the null-bit cursor where it was. *)
Lemma unpack_default_no_default_null_bit :
  MAYBE_NULL (flags Sample.nullable_no_default) = true
  /\ null_bit (snd (fst (unpack_default Sample.env (ByteReader.Make [] 0)
                           Sample.nullable_no_default)))
     <> null_bit Sample.nullable_no_default + 1.
Proof. split; [reflexivity | vm_compute; discriminate]. Qed.

(** ** The Python built-ins, checked on examples *)

Module PyTests.

Example str_neg : str (-42) = "-42". Proof. reflexivity. Qed.
Example str_zero : str 0 = "0". Proof. reflexivity. Qed.
Example zfill_neg : zfill 4 "-5" = "-005". Proof. reflexivity. Qed.
Example fmt_0d_2 : fmt_0d 2 (-5) = "-5". Proof. reflexivity. Qed.
Example lower_ex : lower "TINY_BLOB" = "tiny_blob". Proof. reflexivity. Qed.
Example rstrip_ex : rstrip_space "a b  " = "a b". Proof. reflexivity. Qed.
Example slice_ex : slice [1;2;3;4;5] None (Some (-2)) = [1;2;3]. Proof. reflexivity. Qed.
Example slice_ex2 : slice [1;2;3;4;5] (Some (-2)) None = [4;5]. Proof. reflexivity. Qed.
Example index_neg : index [1;2;3] (-1) = Ok 3. Proof. reflexivity. Qed.
Example index_out : index [1;2;3] 3 = Raise IndexError. Proof. reflexivity. Qed.
Example bin_ex : bin_digits 5 = "101". Proof. reflexivity. Qed.
Example signed_ex : signed 32 (be_uint [xff; xff; xff; xfe]) = -2. Proof. reflexivity. Qed.
End PyTests.

(** ** The theorems at concrete columns *)

(** [unpack_type_year_spec] on a YEAR column that stores 70. *)
Lemma unpack_type_year_spec_witness :
  1 <= ByteReader.remaining (ByteReader.Make [x46] 0)
  /\ (unpack_type_year Sample.env (Sample.column "YEAR")
        (ByteReader.Make [x46] 0)
      = (ByteReader.Make [x46] 1, Ok "'1970'")
      /\ (70 <> 0 -> 1901 <= 1900 + 70 <= 2155)).
Proof.
  split; [vm_compute; discriminate |].
  apply (unpack_type_year_spec Sample.env (Sample.column "YEAR")
           (ByteReader.Make [x46] 0)).
  vm_compute; discriminate.
Defined.

(** [unpack_type_datetime2_2020] on a DATETIME column of length 20, with
    the top bit of the date field set as MySQL stores it. *)
Lemma unpack_type_datetime2_2020_witness :
  length Sample.datetime0 - MAX_DATETIME_WIDTH Sample.env - 1 = 0
  /\ unpack_type_datetime2 Sample.env Sample.datetime0
       (ByteReader.Make [x99; xa5; x44; x31; x05] 0)
     = (ByteReader.Make [x99; xa5; x44; x31; x05] 5,
        Ok "'2020-01-02 03:04:05'").
Proof.
  split; [reflexivity |].
  apply (unpack_type_datetime2_2020 Sample.env Sample.datetime0 true).
  reflexivity.
Defined.

(** [format_type_suffixes] on INT(11) UNSIGNED ZEROFILL NOT NULL. *)
Lemma format_type_suffixes_witness :
  lookup (lower (Enum.name (type_code Sample.int11_unsigned_zerofill)))
         (format_globals Sample.env) = Some format_type_long
  /\ format_type_long Sample.int11_unsigned_zerofill
     = Ok "int(11) unsigned zerofill"
  /\ format_type Sample.env Sample.int11_unsigned_zerofill
     = Ok "int(11) unsigned zerofill NOT NULL".
Proof.
  split; [reflexivity |]. split; [reflexivity |].
  destruct (format_type_suffixes Sample.env Sample.int11_unsigned_zerofill
              format_type_long "int(11) unsigned zerofill"
              eq_refl eq_refl) as [_ H].
  apply H; try reflexivity.
  vm_compute; discriminate.
Defined.

(** [unpack_type_timestamp2_consumes] on TIMESTAMP(3) with a default of
    CURRENT_TIMESTAMP: four bytes of epoch and two of fraction. *)
Lemma unpack_type_timestamp2_consumes_witness :
  exists text,
    unpack_type_timestamp2 Sample.env
      (set_unireg_check Sample.timestamp3 (Enum.Member "TIMESTAMP_DN_FIELD"))
      (ByteReader.Make [x5e; x0d; x5e; x25; x04; xd2] 0)
    = (ByteReader.Make [x5e; x0d; x5e; x25; x04; xd2] 6, Ok text).
Proof.
  apply (unpack_type_timestamp2_consumes Sample.env Sample.timestamp3
           (Enum.Member "TIMESTAMP_DN_FIELD")
           (ByteReader.Make [x5e; x0d; x5e; x25; x04; xd2] 0));
    vm_compute; discriminate.
Defined.

(** [unpack_default_null] on a nullable INT whose null bit is set. *)
Lemma unpack_default_null_witness :
  unpack_default Sample.env (ByteReader.Make [x2a; x00; x00; x00] 0)
    Sample.nullable_int_null
  = (ByteReader.Make [x2a; x00; x00; x00] 0,
     set_null_bit Sample.nullable_int_null 1, Ok (Some "NULL")).
Proof.
  apply (unpack_default_null Sample.env
           (ByteReader.Make [x2a; x00; x00; x00] 0)
           Sample.nullable_int_null x01); reflexivity.
Defined.

(** [unpack_default_unimplemented] on a BLOB column without blob marker. *)
Lemma unpack_default_unimplemented_witness :
  unpack_default Sample.env (ByteReader.Make [x2a] 0) (Sample.column "BLOB")
  = (ByteReader.Make [x2a] 0, Sample.column "BLOB", Raise LookupError).
Proof.
  apply (unpack_default_unimplemented Sample.env (ByteReader.Make [x2a] 0)
           (Sample.column "BLOB")).
  - reflexivity.
  - simpl. tauto.
Defined.

(** ** The further theorems at concrete columns *)

(** [format_type_lookup_error] on a column of the NULL type. *)
Lemma format_type_lookup_error_witness :
  format_type Sample.env (Sample.column "NULL") = Raise LookupError.
Proof.
  apply (proj2 (format_type_lookup_error Sample.env (Sample.column "NULL"))).
  vm_compute. intros H.
  repeat (destruct H as [H | H]; [discriminate H |]). exact H.
Defined.

(** [unpack_default_no_routine] on a column of a type the module does not
    know. *)
Lemma unpack_default_no_routine_witness :
  unpack_default Sample.env (ByteReader.Make [x2a] 0) (Sample.column "JSON")
    = (ByteReader.Make [x2a] 0, Sample.column "JSON", Raise LookupError)
  /\ format_type Sample.env (Sample.column "JSON") = Raise LookupError.
Proof.
  apply (unpack_default_no_routine Sample.env (ByteReader.Make [x2a] 0)
           (Sample.column "JSON")).
  - reflexivity.
  - vm_compute. intros H.
    repeat (destruct H as [H | H]; [discriminate H |]). exact H.
Defined.

(** [unpack_default_null_type] on a column of the NULL type. *)
Lemma unpack_default_null_type_witness :
  unpack_default Sample.env (ByteReader.Make [x2a] 0) (Sample.column "NULL")
  = (ByteReader.Make [x2a] 0, Sample.column "NULL", Raise TypeError).
Proof.
  apply (unpack_default_null_type Sample.env (ByteReader.Make [x2a] 0)
           (Sample.column "NULL")); reflexivity.
Defined.

(** [unpack_default_blob_field] on a nullable TEXT column marked as a blob
    whose null bit is set. *)
Lemma unpack_default_blob_field_witness :
  unpack_default Sample.env (ByteReader.Make [x2a] 0)
    (set_unireg_check Sample.nullable_int_null Utype.BLOB_FIELD)
  = (ByteReader.Make [x2a] 0,
     set_null_bit (set_unireg_check Sample.nullable_int_null Utype.BLOB_FIELD)
                  1,
     Ok None).
Proof.
  apply (unpack_default_blob_field Sample.env (ByteReader.Make [x2a] 0)
           (set_unireg_check Sample.nullable_int_null Utype.BLOB_FIELD));
    reflexivity.
Defined.

(** [unpack_default_none] on a nullable column flagged as having no stored
    default. *)
Lemma unpack_default_none_witness :
  ByteReader.Make [x2a] 0 = ByteReader.Make [x2a] 0
  /\ (NO_DEFAULT (flags Sample.nullable_no_default) = true
      \/ Enum.eqb (unireg_check Sample.nullable_no_default)
                  Utype.NEXT_NUMBER = true
      \/ Enum.eqb (unireg_check Sample.nullable_no_default)
                  Utype.BLOB_FIELD = true).
Proof.
  apply (unpack_default_none Sample.env (ByteReader.Make [x2a] 0)
           (ByteReader.Make [x2a] 0) Sample.nullable_no_default
           Sample.nullable_no_default).
  reflexivity.
Defined.

(** [unpack_integer_types] on a signed TINYINT that stores the byte 0xFF. *)
Lemma unpack_integer_types_witness :
  exists v,
    unpack_type_tiny Sample.env Sample.nullable_int_null
      (ByteReader.Make [xff] 0)
    = (ByteReader.Make [xff] 1, Ok ("'" ++ str v ++ "'"))
    /\ - 2 ^ 7 <= v < 2 ^ 7.
Proof.
  apply (unpack_integer_types Sample.env Sample.nullable_int_null
           (ByteReader.Make [xff] 0) unpack_type_tiny 1).
  - left. reflexivity.
  - vm_compute. discriminate.
Defined.

(** [unpack_type_newdate_fields] on the date 2020-01-02. *)
Lemma unpack_type_newdate_fields_witness :
  unpack_type_newdate Sample.env (Sample.column "NEWDATE")
    (ByteReader.Make [x22; xc8; x0f] 0)
  = (ByteReader.Make [x22; xc8; x0f] 3, Ok "'2020-01-02'").
Proof.
  apply (unpack_type_newdate_fields Sample.env (Sample.column "NEWDATE")
           (ByteReader.Make [x22; xc8; x0f] 0) 2020 1 2);
    first [reflexivity | lia | vm_compute; discriminate].
Defined.

(** [unpack_type_time_fields] on the time 12:34:56. *)
Lemma unpack_type_time_fields_witness :
  unpack_type_time Sample.env (Sample.column "TIME")
    (ByteReader.Make [x40; xe2; x01] 0)
  = (ByteReader.Make [x40; xe2; x01] 3, Ok "'12:34:56'").
Proof.
  apply (unpack_type_time_fields Sample.env (Sample.column "TIME")
           (ByteReader.Make [x40; xe2; x01] 0) 12 34 56);
    first [reflexivity | lia | vm_compute; discriminate].
Defined.

(** [unpack_type_datetime_fields] on 2020-01-02 03:04:05. *)
Lemma unpack_type_datetime_fields_witness :
  let data := rev (Encode.be_bytes 8 20200102030405) in
  unpack_type_datetime Sample.env (Sample.column "DATETIME")
    (ByteReader.Make data 0)
  = (ByteReader.Make data 8, Ok "'2020-01-02 03:04:05'").
Proof.
  apply (unpack_type_datetime_fields Sample.env (Sample.column "DATETIME")
           (ByteReader.Make (rev (Encode.be_bytes 8 20200102030405)) 0)
           2020 1 2 3 4 5);
    first [reflexivity | lia | vm_compute; discriminate].
Defined.

(** [unpack_type_datetime2_fields] on 1999-12-31 23:59:58, stored with the
    top bit set. *)
Lemma unpack_type_datetime2_fields_witness :
  let data := Encode.datetime2 true 1999 12 31 23 59 58 in
  unpack_type_datetime2 Sample.env Sample.datetime0 (ByteReader.Make data 0)
  = (ByteReader.Make data 5, Ok "'1999-12-31 23:59:58'").
Proof.
  apply (unpack_type_datetime2_fields Sample.env Sample.datetime0
           (ByteReader.Make (Encode.datetime2 true 1999 12 31 23 59 58) 0)
           1 1999 12 31 23 59 58);
    first [reflexivity | lia | vm_compute; discriminate
          | vm_compute; split; discriminate].
Defined.

(** [unpack_type_time2_fields] on the largest time, 838:59:59. *)
Lemma unpack_type_time2_fields_witness :
  unpack_type_time2 Sample.env (Sample.column "TIME2")
    (ByteReader.Make [xb4; x6e; xfb] 0)
  = (ByteReader.Make [xb4; x6e; xfb] 3, Ok "'838:59:59'").
Proof.
  apply (unpack_type_time2_fields Sample.env (Sample.column "TIME2")
           (ByteReader.Make [xb4; x6e; xfb] 0) 838 59 59);
    first [reflexivity | lia | vm_compute; discriminate].
Defined.


(** [unpack_type_bit_value] on BIT(10) storing 0x0205. *)
Lemma unpack_type_bit_value_witness :
  unpack_type_bit (Sample.with_length (Sample.column "BIT") 10)
    (ByteReader.Make [x02; x05] 0)
  = (ByteReader.Make [x02; x05] 2, Ok "b'1000000101'").
Proof.
  apply (unpack_type_bit_value (Sample.with_length (Sample.column "BIT") 10)
           (ByteReader.Make [x02; x05] 0));
    first [reflexivity | vm_compute; split; discriminate
          | vm_compute; discriminate].
Defined.

(** [unpack_type_bit_too_long] on a BIT column of length 65. *)
Lemma unpack_type_bit_too_long_witness :
  let data := Encode.be_bytes 9 1 in
  unpack_type_bit (Sample.with_length (Sample.column "BIT") 65)
    (ByteReader.Make data 0)
  = (ByteReader.Make data 9, Raise StructError).
Proof.
  apply (unpack_type_bit_too_long
           (Sample.with_length (Sample.column "BIT") 65)
           (ByteReader.Make (Encode.be_bytes 9 1) 0));
    first [reflexivity | vm_compute; discriminate].
Defined.

(** [unpack_type_timestamp2_bad_scale] on a TIMESTAMP2 column whose length
    gives scale 7. *)
Lemma unpack_type_timestamp2_bad_scale_witness :
  unpack_type_timestamp2 Sample.env
    (Sample.with_length (Sample.column "TIMESTAMP2") 27)
    (ByteReader.Make [x5e; x0d; x5e; x25; x00; x00; x00; x00] 0)
  = (ByteReader.Make [x5e; x0d; x5e; x25; x00; x00; x00; x00] 4,
     Raise ValueError).
Proof.
  apply (unpack_type_timestamp2_bad_scale Sample.env
           (Sample.with_length (Sample.column "TIMESTAMP2") 27)
           (ByteReader.Make [x5e; x0d; x5e; x25; x00; x00; x00; x00] 0));
    first [reflexivity | vm_compute; discriminate].
Defined.

(** [unpack_type_timestamp2_symbolic] on TIMESTAMP(3) DEFAULT
    CURRENT_TIMESTAMP(3). *)
Lemma unpack_type_timestamp2_symbolic_witness :
  unpack_type_timestamp2 Sample.env
    (set_unireg_check Sample.timestamp3 (Enum.Member "TIMESTAMP_DN_FIELD"))
    (ByteReader.Make [x5e; x0d; x5e; x25; x04; xd2] 0)
  = (ByteReader.Make [x5e; x0d; x5e; x25; x04; xd2] 6,
     Ok "CURRENT_TIMESTAMP(3)").
Proof.
  refine (proj1 (unpack_type_timestamp2_symbolic Sample.env
           (set_unireg_check Sample.timestamp3
              (Enum.Member "TIMESTAMP_DN_FIELD"))
           (ByteReader.Make [x5e; x0d; x5e; x25; x04; xd2] 0) _ _) _);
    first [reflexivity | vm_compute; discriminate].
Defined.

(** [binary_strings_nul_free] on BINARY(1) storing a NUL byte. *)
Lemma binary_strings_nul_free_witness : nul_free "'\0'".
Proof.
  apply (binary_strings_nul_free Sample.env Sample.binary1
           (ByteReader.Make [x00] 0) (ByteReader.Make [x00] 1) "'\0'").
  - reflexivity.
  - left. reflexivity.
Defined.

(** [unpack_type_varchar_consumes] on VARCHAR(10) storing 'ab'. *)
Lemma unpack_type_varchar_consumes_witness :
  fst (unpack_type_varchar Sample.env
         (Sample.with_length (Sample.column "VARCHAR") 10)
         (ByteReader.Make [x02; x61; x62; x00] 0))
  = ByteReader.Make [x02; x61; x62; x00] 3.
Proof.
  apply (unpack_type_varchar_consumes Sample.env
           (Sample.with_length (Sample.column "VARCHAR") 10)
           (ByteReader.Make [x02; x61; x62; x00] 0)).
  vm_compute. discriminate.
Defined.

(** [unpack_type_time_hires_consumes] on a TIME column of scale 3. *)
Lemma unpack_type_time_hires_consumes_witness :
  exists text,
    unpack_type_time Sample.env (Sample.with_length (Sample.column "TIME") 14)
      (ByteReader.Make [xb4; x6e; xfb; x00; x00] 0)
    = (ByteReader.Make [xb4; x6e; xfb; x00; x00] 5, Ok text)
    /\ In 5 [4; 5; 6].
Proof.
  apply (unpack_type_time_hires_consumes Sample.env
           (Sample.with_length (Sample.column "TIME") 14)
           (ByteReader.Make [xb4; x6e; xfb; x00; x00] 0));
    first [vm_compute; split; discriminate | vm_compute; discriminate].
Defined.

(** [unpack_type_time_bad_scale] on a TIME column of scale 7. *)
Lemma unpack_type_time_bad_scale_witness :
  unpack_type_time Sample.env (Sample.with_length (Sample.column "TIME") 18)
    (ByteReader.Make [x00] 0)
  = (ByteReader.Make [x00] 0, Raise IndexError).
Proof.
  apply (unpack_type_time_bad_scale Sample.env
           (Sample.with_length (Sample.column "TIME") 18)
           (ByteReader.Make [x00] 0)).
  reflexivity.
Defined.

(** [format_charset_empty] on a latin1 column of a latin1 table. *)
Lemma format_charset_empty_witness :
  _format_charset (Sample.column "VARCHAR") = "".
Proof.
  apply (proj2 (format_charset_empty (Sample.column "VARCHAR"))).
  split; [reflexivity | left; reflexivity].
Defined.

(** [format_type_newdecimal_precision] on DECIMAL(5,2), of length 7. *)
Lemma format_type_newdecimal_precision_witness :
  format_type_newdecimal Sample.env Sample.decimal_5_2 = Ok "decimal(5,2)".
Proof.
  apply (format_type_newdecimal_precision Sample.env Sample.decimal_5_2 5);
    first [reflexivity | lia].
Defined.

(** [unpack_type_enum_ordinal] on ENUM('a','b','c') storing ordinal 4. *)
Lemma unpack_type_enum_ordinal_witness :
  unpack_type_enum Sample.env Sample.enum_abc (ByteReader.Make [x04] 0)
  = (ByteReader.Make [x04] 1, Ok "''").
Proof.
  apply (unpack_type_enum_ordinal Sample.env Sample.enum_abc
           (ByteReader.Make [x04] 0));
    first [reflexivity | vm_compute; discriminate].
Defined.

(** [unpack_type_timestamp_zero] on a plain TIMESTAMP storing epoch 0. *)
Lemma unpack_type_timestamp_zero_witness :
  unpack_type_timestamp Sample.env (Sample.column "TIMESTAMP")
    (ByteReader.Make [x00; x00; x00; x00] 0)
    = (ByteReader.Make [x00; x00; x00; x00] 4, Ok "'0000-00-00 00:00:00'")
  /\ unpack_type_timestamp2 Sample.env (Sample.column "TIMESTAMP")
       (ByteReader.Make [x00; x00; x00; x00] 0)
    = (ByteReader.Make [x00; x00; x00; x00] 4, Ok "'0000-00-00 00:00:00'").
Proof.
  apply (unpack_type_timestamp_zero Sample.env (Sample.column "TIMESTAMP")
           (ByteReader.Make [x00; x00; x00; x00] 0));
    first [reflexivity | vm_compute; discriminate].
Defined.

(** [unpack_type_datetime2_consumes] on a DATETIME2 column of scale 7. *)
Lemma unpack_type_datetime2_consumes_witness :
  let data := (Encode.datetime2 true 2020 1 2 3 4 5
               ++ [x00; x12; xd6; x87])%list in
  exists text,
    unpack_type_datetime2 Sample.env
      (Sample.with_length (Sample.column "DATETIME2") 27)
      (ByteReader.Make data 0)
    = (ByteReader.Make data 9, Ok text).
Proof.
  apply (unpack_type_datetime2_consumes Sample.env
           (Sample.with_length (Sample.column "DATETIME2") 27)
           (ByteReader.Make (Encode.datetime2 true 2020 1 2 3 4 5
                             ++ [x00; x12; xd6; x87])%list 0));
    first [vm_compute; split; discriminate | vm_compute; discriminate].
Defined.

(** [NewDecimal.unpack_type_newdecimal_single_groups] on DECIMAL(5,2)
    holding -1.23. *)
Lemma unpack_type_newdecimal_single_groups_witness :
  unpack_type_newdecimal Sample.env Sample.decimal_5_2
    (ByteReader.Make [x7f; xfe; xe8] 0)
  = (ByteReader.Make [x7f; xfe; xe8] 3, Ok "'-1.23'").
Proof.
  apply (NewDecimal.unpack_type_newdecimal_single_groups Sample.env
           Sample.decimal_5_2 true
           (Decimal.D0 (Decimal.D0 (Decimal.D1 Decimal.Nil)))
           (Decimal.D2 (Decimal.D3 Decimal.Nil)));
    first [reflexivity | simpl; lia].
Defined.
